(** * Update bundle verification (pw_software_update)

    A shallow embedding of [update_bundle_accessor.cc]: the TUF-style
    verification pipeline of an update bundle (signature threshold check,
    root upgrade, targets metadata anti-rollback, payload measurement) and
    the accessor facade around it, followed by the properties established
    about them. *)

From Stdlib Require Import List NArith ZArith Lia Bool.
From Stdlib.Strings Require Import Byte.
Import ListNotations.

Set Implicit Arguments.

(** ** Status codes and status-carrying values *)

(** The non-OK codes of [pw::Status]. *)
Inductive Code :=
| Cancelled | Unknown | InvalidArgument | DeadlineExceeded | NotFound
| AlreadyExists | PermissionDenied | ResourceExhausted | FailedPrecondition
| Aborted | OutOfRange | Unimplemented | Internal | Unavailable | DataLoss
| Unauthenticated.

(** [pw::Result<T>], and every proto view that carries a sticky status next
    to its value: either a value or a non-OK code. *)
Inductive Result (A : Type) :=
| Val (a : A)
| Err (c : Code).
Arguments Err {A} c.

(** [pw::Status] is a result without a value. *)
Definition Status := Result unit.
Definition OkStatus : Status := Val tt.

Definition ok {A} (r : Result A) : bool :=
  match r with Val _ => true | Err _ => false end.

Definition status {A} (r : Result A) : Status :=
  match r with Val _ => OkStatus | Err c => Err c end.

Definition IsNotFound {A} (r : Result A) : bool :=
  match r with Err NotFound => true | _ => false end.

(** [PW_TRY]: leave the enclosing function with the error, or go on with the
    value. *)
Definition try {A B} (r : Result A) (k : A -> Result B) : Result B :=
  match r with Val a => k a | Err c => Err c end.

Declare Scope try_scope.
Delimit Scope try_scope with try.
Notation "x <- r ;; k" := (try r (fun x => k))
  (at level 61, r at next level, right associativity) : try_scope.
Notation "r ;;; k" := (try r (fun _ => k))
  (at level 61, right associativity) : try_scope.
Open Scope try_scope.

(** ** Bytes, readers and string-keyed maps *)

Definition bytes := list byte.

Fixpoint bytes_eqb (a b : bytes) : bool :=
  match a, b with
  | [], [] => true
  | x :: a', y :: b' => Byte.eqb x y && bytes_eqb a' b'
  | _, _ => false
  end.

(** [protobuf::Bytes] and [protobuf::String]: the bytes of a field, or the
    status with which the accessor failed. *)
Definition Bytes := Result bytes.

(** Modelled from the spec: [stream::IntervalReader::Read(dest)] (pw_stream
    is not among the sources), with a destination of [n] bytes, on the
    reader of a bytes field.  The spec has interval readers as (offset,
    length) views that are read forward into fixed-size buffers.  The reader
    hands out at most [n] bytes of the interval; an exhausted (here: empty)
    interval reads as [OutOfRange], a failed accessor reads as its own
    status.  The caller sees how many bytes were read only through the size
    of the returned span: line 107 of the source inspects that size, lines
    240 and 279 bound the interval by the buffer before reading. *)
Definition Read (n : nat) (b : Bytes) : Result bytes :=
  match b with
  | Err c => Err c
  | Val [] => Err OutOfRange
  | Val bs => Val (firstn n bs)
  end.

(** The whole destination buffer of [n] bytes after [Read], when the buffer
    was zero-initialised ([std::byte buf[n] = {}]). *)
Definition zeroed_buffer (n : nat) (read : bytes) : bytes :=
  read ++ repeat x00 (n - List.length read).

(** The whole destination buffer of [n] bytes after [Read], when the buffer
    was declared without initialiser ([std::byte buf[n];]): behind the bytes
    read it holds what was there before; [indeterminate i] is the byte the
    function finds at index [i]. *)
Definition uninitialized_buffer (n : nat) (indeterminate : nat -> byte)
  (read : bytes) : bytes :=
  read ++ map indeterminate (seq (List.length read) (n - List.length read)).

(** Modelled from the spec: [protobuf::Bytes::Equal(span)] (pw_protobuf is
    not among the sources), a constant-length byte equality: same size and
    same bytes. *)
Definition Equal (b : Bytes) (span : bytes) : Result bool :=
  match b with
  | Err c => Err c
  | Val bs => Val (bytes_eqb bs span)
  end.

(** Modelled from the spec: [map[key]] on a string-keyed proto map
    (pw_protobuf is not among the sources), here on a map already known to
    be readable: the first entry with that key, [NotFound] when there is
    none. *)
Fixpoint lookup {A} (m : list (bytes * A)) (key : bytes) : Result A :=
  match m with
  | [] => Err NotFound
  | (k, v) :: m' => if bytes_eqb k key then Val v else lookup m' key
  end.

(** [map[key]] on a map view that may itself have failed. *)
Definition map_at {A} (m : Result (list (bytes * A))) (key : bytes)
  : Result A :=
  entries <- m ;; lookup entries key.

(** ** Proto messages of the bundle (update_bundle.proto, tuf.proto) *)

Record Signature := {
  key_id : Bytes;
  sig : Bytes
}.

Record SignatureRequirement := {
  threshold : Result N;
  key_ids : Result (list bytes)
}.

Record Key := {
  keyval : Bytes
}.

Record CommonMetadata := {
  version : Result N
}.

Record RootMetadata := {
  root_common_metadata : Result CommonMetadata;
  keys : Result (list (bytes * Key));
  root_signature_requirement : Result SignatureRequirement;
  targets_signature_requirement : Result SignatureRequirement
}.

(** A [serialized_*_metadata] field is read both as bytes (the signed
    message) and as a nested message. *)
Record Serialized (A : Type) := {
  as_bytes : bytes;
  as_message : A
}.

Record SignedRootMetadata := {
  root_to_bytes : bytes;
  serialized_root_metadata : Result (Serialized RootMetadata);
  root_signatures : Result (list Signature)
}.

Record Hash := {
  function : Result N;
  hash : Bytes
}.

(** [HashFunction::SHA256] of tuf.proto. *)
Definition SHA256 : N := 1.

Record TargetFile := {
  file_name : Bytes;
  file_length : Result N;
  hashes : Result (list Hash)
}.

Record TargetsMetadata := {
  targets_common_metadata : Result CommonMetadata;
  target_files : Result (list TargetFile)
}.

Record SignedTargetsMetadata := {
  serialized_targets_metadata : Result (Serialized TargetsMetadata);
  targets_signatures : Result (list Signature)
}.

Record UpdateBundle := {
  root_metadata : Result SignedRootMetadata;
  targets_metadata : Result (list (bytes * SignedTargetsMetadata));
  target_payloads : Result (list (bytes * bytes))
}.

(** [kTopLevelTargetsName]. *)
Definition kTopLevelTargetsName : bytes :=
  ["t"; "a"; "r"; "g"; "e"; "t"; "s"]%byte.

(** [crypto::sha256::kDigestSizeBytes]. *)
Definition kDigestSizeBytes : nat := 32.

(** ** The manifest accessor *)

(** Modelled from the spec: [ManifestAccessor] (manifest_accessor.cc is not
    among the sources).  The spec describes the manifest as the logical
    view made of the TargetsMetadata plus its version, extracted from either
    the bundle or persisted device storage; the view carries the status of
    the targets metadata it was built from. *)
Definition ManifestAccessor := Result TargetsMetadata.

(** Modelled from the spec: [ManifestAccessor::FromBundle]: from the
    target_metadata map of the bundle, fetch the entry with the well-known
    key [kTopLevelTargetsName] and take its serialized targets metadata as a
    message. *)
Definition FromBundle (bundle : Result UpdateBundle) : ManifestAccessor :=
  b <- bundle ;;
  signed <- map_at (targets_metadata b) kTopLevelTargetsName ;;
  serialized <- serialized_targets_metadata signed ;;
  Val (as_message serialized).

(** Modelled from the spec: [ManifestAccessor::GetTargetFiles]. *)
Definition GetTargetFiles (m : ManifestAccessor) : Result (list TargetFile) :=
  tm <- m ;; target_files tm.

(** Modelled from the spec: [ManifestAccessor::GetVersion], the
    [common_metadata.version] of the targets metadata. *)
Definition GetVersion (m : ManifestAccessor) : Result N :=
  tm <- m ;; cm <- targets_common_metadata tm ;; version cm.

(** Modelled from the spec: [ManifestAccessor::GetTargetFile(name)];
    duplicates take the first occurrence for lookup. *)
Fixpoint find_target_file (files : list TargetFile) (name : bytes)
  : Result TargetFile :=
  match files with
  | [] => Err NotFound
  | f :: files' =>
      equal <- Equal (file_name f) name ;;
      if equal then Val f else find_target_file files' name
  end.

Definition GetTargetFile (m : ManifestAccessor) (name : bytes)
  : Result TargetFile :=
  files <- GetTargetFiles m ;; find_target_file files name.

(** ** Collaborators: crypto primitives, build configuration, backend *)

(** The primitives of pw_crypto, as parameters.  [sha256] is the digest
    computed by [crypto::sha256::Hash] over the bytes of a reader,
    [VerifyP256Signature] tells whether [crypto::ecdsa::VerifyP256Signature]
    answered OK. *)
Record Crypto := {
  sha256 : bytes -> bytes;
  VerifyP256Signature : bytes -> bytes -> bytes -> bool
}.

(** What a call of [VerifyEcdsaSignature] finds in its two local arrays,
    which it declares without initialiser: the byte at each index of
    [public_key_bytes] and of [signature_bytes]. *)
Record Uninitialized := {
  stale_public_key_bytes : nat -> byte;
  stale_signature_bytes : nat -> byte
}.

(** What the turns of the loop of one call of [VerifyMetadataSignatures]
    find, by the index of the signature. *)
Definition Stale := nat -> Uninitialized.

(** The first turn taken, what the later turns find. *)
Definition later (stale : Stale) : Stale := fun i => stale (S i).

(** The calls of [VerifyMetadataSignatures] in one verification: for the new
    root under the trusted root, for the new root under itself, and for the
    targets metadata. *)
Inductive VerifierCall :=
| NewRootUnderTrustedRoot
| NewRootUnderItself
| TargetsUnderTrustedRoot.

(** What one verification finds in the uninitialised arrays, call by
    call. *)
Definition Stack := VerifierCall -> Stale.

(** The constants of pw_software_update/config.h, as parameters. *)
Record Config := {
  PW_SOFTWARE_UPDATE_DISABLE_BUNDLE_VERIFICATION : bool;
  PW_SOFTWARE_UPDATE_WITH_PERSONALIZATION : bool;
  PW_SOFTWARE_UPDATE_MAX_TARGET_PAYLOAD_SIZE : N;
  MAX_TARGET_NAME_LENGTH : nat
}.

(** The calls the accessor makes on its backend, in the order made. *)
Inductive BackendCall :=
| GetRootMetadataReader
| SafelyPersistRootMetadata (new_root : bytes)
| BeforeManifestRead
| GetManifestReader.

(** Modelled from the spec: the backend interface (its header is not among
    the sources), as what the backend answers.  [on_device_root] is the
    message read from the reader of [GetRootMetadataReader] (a failed reader
    or seek gives a failed message), [on_device_manifest] the manifest read
    from the reader of [GetManifestReader].  The answers do not change
    during one verification. *)
Record Backend := {
  on_device_root : Result SignedRootMetadata;
  persist_root_status : bytes -> Status;
  before_manifest_read_status : Status;
  on_device_manifest : ManifestAccessor
}.

(** Modelled from the spec: the blob store holding the bundle and its reader
    (pw_blob_store is not among the sources), as what they answer. *)
Record BlobStore := {
  Init_status : Status;
  Open_status : Status;
  blob_message : Result UpdateBundle;
  Close_status : Status
}.

(** ** The accessor *)

Record UpdateBundleAccessor := {
  blob_store_ : BlobStore;
  blob_store_reader_IsOpen : bool;
  backend_ : Backend;
  bundle_ : Result UpdateBundle;
  trusted_root_ : Result SignedRootMetadata;
  disable_verification_ : bool;
  bundle_verified_ : bool;
  (** ghost: the backend calls made so far, oldest first *)
  backend_calls : list BackendCall
}.

Definition set_bundle_verified (v : bool) (a : UpdateBundleAccessor) :=
  {| blob_store_ := blob_store_ a;
     blob_store_reader_IsOpen := blob_store_reader_IsOpen a;
     backend_ := backend_ a;
     bundle_ := bundle_ a;
     trusted_root_ := trusted_root_ a;
     disable_verification_ := disable_verification_ a;
     bundle_verified_ := v;
     backend_calls := backend_calls a |}.

Definition set_trusted_root (r : Result SignedRootMetadata)
  (a : UpdateBundleAccessor) :=
  {| blob_store_ := blob_store_ a;
     blob_store_reader_IsOpen := blob_store_reader_IsOpen a;
     backend_ := backend_ a;
     bundle_ := bundle_ a;
     trusted_root_ := r;
     disable_verification_ := disable_verification_ a;
     bundle_verified_ := bundle_verified_ a;
     backend_calls := backend_calls a |}.

Definition set_bundle (b : Result UpdateBundle) (a : UpdateBundleAccessor) :=
  {| blob_store_ := blob_store_ a;
     blob_store_reader_IsOpen := blob_store_reader_IsOpen a;
     backend_ := backend_ a;
     bundle_ := b;
     trusted_root_ := trusted_root_ a;
     disable_verification_ := disable_verification_ a;
     bundle_verified_ := bundle_verified_ a;
     backend_calls := backend_calls a |}.

Definition set_reader_IsOpen (o : bool) (a : UpdateBundleAccessor) :=
  {| blob_store_ := blob_store_ a;
     blob_store_reader_IsOpen := o;
     backend_ := backend_ a;
     bundle_ := bundle_ a;
     trusted_root_ := trusted_root_ a;
     disable_verification_ := disable_verification_ a;
     bundle_verified_ := bundle_verified_ a;
     backend_calls := backend_calls a |}.

Definition record_call (c : BackendCall) (a : UpdateBundleAccessor) :=
  {| blob_store_ := blob_store_ a;
     blob_store_reader_IsOpen := blob_store_reader_IsOpen a;
     backend_ := backend_ a;
     bundle_ := bundle_ a;
     trusted_root_ := trusted_root_ a;
     disable_verification_ := disable_verification_ a;
     bundle_verified_ := bundle_verified_ a;
     backend_calls := backend_calls a ++ [c] |}.

(** Member functions: they read and update the accessor and either return a
    value or leave with a status. *)
Definition M (A : Type) : Type :=
  UpdateBundleAccessor -> Result A * UpdateBundleAccessor.

Definition ret {A} (a : A) : M A := fun st => (Val a, st).
Definition fail {A} (c : Code) : M A := fun st => (Err c, st).
Definition lift {A} (r : Result A) : M A := fun st => (r, st).
Definition get : M UpdateBundleAccessor := fun st => (Val st, st).
Definition update (f : UpdateBundleAccessor -> UpdateBundleAccessor)
  : M unit := fun st => (Val tt, f st).

Definition bind {A B} (m : M A) (k : A -> M B) : M B :=
  fun st =>
    match m st with
    | (Val a, st') => k a st'
    | (Err c, st') => (Err c, st')
    end.

Notation "x <~ m ;; k" := (bind m (fun x => k))
  (at level 61, m at next level, right associativity) : try_scope.
Notation "m ~;; k" := (bind m (fun _ => k))
  (at level 61, right associativity) : try_scope.

(** The backend calls an operation adds to the trace. *)
Definition calls_of {A} (m : M A) (st : UpdateBundleAccessor)
  : list BackendCall :=
  skipn (List.length (backend_calls st)) (backend_calls (snd (m st))).

Section Verification.

Variable crypto : Crypto.
Variable stack : Stack.
Variable config : Config.

(** ** Signature verification (anonymous namespace of the source) *)

(** [crypto::sha256::Hash(reader, digest)] on the reader of a bytes view. *)
Definition sha256_Hash (message : Bytes) : Result bytes :=
  m <- message ;; Val (sha256 crypto m).

(** [VerifyEcdsaSignature].  Key and signature are read into arrays of 65
    and 64 bytes that are declared without initialiser; only the status of
    each read is checked, and the primitive is given the whole arrays.
    [found] is what the call finds in the arrays. *)
Definition VerifyEcdsaSignature (found : Uninitialized) (public_key : Bytes)
  (digest : bytes) (signature : Bytes) : Result bool :=
  key_read <- Read 65 public_key ;;
  sig_read <- Read 64 signature ;;
  let public_key_bytes :=
    uninitialized_buffer 65 (stale_public_key_bytes found) key_read in
  let signature_bytes :=
    uninitialized_buffer 64 (stale_signature_bytes found) sig_read in
  Val (VerifyP256Signature crypto public_key_bytes digest signature_bytes).

(** The body of the loop over the signatures in [VerifyMetadataSignatures]
    (source lines 97-153), up to the decision about the signature at hand:
    an error leaves the function with that status, [Val false] goes on to
    the next signature without counting this one (key id not allowed, or
    the signature does not verify), [Val true] counts it. *)
Definition check_signature (found : Uninitialized) (message : Bytes)
  (allowed_key_ids : list bytes) (key_mapping : list (bytes * Key))
  (signature : Signature) : Result bool :=
  key_id_read_res <- Read kDigestSizeBytes (key_id signature) ;;
  if negb (List.length key_id_read_res =? kDigestSizeBytes)%nat
  then Err Internal
  else
    let key_id_buf := key_id_read_res in
    let key_id_is_allowed :=
      existsb (fun trusted => bytes_eqb trusted key_id_buf) allowed_key_ids in
    if negb key_id_is_allowed then Val false
    else
      sig_bytes <- sig signature ;;
      key_info <- lookup key_mapping key_id_buf ;;
      key_val <- keyval key_info ;;
      sha256_digest <- sha256_Hash message ;;
      VerifyEcdsaSignature found (Val key_val) sha256_digest (Val sig_bytes).

(** The loop of [VerifyMetadataSignatures] with its two counters, and the
    statements after it.  [stale 0] is what the turn at hand finds in the
    arrays of [VerifyEcdsaSignature]. *)
Fixpoint signatures_loop (stale : Stale) (message : Bytes)
  (allowed_key_ids : list bytes) (key_mapping : list (bytes * Key))
  (threshold_value : N) (signatures : list Signature)
  (verified_count total_signatures : N) : Status :=
  match signatures with
  | [] =>
      if (total_signatures =? 0)%N then Err NotFound else Err Unauthenticated
  | signature :: rest =>
      let total_signatures := (total_signatures + 1)%N in
      res <- check_signature (stale 0%nat) message allowed_key_ids key_mapping
               signature ;;
      if res then
        let verified_count := (verified_count + 1)%N in
        if (verified_count =? threshold_value)%N then OkStatus
        else signatures_loop (later stale) message allowed_key_ids
               key_mapping threshold_value rest verified_count
               total_signatures
      else signatures_loop (later stale) message allowed_key_ids key_mapping
             threshold_value rest verified_count total_signatures
  end.

Definition VerifyMetadataSignatures (stale : Stale) (message : Bytes)
  (signatures : list Signature) (signature_requirement : SignatureRequirement)
  (key_mapping : list (bytes * Key)) : Status :=
  threshold_value <- threshold signature_requirement ;;
  allowed_key_ids <- key_ids signature_requirement ;;
  signatures_loop stale message allowed_key_ids key_mapping threshold_value
    signatures 0%N 0%N.

Definition VerifyRootMetadataSignatures (stale : Stale)
  (trusted_root new_root : SignedRootMetadata) : Result bool :=
  trusted <- serialized_root_metadata trusted_root ;;
  serialized <- serialized_root_metadata new_root ;;
  key_mapping <- keys (as_message trusted) ;;
  signatures <- root_signatures new_root ;;
  signature_requirement <- root_signature_requirement (as_message trusted) ;;
  VerifyMetadataSignatures stale (Val (as_bytes serialized)) signatures
    signature_requirement key_mapping ;;;
  Val true.

(** [GetMetadataVersion(metadata, field)]; the argument is the view
    [metadata.AsMessage(field)] of the common metadata. *)
Definition GetMetadataVersion (common_metadata : Result CommonMetadata)
  : Result N :=
  cm <- common_metadata ;;
  res <- version cm ;;
  Val res.

Definition ReadProtoString (str : Bytes) (buffer_size : nat) : Result bytes :=
  match str with
  | Err c => Err c
  | Val bs =>
      if (buffer_size <? List.length bs)%nat then Err ResourceExhausted
      else Read buffer_size str
  end.

(** ** Member functions of [UpdateBundleAccessor] *)

Definition Close : M unit :=
  st <~ get ;;
  update (set_bundle_verified false) ~;;
  if blob_store_reader_IsOpen st then
    update (set_reader_IsOpen false) ~;;
    lift (Close_status (blob_store_ st))
  else ret tt.

Definition DoOpen : M unit :=
  st <~ get ;;
  lift (Init_status (blob_store_ st)) ~;;
  lift (Open_status (blob_store_ st)) ~;;
  update (set_reader_IsOpen true) ~;;
  update (set_bundle (blob_message (blob_store_ st))) ~;;
  match blob_message (blob_store_ st) with
  | Err c => update (set_reader_IsOpen false) ~;; fail c
  | Val _ => ret tt
  end.

Definition GetOnDeviceTrustedRoot : M (Result SignedRootMetadata) :=
  st <~ get ;;
  update (record_call GetRootMetadataReader) ~;;
  ret (on_device_root (backend_ st)).

Definition GetOnDeviceManifest : M ManifestAccessor :=
  st <~ get ;;
  update (record_call BeforeManifestRead) ~;;
  match before_manifest_read_status (backend_ st) with
  | Err c => ret (Err c)
  | Val _ =>
      update (record_call GetManifestReader) ~;;
      ret (on_device_manifest (backend_ st))
  end.

Definition UpgradeRoot : M unit :=
  st <~ get ;;
  let new_root := (b <- bundle_ st ;; root_metadata b) in
  let self_verifying := disable_verification_ st in
  trusted <~ (if self_verifying then ret new_root
              else GetOnDeviceTrustedRoot) ;;
  update (set_trusted_root trusted) ~;;
  match new_root with
  | Err _ => ret tt
  | Val new_root_msg =>
      trusted_msg <~ lift trusted ;;
      verify_res <~
        lift (VerifyRootMetadataSignatures (stack NewRootUnderTrustedRoot)
                trusted_msg new_root_msg) ;;
      if negb verify_res then fail Unauthenticated
      else
        verify_res <~
          lift (VerifyRootMetadataSignatures (stack NewRootUnderItself)
                  new_root_msg new_root_msg) ;;
        if negb verify_res then fail Unauthenticated
        else
          trusted_root_content <~
            lift (serialized_root_metadata trusted_msg) ;;
          trusted_root_version <~
            lift (GetMetadataVersion
                    (root_common_metadata (as_message trusted_root_content))) ;;
          new_root_content <~ lift (serialized_root_metadata new_root_msg) ;;
          new_root_version <~
            lift (GetMetadataVersion
                    (root_common_metadata (as_message new_root_content))) ;;
          if (new_root_version <? trusted_root_version)%N
          then fail Unauthenticated
          else if negb self_verifying then
            update (record_call
                      (SafelyPersistRootMetadata
                         (root_to_bytes new_root_msg))) ~;;
            lift (persist_root_status (backend_ st)
                    (root_to_bytes new_root_msg))
          else ret tt
  end.

(** The steps of [VerifyTargetsMetadata] from the retrieval of the signed
    targets metadata to the call of [VerifyMetadataSignatures] (source lines
    520-580): an error leaves [VerifyTargetsMetadata] with that status, a
    value is the pair of [top_level_targets_metadata] and [sig_res]. *)
Definition targets_sig_res (st : UpdateBundleAccessor)
  : Result (Result (Serialized TargetsMetadata) * Status) :=
  trusted_root_msg <- trusted_root_ st ;;
  signed_targets_metadata_map <- (b <- bundle_ st ;; targets_metadata b) ;;
  signed_top_level_targets_metadata <-
    lookup signed_targets_metadata_map kTopLevelTargetsName ;;
  let top_level_targets_metadata :=
    serialized_targets_metadata signed_top_level_targets_metadata in
  signatures <- targets_signatures signed_top_level_targets_metadata ;;
  trusted_root <- serialized_root_metadata trusted_root_msg ;;
  key_mapping <- keys (as_message trusted_root) ;;
  signature_requirement <-
    targets_signature_requirement (as_message trusted_root) ;;
  Val (top_level_targets_metadata,
       VerifyMetadataSignatures (stack TargetsUnderTrustedRoot)
         (m <- top_level_targets_metadata ;; Val (as_bytes m))
         signatures signature_requirement key_mapping).

Definition VerifyTargetsMetadata : M unit :=
  st <~ get ;;
  let self_verifying := disable_verification_ st in
  if self_verifying && negb (ok (trusted_root_ st)) then ret tt
  else
    checked <~ lift (targets_sig_res st) ;;
    let top_level_targets_metadata := fst checked in
    let sig_res := snd checked in
    if self_verifying && IsNotFound sig_res then ret tt
    else
      lift sig_res ~;;
      if self_verifying then ret tt
      else
        device_manifest <~ GetOnDeviceManifest ;;
        if IsNotFound device_manifest then ret tt
        else
          current_version <~ lift (GetVersion device_manifest) ;;
          new_version <~
            lift (GetMetadataVersion
                    (m <- top_level_targets_metadata ;;
                     targets_common_metadata (as_message m))) ;;
          if (new_version <? current_version)%N then fail Unauthenticated
          else ret tt.

(** The search for the SHA256 entry among the hashes of a target file (source
    lines 655-668 and 737-749).  The outer error leaves the enclosing
    function; the value is the bytes view found, [NotFound] when no entry
    has function SHA256. *)
Fixpoint find_sha256 (hs : list Hash) : Result Bytes :=
  match hs with
  | [] => Val (Err NotFound)
  | h :: rest =>
      hash_function <- function h ;;
      if (hash_function =? SHA256)%N then Val (hash h)
      else find_sha256 rest
  end.

(** A failed repeated view iterates over nothing. *)
Definition target_sha256_of (hs : Result (list Hash)) : Result Bytes :=
  match hs with
  | Err _ => Val (Err NotFound)
  | Val l => find_sha256 l
  end.

Definition VerifyInBundleTargetPayload (expected_length : N)
  (expected_sha256 : Bytes) (payload : bytes) : Status :=
  let actual_length := N.of_nat (List.length payload) in
  if negb (actual_length =? expected_length)%N then Err Unauthenticated
  else
    actual_sha256 <- sha256_Hash (Val payload) ;;
    hash_equal <- Equal expected_sha256 actual_sha256 ;;
    if negb hash_equal then Err Unauthenticated
    else OkStatus.

Definition VerifyOutOfBundleTargetPayload (target_name : bytes)
  (expected_length : N) (expected_sha256 : Bytes) : M unit :=
  if PW_SOFTWARE_UPDATE_WITH_PERSONALIZATION config then
    device_manifest <~ GetOnDeviceManifest ;;
    if negb (ok device_manifest) then fail Unauthenticated
    else
      match GetTargetFile device_manifest target_name with
      | Err _ => fail Unauthenticated
      | Val cached =>
          cached_length <~ lift (file_length cached) ;;
          if negb (cached_length =? expected_length)%N
          then fail Unauthenticated
          else
            cached_sha256 <~ lift (target_sha256_of (hashes cached)) ;;
            read <~ lift (Read kDigestSizeBytes cached_sha256) ;;
            let sha256_buf := zeroed_buffer kDigestSizeBytes read in
            hash_equal <~ lift (Equal expected_sha256 sha256_buf) ;;
            if negb hash_equal then fail Unauthenticated
            else ret tt
      end
  else fail Unauthenticated.

(** [bundle_.AsStringToBytesMap(TARGET_PAYLOADS)[target_name]]. *)
Definition bundled_payload (st : UpdateBundleAccessor) (target_name : bytes)
  : Bytes :=
  b <- bundle_ st ;; map_at (target_payloads b) target_name.

Definition VerifyTargetPayload (target_name : bytes) (expected_length : N)
  (expected_sha256 : Bytes) : M unit :=
  st <~ get ;;
  match bundled_payload st target_name with
  | Val payload =>
      lift (VerifyInBundleTargetPayload expected_length expected_sha256
              payload)
  | Err _ =>
      VerifyOutOfBundleTargetPayload target_name expected_length
        expected_sha256
  end.

(** The body of the loop of [VerifyTargetsPayloads] for one target file. *)
Definition verify_target_file (target_file : TargetFile) : M unit :=
  name_proto <~ lift (file_name target_file) ;;
  target_name <~
    lift (ReadProtoString (Val name_proto) (MAX_TARGET_NAME_LENGTH config)) ;;
  target_length <~ lift (file_length target_file) ;;
  if (PW_SOFTWARE_UPDATE_MAX_TARGET_PAYLOAD_SIZE config <? target_length)%N
  then fail OutOfRange
  else
    target_sha256 <~ lift (target_sha256_of (hashes target_file)) ;;
    lift (status target_sha256) ~;;
    VerifyTargetPayload target_name target_length target_sha256.

Fixpoint verify_target_files (target_files : list TargetFile) : M unit :=
  match target_files with
  | [] => ret tt
  | target_file :: rest =>
      verify_target_file target_file ~;; verify_target_files rest
  end.

Definition VerifyTargetsPayloads : M unit :=
  st <~ get ;;
  let bundle_manifest := FromBundle (bundle_ st) in
  lift (status bundle_manifest) ~;;
  target_files <~ lift (GetTargetFiles bundle_manifest) ;;
  verify_target_files target_files.

Definition DoVerify : M unit :=
  if PW_SOFTWARE_UPDATE_DISABLE_BUNDLE_VERIFICATION config then
    update (set_bundle_verified true)
  else
    update (set_bundle_verified false) ~;;
    UpgradeRoot ~;;
    VerifyTargetsMetadata ~;;
    VerifyTargetsPayloads ~;;
    update (set_bundle_verified true).

Definition OpenAndVerify : M unit :=
  DoOpen ~;;
  fun st =>
    match DoVerify st with
    | (Err c, st') => (Err c, snd (Close st'))
    | (Val _, st') => (OkStatus, st')
    end.

Definition GetManifest (st : UpdateBundleAccessor) : ManifestAccessor :=
  if negb (bundle_verified_ st) then Err FailedPrecondition
  else FromBundle (bundle_ st).

(** [uint64_t] addition. *)
Definition add_u64 (a b : N) : N := ((a + b) mod 2 ^ 64)%N.

(** The loop of [GetTotalPayloadSize]. *)
Fixpoint total_payload_loop (bundled_payloads : list (bytes * bytes))
  (manifested_targets : list TargetFile) (total_bytes : N) : Result N :=
  match manifested_targets with
  | [] => Val total_bytes
  | target :: rest =>
      name <- file_name target ;;
      if (MAX_TARGET_NAME_LENGTH config <? List.length name)%nat
      then Err OutOfRange
      else
        name_view <- Read (MAX_TARGET_NAME_LENGTH config) (Val name) ;;
        if negb (ok (lookup bundled_payloads name_view))
        then total_payload_loop bundled_payloads rest total_bytes
        else
          target_length <- file_length target ;;
          total_payload_loop bundled_payloads rest
            (add_u64 total_bytes target_length)
  end.

(** [GetTotalPayloadSize].  The source declares [uint64_t total_bytes;]
    without an initialiser and adds to it; [indeterminate] is the value the
    variable happens to hold. *)
Definition GetTotalPayloadSize (indeterminate : N) (st : UpdateBundleAccessor)
  : Result N :=
  manifested_targets <- GetTargetFiles (GetManifest st) ;;
  bundled_payloads <- (b <- bundle_ st ;; target_payloads b) ;;
  total_payload_loop bundled_payloads manifested_targets indeterminate.

(** ** Vocabulary of the properties *)

(** The signature is counted towards the threshold by a turn of the loop
    that finds [found] in the arrays. *)
Definition counted (found : Uninitialized) (message : Bytes)
  (allowed_key_ids : list bytes) (key_mapping : list (bytes * Key))
  (s : Signature) : bool :=
  match check_signature found message allowed_key_ids key_mapping s with
  | Val true => true
  | _ => false
  end.

(** The signature makes the verifier leave with an error. *)
Definition aborts (found : Uninitialized) (message : Bytes)
  (allowed_key_ids : list bytes) (key_mapping : list (bytes * Key))
  (s : Signature) : bool :=
  negb (ok (check_signature found message allowed_key_ids key_mapping s)).

(** How many signatures of the list are counted when every one of them is
    inspected. *)
Fixpoint count_verified (stale : Stale) (message : Bytes)
  (allowed_key_ids : list bytes) (key_mapping : list (bytes * Key))
  (signatures : list Signature) : N :=
  match signatures with
  | [] => 0%N
  | s :: rest =>
      ((if counted (stale 0%nat) message allowed_key_ids key_mapping s
        then 1 else 0)
       + count_verified (later stale) message allowed_key_ids key_mapping
           rest)%N
  end.

(** In the words of the specification: the signature verifies under a key
    whose key id is in the allowed set.  The fields are taken whole, as the
    specification has them (key ids of 32 bytes, keys of 65, signatures of
    64). *)
Definition verifies_under_allowed_key (message : Bytes)
  (allowed_key_ids : list bytes) (key_mapping : list (bytes * Key))
  (s : Signature) : bool :=
  match key_id s, sig s, message with
  | Val id, Val sg, Val m =>
      existsb (fun trusted => bytes_eqb trusted id) allowed_key_ids &&
      match lookup key_mapping id with
      | Val key =>
          match keyval key with
          | Val kv => VerifyP256Signature crypto kv (sha256 crypto m) sg
          | Err _ => false
          end
      | Err _ => false
      end
  | _, _, _ => false
  end.

(** In the words of the specification: how many of the signatures verify
    under a key whose key id is in the allowed set. *)
Definition valid_signatures (message : Bytes) (allowed_key_ids : list bytes)
  (key_mapping : list (bytes * Key)) (signatures : list Signature) : N :=
  N.of_nat
    (List.length
       (filter
          (verifies_under_allowed_key message allowed_key_ids key_mapping)
          signatures)).

(** The signature is as the specification has signatures: its key id has
    32 bytes and, when that key id is in the allowed set, its signature field
    has 64 bytes and the key mapping holds a key of 65 bytes for the key
    id. *)
Definition well_formed_signature (allowed_key_ids : list bytes)
  (key_mapping : list (bytes * Key)) (s : Signature) : Prop :=
  exists id,
    key_id s = Val id /\ List.length id = 32%nat /\
    (In id allowed_key_ids ->
     exists sg key kv,
       sig s = Val sg /\ List.length sg = 64%nat /\
       lookup key_mapping id = Val key /\
       keyval key = Val kv /\ List.length kv = 65%nat).

(** The version of a signed root. *)
Definition root_version (root : SignedRootMetadata) : Result N :=
  content <- serialized_root_metadata root ;;
  GetMetadataVersion (root_common_metadata (as_message content)).

(** The manifest [GetOnDeviceManifest] hands out. *)
Definition device_manifest (backend : Backend) : ManifestAccessor :=
  match before_manifest_read_status backend with
  | Err c => Err c
  | Val _ => on_device_manifest backend
  end.

End Verification.

(** ** Vocabulary of the payload properties *)

(** The SHA256 entry of a target file: the bytes of its first hash with
    function SHA256. *)
Definition sha256_entry (T : TargetFile) : Result Bytes :=
  target_sha256_of (hashes T).

(** In the words of the specification: the bundle contains a payload for
    the name of [T], of exactly the length of [T], whose SHA-256 digest
    equals the SHA256 entry of [T]. *)
Definition payload_in_bundle (crypto : Crypto) (bundle : Result UpdateBundle)
  (T : TargetFile) : Prop :=
  exists name len digest payload,
    file_name T = Val name /\
    file_length T = Val len /\
    sha256_entry T = Val (Val digest) /\
    (b <- bundle ;; map_at (target_payloads b) name) = Val payload /\
    N.of_nat (List.length payload) = len /\
    sha256 crypto payload = digest.

(** In the words of the specification: the on-device manifest contains an
    entry for the name of [T] with exactly the length and the SHA-256 digest
    of [T]. *)
Definition recorded_on_device (manifest : ManifestAccessor) (T : TargetFile)
  : Prop :=
  exists name len digest files cached,
    file_name T = Val name /\
    file_length T = Val len /\
    sha256_entry T = Val (Val digest) /\
    GetTargetFiles manifest = Val files /\
    In cached files /\
    file_name cached = Val name /\
    file_length cached = Val len /\
    sha256_entry cached = Val (Val digest).

(** The two ways in which the specification accounts for the payload of a
    target file. *)
Definition payload_accounted_for (crypto : Crypto) (config : Config)
  (st : UpdateBundleAccessor) (T : TargetFile) : Prop :=
  payload_in_bundle crypto (bundle_ st) T \/
  (PW_SOFTWARE_UPDATE_WITH_PERSONALIZATION config = true /\
   recorded_on_device (device_manifest (backend_ st)) T).

(** What the code establishes about a target file without payload in the
    bundle: the first on-device entry of that name has the length of [T],
    and its SHA256 entry, read into a zeroed buffer of 32 bytes, equals the
    SHA256 entry of [T]. *)
Definition measured_on_device (manifest : ManifestAccessor) (T : TargetFile)
  : Prop :=
  exists name len digest cached cached_digest,
    file_name T = Val name /\
    file_length T = Val len /\
    sha256_entry T = Val (Val digest) /\
    GetTargetFile manifest name = Val cached /\
    file_length cached = Val len /\
    sha256_entry cached = Val (Val cached_digest) /\
    cached_digest <> [] /\
    zeroed_buffer kDigestSizeBytes (firstn kDigestSizeBytes cached_digest)
    = digest.

(** The SHA256 entries of the on-device manifest have the size of a
    digest. *)
Definition device_digests_sized (manifest : ManifestAccessor) : Prop :=
  forall files cached digest,
    GetTargetFiles manifest = Val files ->
    In cached files ->
    sha256_entry cached = Val (Val digest) ->
    List.length digest = kDigestSizeBytes.

(** In the words of the specification: the sum, starting at 0, of the
    lengths of the manifest entries whose names are keys of the payload map
    of the bundle. *)
Fixpoint sum_of_present_lengths (payloads : list (bytes * bytes))
  (targets : list TargetFile) : N :=
  match targets with
  | [] => 0%N
  | target :: rest =>
      (match file_name target, file_length target with
       | Val name, Val len => if ok (lookup payloads name) then len else 0
       | _, _ => 0
       end + sum_of_present_lengths payloads rest)%N
  end.

(** ** The accessor in use *)

(** Modelled from the spec: the constructor of the accessor (its header is
    not among the sources).  The latch [bundle_verified_] is set only after
    all stages succeed, so a new accessor has it cleared; no bundle is
    attached yet. *)
Definition constructed (blob_store : BlobStore) (backend : Backend)
  (disable_verification : bool) : UpdateBundleAccessor :=
  {| blob_store_ := blob_store;
     blob_store_reader_IsOpen := false;
     backend_ := backend;
     bundle_ := Err FailedPrecondition;
     trusted_root_ := Err FailedPrecondition;
     disable_verification_ := disable_verification;
     bundle_verified_ := false;
     backend_calls := [] |}.

(** What happens to an accessor: calls of its public member functions, and
    changes of what its collaborators answer (a new blob is written, the
    device storage changes).  A verification comes with what it finds in
    the uninitialised arrays. *)
Inductive ApiCall :=
| CallOpenAndVerify (stack : Stack)
| CallClose
| Provision (blob_store : BlobStore) (backend : Backend).

Definition set_collaborators (blob_store : BlobStore) (backend : Backend)
  (a : UpdateBundleAccessor) :=
  {| blob_store_ := blob_store;
     blob_store_reader_IsOpen := blob_store_reader_IsOpen a;
     backend_ := backend;
     bundle_ := bundle_ a;
     trusted_root_ := trusted_root_ a;
     disable_verification_ := disable_verification_ a;
     bundle_verified_ := bundle_verified_ a;
     backend_calls := backend_calls a |}.

Definition api (crypto : Crypto) (config : Config) (c : ApiCall) : M unit :=
  match c with
  | CallOpenAndVerify stack => OpenAndVerify crypto stack config
  | CallClose => Close
  | Provision blob_store backend =>
      update (set_collaborators blob_store backend)
  end.

(** Runs the calls in order; returns each call with the status it returned,
    and the final accessor. *)
Fixpoint run (crypto : Crypto) (config : Config) (calls : list ApiCall)
  (st : UpdateBundleAccessor)
  : list (ApiCall * Status) * UpdateBundleAccessor :=
  match calls with
  | [] => ([], st)
  | c :: rest =>
      let (r, st') := api crypto config c st in
      let (log, st'') := run crypto config rest st' in
      ((c, r) :: log, st'')
  end.

(** No call of [OpenAndVerify] has returned OK. *)
Definition never_verified (log : list (ApiCall * Status)) : Prop :=
  forall stack r, In (CallOpenAndVerify stack, r) log -> r <> OkStatus.

(** ** Concrete data

    Bundles, roots and manifests on which the definitions are evaluated.
    The crypto primitives are stand-ins with the interface of pw_crypto: the
    digest is the message cut or zero-padded to 32 bytes, and a signature is
    accepted when it is the digest followed by the first 32 bytes of the
    key.  Serialized messages are arbitrary byte strings; the wire encoding
    is not modelled. *)
Module Example.

Definition digest (m : bytes) : bytes := firstn 32 (m ++ repeat x00 32).

Definition sign (key m : bytes) : bytes := firstn 64 (digest m ++ key).

Definition crypto : Crypto :=
  {| sha256 := digest;
     VerifyP256Signature := fun public_key d signature =>
       bytes_eqb signature (firstn 64 (d ++ public_key)) |}.

(** Arrays that hold zeros before they are written. *)
Definition zeros : Uninitialized :=
  {| stale_public_key_bytes := fun _ => x00;
     stale_signature_bytes := fun _ => x00 |}.

Definition stale : Stale := fun _ => zeros.

Definition stack : Stack := fun _ => stale.

Definition config : Config :=
  {| PW_SOFTWARE_UPDATE_DISABLE_BUNDLE_VERIFICATION := false;
     PW_SOFTWARE_UPDATE_WITH_PERSONALIZATION := false;
     PW_SOFTWARE_UPDATE_MAX_TARGET_PAYLOAD_SIZE := 1024;
     MAX_TARGET_NAME_LENGTH := 32 |}.

Definition config_personalized : Config :=
  {| PW_SOFTWARE_UPDATE_DISABLE_BUNDLE_VERIFICATION := false;
     PW_SOFTWARE_UPDATE_WITH_PERSONALIZATION := true;
     PW_SOFTWARE_UPDATE_MAX_TARGET_PAYLOAD_SIZE := 1024;
     MAX_TARGET_NAME_LENGTH := 32 |}.

(** Two keys and their ids. *)
Definition K1_val : bytes := repeat x01 65.
Definition K2_val : bytes := repeat x02 65.
Definition K1_id : bytes := repeat x11 32.
Definition K2_id : bytes := repeat x22 32.

Definition key_mapping : list (bytes * Key) :=
  [(K1_id, {| keyval := Val K1_val |}); (K2_id, {| keyval := Val K2_val |})].

Definition signature_by (id key m : bytes) : Signature :=
  {| key_id := Val id; sig := Val (sign key m) |}.

(** A root at version [v]: root role signed by K1, targets role by K2, each
    with threshold 1. *)
Definition root_content (v : N) : RootMetadata :=
  {| root_common_metadata := Val {| version := Val v |};
     keys := Val key_mapping;
     root_signature_requirement :=
       Val {| threshold := Val 1%N; key_ids := Val [K1_id] |};
     targets_signature_requirement :=
       Val {| threshold := Val 1%N; key_ids := Val [K2_id] |} |}.

Definition version_byte (v : N) : byte :=
  match Byte.of_N v with Some b => b | None => xff end.

Definition root_bytes (v : N) : bytes := [x52; version_byte v].

Definition signed_root (v : N) : SignedRootMetadata :=
  {| root_to_bytes := x0a :: root_bytes v;
     serialized_root_metadata :=
       Val {| as_bytes := root_bytes v; as_message := root_content v |};
     root_signatures := Val [signature_by K1_id K1_val (root_bytes v)] |}.

Definition fw_bin : bytes := ["f"; "w"; "."; "b"; "i"; "n"]%byte.
Definition fw_payload : bytes := [x01; x02; x03; x04].

Definition fw_target : TargetFile :=
  {| file_name := Val fw_bin;
     file_length := Val 4%N;
     hashes := Val [{| function := Val SHA256;
                       hash := Val (digest fw_payload) |}] |}.

Definition targets_content (v : N) (files : list TargetFile)
  : TargetsMetadata :=
  {| targets_common_metadata := Val {| version := Val v |};
     target_files := Val files |}.

Definition targets_bytes (v : N) : bytes := [x54; version_byte v].

Definition signed_targets (v : N) (files : list TargetFile)
  (signatures : list Signature) : SignedTargetsMetadata :=
  {| serialized_targets_metadata :=
       Val {| as_bytes := targets_bytes v;
              as_message := targets_content v files |};
     targets_signatures := Val signatures |}.

Definition targets_signature (v : N) : Signature :=
  signature_by K2_id K2_val (targets_bytes v).

Definition make_bundle (root : Result SignedRootMetadata)
  (targets : SignedTargetsMetadata) (payloads : list (bytes * bytes))
  : UpdateBundle :=
  {| root_metadata := root;
     targets_metadata := Val [(kTopLevelTargetsName, targets)];
     target_payloads := Val payloads |}.

Definition make_backend (root : Result SignedRootMetadata)
  (manifest : ManifestAccessor) : Backend :=
  {| on_device_root := root;
     persist_root_status := fun _ => OkStatus;
     before_manifest_read_status := OkStatus;
     on_device_manifest := manifest |}.

Definition make_blob_store (bundle : UpdateBundle) : BlobStore :=
  {| Init_status := OkStatus;
     Open_status := OkStatus;
     blob_message := Val bundle;
     Close_status := OkStatus |}.

(** A freshly constructed accessor. *)
Definition make_accessor (blob_store : BlobStore) (backend : Backend)
  (disable_verification : bool) : UpdateBundleAccessor :=
  constructed blob_store backend disable_verification.

(** An accessor whose bundle has been opened. *)
Definition opened (bundle : UpdateBundle) (backend : Backend)
  (disable_verification : bool) : UpdateBundleAccessor :=
  set_reader_IsOpen true
    (set_bundle (Val bundle)
       (make_accessor (make_blob_store bundle) backend disable_verification)).

(** A requirement on the targets key with threshold [t]. *)
Definition targets_requirement (t : N) : SignatureRequirement :=
  {| threshold := Val t; key_ids := Val [K2_id] |}.

(** A signature whose key id has 31 bytes. *)
Definition short_id_signature : Signature :=
  {| key_id := Val (repeat x22 31);
     sig := Val (sign K2_val (targets_bytes 1)) |}.

(** A signature by K2 whose key id field has 33 bytes: the id of K2 and one
    more byte. *)
Definition long_id_signature : Signature :=
  {| key_id := Val (K2_id ++ [x00]);
     sig := Val (sign K2_val (targets_bytes 1)) |}.

(** The bundle of the happy path: root at version [rv], targets at version
    [tv] signed by K2, the payload of fw.bin present. *)
Definition bundle (rv tv : N) : UpdateBundle :=
  make_bundle (Val (signed_root rv))
    (signed_targets tv [fw_target] [targets_signature tv])
    [(fw_bin, fw_payload)].

(** Happy path: on-device root 1, no on-device manifest. *)
Definition happy : UpdateBundleAccessor :=
  opened (bundle 1 1) (make_backend (Val (signed_root 1)) (Err NotFound))
    false.

(** Root rollback: on-device root 5, bundle root 4. *)
Definition root_rollback : UpdateBundleAccessor :=
  opened (bundle 4 1) (make_backend (Val (signed_root 5)) (Err NotFound))
    false.

(** Root at the same version as the on-device root. *)
Definition root_same_version : UpdateBundleAccessor :=
  opened (bundle 5 1) (make_backend (Val (signed_root 5)) (Err NotFound))
    false.

(** The state in which the verification of the targets metadata starts. *)
Definition after_root (st : UpdateBundleAccessor) : UpdateBundleAccessor :=
  snd (UpgradeRoot crypto stack (set_bundle_verified false st)).

(** A bundle without root whose targets metadata carries no signature, on a
    device with root 1 and no manifest. *)
Definition unsigned (disable_verification : bool) : UpdateBundleAccessor :=
  opened
    (make_bundle (Err NotFound) (signed_targets 1 [fw_target] [])
       [(fw_bin, fw_payload)])
    (make_backend (Val (signed_root 1)) (Err NotFound))
    disable_verification.

(** The same unsigned targets metadata next to a root, which is its own
    trust anchor in self-verification mode. *)
Definition unsigned_with_root (disable_verification : bool)
  : UpdateBundleAccessor :=
  opened
    (make_bundle (Val (signed_root 1)) (signed_targets 1 [fw_target] [])
       [(fw_bin, fw_payload)])
    (make_backend (Val (signed_root 1)) (Err NotFound))
    disable_verification.

(** Targets rollback: on-device manifest at version 7, bundle targets at
    version [tv]. *)
Definition targets_at (tv : N) : UpdateBundleAccessor :=
  opened (bundle 1 tv)
    (make_backend (Val (signed_root 1)) (Val (targets_content 7 [fw_target])))
    false.

(** A target file without payload in the bundle, whose SHA256 entry is the
    byte ab followed by 31 zero bytes, and an on-device manifest whose entry
    of that name records a SHA256 entry of the single byte ab. *)
Definition padded_target : TargetFile :=
  {| file_name := Val fw_bin;
     file_length := Val 4%N;
     hashes := Val [{| function := Val SHA256;
                       hash := Val (xab :: repeat x00 31) |}] |}.

Definition cached_short : TargetFile :=
  {| file_name := Val fw_bin;
     file_length := Val 4%N;
     hashes := Val [{| function := Val SHA256; hash := Val [xab] |}] |}.

Definition personalized_out : UpdateBundleAccessor :=
  opened
    (make_bundle (Val (signed_root 1))
       (signed_targets 1 [padded_target] [targets_signature 1]) [])
    (make_backend (Val (signed_root 1))
       (Val (targets_content 1 [cached_short])))
    false.

(** The accessor of the happy path after its verification. *)
Definition happy_verified (stack : Stack) : UpdateBundleAccessor :=
  snd (DoVerify crypto stack config happy).

(** Root rotation: the root at version 2 hands the root role to K2; it is
    signed by K1 (the old root key) and by K2 (its own root key). *)
Definition rotated_root_bytes : bytes := [x52; x02; xff].

Definition rotated_root : SignedRootMetadata :=
  {| root_to_bytes := x0a :: rotated_root_bytes;
     serialized_root_metadata :=
       Val {| as_bytes := rotated_root_bytes;
              as_message :=
                {| root_common_metadata := Val {| version := Val 2%N |};
                   keys := Val key_mapping;
                   root_signature_requirement :=
                     Val {| threshold := Val 1%N; key_ids := Val [K2_id] |};
                   targets_signature_requirement :=
                     Val {| threshold := Val 1%N; key_ids := Val [K2_id] |}
                |} |};
     root_signatures :=
       Val [signature_by K1_id K1_val rotated_root_bytes;
            signature_by K2_id K2_val rotated_root_bytes] |}.

Definition rotation : UpdateBundleAccessor :=
  opened
    (make_bundle (Val rotated_root)
       (signed_targets 1 [fw_target] [targets_signature 1])
       [(fw_bin, fw_payload)])
    (make_backend (Val (signed_root 1)) (Err NotFound))
    false.

(** Payload corruption: four bytes that do not hash to the digest of the
    manifest. *)
Definition corrupted : UpdateBundleAccessor :=
  opened
    (make_bundle (Val (signed_root 1))
       (signed_targets 1 [fw_target] [targets_signature 1])
       [(fw_bin, [x01; x02; x03; x05])])
    (make_backend (Val (signed_root 1)) (Err NotFound))
    false.

(** A personalized-out target whose digest the device has cached in
    full. *)
Definition personalized_cached : UpdateBundleAccessor :=
  opened
    (make_bundle (Val (signed_root 1))
       (signed_targets 1 [fw_target] [targets_signature 1]) [])
    (make_backend (Val (signed_root 1))
       (Val (targets_content 1 [fw_target])))
    false.

End Example.

(** ** Vocabulary for the effects of the member functions *)

(** The calls that read the on-device manifest. *)
Definition manifest_read (c : BackendCall) : Prop :=
  c = BeforeManifestRead \/ c = GetManifestReader.

(** Everything but the trusted root and the trace of backend calls is the
    same in both states. *)
Definition same_setup (st st' : UpdateBundleAccessor) : Prop :=
  blob_store_ st' = blob_store_ st /\
  blob_store_reader_IsOpen st' = blob_store_reader_IsOpen st /\
  backend_ st' = backend_ st /\
  bundle_ st' = bundle_ st /\
  disable_verification_ st' = disable_verification_ st /\
  bundle_verified_ st' = bundle_verified_ st.

(** [st'] comes from [st] by backend calls that all satisfy [P]. *)
Definition extends (P : BackendCall -> Prop) (st st' : UpdateBundleAccessor)
  : Prop :=
  same_setup st st' /\
  exists calls, backend_calls st' = backend_calls st ++ calls /\
                Forall P calls.

(** A member function that only makes backend calls satisfying [P] and may
    set the trusted root. *)
Definition stage {A} (P : BackendCall -> Prop) (m : M A) : Prop :=
  forall st, extends P st (snd (m st)).

(** A member function that only adds calls to the trace. *)
Definition appends {A} (m : M A) : Prop :=
  forall st, exists calls,
    backend_calls (snd (m st)) = backend_calls st ++ calls.

(** ** Further functions of the source *)

From Stdlib Require Import Permutation.

(** [IntToHex]; [None] when [PW_ASSERT(val < 16)] fails.  Characters are
    their codes. *)
Definition IntToHex (val : N) : option N :=
  if (val <? 16)%N
  then Some (if (10 <=? val)%N then (val - 10 + 97)%N else (val + 48)%N)
  else None.

(** Assignment to the element [i] of an array. *)
Fixpoint store (i : nat) (c : N) (array : list N) : list N :=
  match array, i with
  | [], _ => []
  | _ :: rest, O => c :: rest
  | x :: rest, S j => x :: store j c rest
  end.

(** The loop of [LogKeyId] from index [i], with [remaining] turns to go.
    [None] when an index is outside the span or an assertion fails. *)
Fixpoint LogKeyId_loop (key_id : bytes) (remaining i : nat)
  (key_id_str : list N) : option (list N) :=
  match remaining with
  | O => Some key_id_str
  | S r =>
      match nth_error key_id i with
      | None => None
      | Some b =>
          let value := Byte.to_N b in
          match IntToHex (N.land (N.shiftr value 4) 15) with
          | None => None
          | Some high =>
              let key_id_str := store (i * 2) high key_id_str in
              match IntToHex (N.land value 15) with
              | None => None
              | Some low =>
                  LogKeyId_loop key_id r (S i)
                    (store (i * 2 + 1) low key_id_str)
              end
          end
      end
  end.

(** [LogKeyId]: the array [key_id_str] handed to the log. *)
Definition LogKeyId (key_id : bytes) : option (list N) :=
  LogKeyId_loop key_id kDigestSizeBytes 0
    (repeat 0%N (kDigestSizeBytes * 2 + 1)).

(** The characters of a C string: those before the first NUL. *)
Fixpoint c_string (array : list N) : list N :=
  match array with
  | [] => []
  | c :: rest => if (c =? 0)%N then [] else c :: c_string rest
  end.

(** The value of a lower-case hexadecimal digit. *)
Definition hex_digit (c : N) : option N :=
  if (48 <=? c)%N && (c <=? 57)%N then Some (c - 48)%N
  else if (97 <=? c)%N && (c <=? 102)%N then Some (c - 97 + 10)%N
  else None.

(** Reads pairs of hexadecimal digits back into bytes. *)
Fixpoint unhex (cs : list N) : option bytes :=
  match cs with
  | [] => Some []
  | high :: low :: rest =>
      match hex_digit high, hex_digit low, unhex rest with
      | Some h, Some l, Some bs =>
          match Byte.of_N (h * 16 + l) with
          | Some b => Some (b :: bs)
          | None => None
          end
      | _, _, _ => None
      end
  | _ => None
  end.

(** [GetTargetPayload(std::string_view)]; the reader returned is the bytes
    view of the payload, or a status. *)
Definition GetTargetPayload (st : UpdateBundleAccessor) (target_name : bytes)
  : Bytes :=
  GetTargetFile (GetManifest st) target_name ;;;
  bundled_payload st target_name.

(** [GetTargetPayload(protobuf::String)]. *)
Definition GetTargetPayload_String (config : Config)
  (st : UpdateBundleAccessor) (target_name : Bytes) : Bytes :=
  name_view <- ReadProtoString target_name (MAX_TARGET_NAME_LENGTH config) ;;
  GetTargetPayload st name_view.

(** The calls [PersistManifest] makes on the backend and on the writer the
    backend hands out, in the order made. *)
Inductive ManifestWriteCall :=
| BeforeManifestWrite
| GetManifestWriter
| Export (manifest : TargetsMetadata)
| AfterManifestWrite.

(** Modelled from the spec: the manifest-writing half of the backend
    interface and [ManifestAccessor::Export] (neither is among the sources),
    as what they answer.  [GetManifestWriter_result] tells, when OK, whether
    the pointer handed out is non-null. *)
Record ManifestWriteBackend := {
  BeforeManifestWrite_status : Status;
  GetManifestWriter_result : Result bool;
  Export_status : TargetsMetadata -> Status;
  AfterManifestWrite_status : Status
}.

(** How a call ends: it returns, or a [PW_CHECK] stops the program. *)
Inductive Outcome (A : Type) :=
| Returns (a : A)
| CheckFailed.
Arguments CheckFailed {A}.

(** [PersistManifest], with the calls it makes. *)
Definition PersistManifest (w : ManifestWriteBackend)
  (st : UpdateBundleAccessor) : Outcome Status * list ManifestWriteCall :=
  match GetManifest st with
  | Err c => (Returns (Err c), [])
  | Val manifest =>
      match BeforeManifestWrite_status w with
      | Err c => (Returns (Err c), [BeforeManifestWrite])
      | Val _ =>
          match GetManifestWriter_result w with
          | Err c => (Returns (Err c), [BeforeManifestWrite; GetManifestWriter])
          | Val false => (CheckFailed, [BeforeManifestWrite; GetManifestWriter])
          | Val true =>
              match Export_status w manifest with
              | Err c =>
                  (Returns (Err c),
                   [BeforeManifestWrite; GetManifestWriter; Export manifest])
              | Val _ =>
                  (Returns (AfterManifestWrite_status w),
                   [BeforeManifestWrite; GetManifestWriter; Export manifest;
                    AfterManifestWrite])
              end
          end
      end
  end.

(** The target file has passed the checks on its descriptor: a non-empty
    name that fits the name buffer, a length within the bound, and a SHA256
    entry. *)
Definition well_formed_target (config : Config) (T : TargetFile) : Prop :=
  exists name len digest,
    file_name T = Val name /\ name <> [] /\
    (List.length name <= MAX_TARGET_NAME_LENGTH config)%nat /\
    file_length T = Val len /\
    (len <= PW_SOFTWARE_UPDATE_MAX_TARGET_PAYLOAD_SIZE config)%N /\
    sha256_entry T = Val (Val digest).

(** The payload has the length and the digest the target file states. *)
Definition payload_matches (crypto : Crypto) (T : TargetFile)
  (payload : bytes) : Prop :=
  exists len digest,
    file_length T = Val len /\
    sha256_entry T = Val (Val digest) /\
    N.of_nat (List.length payload) = len /\
    sha256 crypto payload = digest.

(** The stages of a verification leave these parts of the accessor alone. *)
Definition same_bundle (st st' : UpdateBundleAccessor) : Prop :=
  blob_store_ st' = blob_store_ st /\
  blob_store_reader_IsOpen st' = blob_store_reader_IsOpen st /\
  backend_ st' = backend_ st /\
  bundle_ st' = bundle_ st /\
  disable_verification_ st' = disable_verification_ st.

(** What the turns of the loop find when the turn at index [n] is left
    out. *)
Definition without_turn (n : nat) (stale : Stale) : Stale :=
  fun i => if (i <? n)%nat then stale i else stale (S i).

(** The two lower-case hexadecimal digits of a byte, high digit first. *)
Definition hex_digits (b : byte) : list N :=
  let value := Byte.to_N b in
  let digit v := (if (10 <=? v)%N then v - 10 + 97 else v + 48)%N in
  [digit (value / 16)%N; digit (value mod 16)%N].

(** A lower-case hexadecimal digit. *)
Definition is_hex_digit (c : N) : Prop :=
  (48 <= c <= 57)%N \/ (97 <= c <= 102)%N.

(** More concrete data. *)
Module Sample.

(** A signature by a key that no requirement allows. *)
Definition foreign_signature : Signature :=
  {| key_id := Val (repeat x33 32);
     sig := Val (Example.sign Example.K1_val (Example.targets_bytes 1)) |}.



(** The signature of K2 over the targets metadata at version 1 without its
    last byte, and arrays of which the one for the signature holds that byte
    at every index. *)
Definition cut_signature : Signature :=
  {| key_id := Val Example.K2_id;
     sig := Val (firstn 63 (Example.sign Example.K2_val
                              (Example.targets_bytes 1))) |}.

Definition leftover : Uninitialized :=
  {| stale_public_key_bytes := fun _ => x00;
     stale_signature_bytes := fun _ => x02 |}.

(** What the turns of the loop find when the arrays keep what the last
    call wrote: zeros at the first turn, and afterwards the key K2 and its
    signature over the targets metadata at version 1. *)
Definition after_K2_signature : Stale :=
  fun turn =>
    match turn with
    | O => Example.zeros
    | S _ =>
        {| stale_public_key_bytes := fun i => nth i Example.K2_val x00;
           stale_signature_bytes :=
             fun i =>
               nth i (Example.sign Example.K2_val (Example.targets_bytes 1))
                 x00 |}
    end.

(** A key mapping without K2. *)
Definition key_mapping_without_K2 : list (bytes * Key) :=
  [(Example.K1_id, {| keyval := Val Example.K1_val |})].

(** A root whose key mapping lacks K2, the key of its targets role. *)
Definition root_without_K2 : SignedRootMetadata :=
  {| root_to_bytes := [x0a; x52; x01];
     serialized_root_metadata :=
       Val {| as_bytes := [x52; x01];
              as_message :=
                {| root_common_metadata := Val {| version := Val 1%N |};
                   keys := Val key_mapping_without_K2;
                   root_signature_requirement :=
                     Val {| threshold := Val 1%N;
                            key_ids := Val [Example.K1_id] |};
                   targets_signature_requirement :=
                     Val {| threshold := Val 1%N;
                            key_ids := Val [Example.K2_id] |} |} |};
     root_signatures :=
       Val [Example.signature_by Example.K1_id Example.K1_val [x52; x01]] |}.

(** Self-verification of a bundle whose root lacks the key of the targets
    signature. *)
Definition missing_key : UpdateBundleAccessor :=
  Example.opened
    (Example.make_bundle (Val root_without_K2)
       (Example.signed_targets 1 [Example.fw_target]
          [Example.targets_signature 1])
       [(Example.fw_bin, Example.fw_payload)])
    (Example.make_backend (Val (Example.signed_root 1)) (Err NotFound))
    true.

(** A root without signatures. *)
Definition unsigned_root : SignedRootMetadata :=
  {| root_to_bytes := x0a :: Example.root_bytes 1;
     serialized_root_metadata :=
       Val {| as_bytes := Example.root_bytes 1;
              as_message := Example.root_content 1 |};
     root_signatures := Val [] |}.

Definition with_unsigned_root (disable_verification : bool)
  : UpdateBundleAccessor :=
  Example.opened
    (Example.make_bundle (Val unsigned_root)
       (Example.signed_targets 1 [Example.fw_target]
          [Example.targets_signature 1])
       [(Example.fw_bin, Example.fw_payload)])
    (Example.make_backend (Val (Example.signed_root 1)) (Err NotFound))
    disable_verification.

(** A bundle without root metadata on a device whose root cannot be read. *)
Definition rootless (disable_verification : bool) : UpdateBundleAccessor :=
  Example.opened
    (Example.make_bundle (Err NotFound)
       (Example.signed_targets 1 [Example.fw_target]
          [Example.targets_signature 1])
       [(Example.fw_bin, Example.fw_payload)])
    (Example.make_backend (Err DataLoss) (Err NotFound))
    disable_verification.

(** A valid root upgrade to version 2 next to targets metadata that rolls
    back from the on-device version 7 to version 6. *)
Definition upgrade_with_rollback : UpdateBundleAccessor :=
  Example.opened
    (Example.make_bundle (Val Example.rotated_root)
       (Example.signed_targets 6 [Example.fw_target]
          [Example.targets_signature 6])
       [(Example.fw_bin, Example.fw_payload)])
    (Example.make_backend (Val (Example.signed_root 1))
       (Val (Example.targets_content 7 [Example.fw_target])))
    false.

(** A build with verification compiled out. *)
Definition config_unverified : Config :=
  {| PW_SOFTWARE_UPDATE_DISABLE_BUNDLE_VERIFICATION := true;
     PW_SOFTWARE_UPDATE_WITH_PERSONALIZATION := false;
     PW_SOFTWARE_UPDATE_MAX_TARGET_PAYLOAD_SIZE := 1024;
     MAX_TARGET_NAME_LENGTH := 32 |}.

(** A new accessor on a blob that holds a bundle without root, targets
    metadata and payloads. *)
Definition with_empty_bundle : UpdateBundleAccessor :=
  constructed
    (Example.make_blob_store
       {| root_metadata := Err NotFound;
          targets_metadata := Val [];
          target_payloads := Val [] |})
    (Example.make_backend (Val (Example.signed_root 1)) (Err NotFound))
    false.

(** A backend that accepts the manifest. *)
Definition writer : ManifestWriteBackend :=
  {| BeforeManifestWrite_status := OkStatus;
     GetManifestWriter_result := Val true;
     Export_status := fun _ => OkStatus;
     AfterManifestWrite_status := OkStatus |}.

(** A verified accessor. *)
Definition verified : UpdateBundleAccessor :=
  snd (OpenAndVerify Example.crypto Example.stack Example.config
         (constructed (blob_store_ Example.happy) (backend_ Example.happy)
            false)).

(** An accessor whose verification failed. *)
Definition rejected : UpdateBundleAccessor :=
  snd (OpenAndVerify Example.crypto Example.stack Example.config
         (constructed (blob_store_ Example.root_rollback)
            (backend_ Example.root_rollback) false)).

End Sample.

(** * Properties *)

(** ** Bytes and lookups *)

Lemma bytes_eqb_eq (a b : bytes) : bytes_eqb a b = true <-> a = b.
Proof.
  revert b; induction a as [|x a IH]; intros [|y b]; simpl;
    try (split; [discriminate | congruence]); try tauto.
  rewrite andb_true_iff, IH. split.
  - intros [Hxy ->]. now rewrite (byte_dec_bl _ _ Hxy).
  - intros E; injection E as -> ->. split; [now apply byte_dec_lb | easy].
Qed.

Lemma bytes_eqb_refl (a : bytes) : bytes_eqb a a = true.
Proof. now apply bytes_eqb_eq. Qed.

Lemma existsb_bytes_In (x : bytes) (l : list bytes) :
  existsb (fun y => bytes_eqb y x) l = true <-> In x l.
Proof.
  rewrite existsb_exists. split.
  - intros (y & Hy & E). apply bytes_eqb_eq in E. now subst.
  - intros H. exists x. split; [easy | apply bytes_eqb_refl].
Qed.

Lemma Read_Val (n : nat) (b : Bytes) (r : bytes) :
  Read n b = Val r ->
  exists bs, b = Val bs /\ bs <> [] /\ r = firstn n bs.
Proof.
  destruct b as [[|x bs]|c]; simpl; try discriminate.
  intros E; injection E as <-. exists (x :: bs). repeat split. discriminate.
Qed.

Lemma Read_length (n : nat) (b : Bytes) (r : bytes) :
  Read n b = Val r -> (List.length r <= n)%nat.
Proof.
  intros H. apply Read_Val in H as (bs & _ & _ & ->).
  rewrite length_firstn. lia.
Qed.

(** A field of exactly the size of the buffer is read whole. *)
Lemma Read_exact (n : nat) (bs : bytes) :
  List.length bs = n -> n <> 0%nat -> Read n (Val bs) = Val bs.
Proof.
  intros H Hn. destruct bs as [|x bs]; simpl in *; [congruence|].
  subst n. f_equal. apply (firstn_all (x :: bs)).
Qed.

(** A zeroed buffer holds what was read when the read filled it. *)
Lemma zeroed_buffer_full (n : nat) (r : bytes) :
  List.length r = n -> zeroed_buffer n r = r.
Proof.
  intros H. unfold zeroed_buffer. rewrite H, Nat.sub_diag. simpl.
  apply app_nil_r.
Qed.

Lemma lookup_In {A} (m : list (bytes * A)) (k : bytes) (v : A) :
  lookup m k = Val v -> In (k, v) m.
Proof.
  induction m as [|[k' v'] m IH]; simpl; [discriminate|].
  destruct (bytes_eqb k' k) eqn:E.
  - intros H; injection H as ->. apply bytes_eqb_eq in E. subst. now left.
  - intros H. right. now apply IH.
Qed.

Lemma find_target_file_In (files : list TargetFile) (name : bytes)
  (f : TargetFile) :
  find_target_file files name = Val f ->
  In f files /\ file_name f = Val name.
Proof.
  induction files as [|g files IH]; simpl; [discriminate|].
  destruct (file_name g) as [gn|c] eqn:Eg; simpl; [|discriminate].
  destruct (bytes_eqb gn name) eqn:E.
  - intros H; injection H as <-. apply bytes_eqb_eq in E. subst.
    split; [now left | easy].
  - intros H. destruct (IH H). split; [now right | easy].
Qed.

(** ** The signature verifier *)

(** An array that the read filled holds what was read, whatever was in it
    before. *)
Lemma uninitialized_buffer_full (n : nat) (indeterminate : nat -> byte)
  (r : bytes) :
  List.length r = n -> uninitialized_buffer n indeterminate r = r.
Proof.
  intros H. unfold uninitialized_buffer. rewrite H, Nat.sub_diag.
  cbn [seq map]. apply app_nil_r.
Qed.

Section SignatureVerifier.

Variable crypto : Crypto.
Variable message : Bytes.
Variable allowed_key_ids : list bytes.
Variable key_mapping : list (bytes * Key).
Variable t : N.

Local Abbreviation check found :=
  (check_signature crypto found message allowed_key_ids key_mapping).
Local Abbreviation loop stale :=
  (signatures_loop crypto stale message allowed_key_ids key_mapping t).
Local Abbreviation counts found :=
  (counted crypto found message allowed_key_ids key_mapping).
Local Abbreviation raises found :=
  (aborts crypto found message allowed_key_ids key_mapping).
Local Abbreviation count stale :=
  (count_verified crypto stale message allowed_key_ids key_mapping).

(** No signature of the list raises an error. *)
Local Abbreviation clean signatures :=
  (forall (s : Signature) (found : Uninitialized),
     In s signatures -> raises found s = false).

Lemma count_verified_cons (stale : Stale) (s : Signature)
  (l : list Signature) :
  count stale (s :: l) =
  ((if counts (stale 0%nat) s then 1 else 0) + count (later stale) l)%N.
Proof. reflexivity. Qed.

Lemma count_verified_nil (stale : Stale) : count stale [] = 0%N.
Proof. reflexivity. Qed.

(** One turn of the loop. *)
Lemma loop_cons (stale : Stale) (s : Signature) (rest : list Signature)
  (v total : N) :
  loop stale (s :: rest) v total =
  match check (stale 0%nat) s with
  | Err c => Err c
  | Val true =>
      if (v + 1 =? t)%N then OkStatus
      else loop (later stale) rest (v + 1)%N (total + 1)%N
  | Val false => loop (later stale) rest v (total + 1)%N
  end.
Proof.
  cbn [signatures_loop]. destruct (check (stale 0%nat) s) as [[|]|c];
    reflexivity.
Qed.

Lemma loop_nil (stale : Stale) (v total : N) :
  loop stale [] v total =
  if (total =? 0)%N then Err NotFound else Err Unauthenticated.
Proof. reflexivity. Qed.

(** Whether a signature raises an error, and which, does not depend on what
    is found in the arrays: every exit with an error lies before the call of
    the primitive. *)
Lemma check_signature_error (found found' : Uninitialized) (s : Signature)
  (c : Code) :
  check found s = Err c -> check found' s = Err c.
Proof.
  unfold check_signature, VerifyEcdsaSignature.
  destruct (Read kDigestSizeBytes (key_id s)) as [buf|c0]; cbn [try];
    [|easy].
  destruct (negb (List.length buf =? kDigestSizeBytes)%nat); [easy|].
  cbv zeta.
  destruct (negb (existsb (fun trusted => bytes_eqb trusted buf)
                    allowed_key_ids)); [discriminate|].
  destruct (sig s) as [sg|c0]; cbn [try]; [|easy].
  destruct (lookup key_mapping buf) as [k|c0]; cbn [try]; [|easy].
  destruct (keyval k) as [kv|c0]; cbn [try]; [|easy].
  destruct (sha256_Hash crypto message) as [d|c0]; cbn [try]; [|easy].
  destruct (Read 65 (Val kv)) as [kr|c0]; cbn [try]; [|easy].
  destruct (Read 64 (Val sg)) as [sr|c0]; cbn [try]; [|easy].
  discriminate.
Qed.

Lemma aborts_found (found found' : Uninitialized) (s : Signature) :
  raises found s = raises found' s.
Proof.
  unfold aborts.
  destruct (check found s) as [b|c] eqn:E.
  - destruct (check found' s) as [b'|c'] eqn:E'; [reflexivity|].
    apply (@check_signature_error found' found) in E'. congruence.
  - now rewrite (@check_signature_error found found' s c E).
Qed.

(** What one signature does to the loop, by cases. *)
Ltac turn stale s Hok Ht :=
  rewrite count_verified_cons in Ht; rewrite loop_cons;
  let Hs := fresh "Hs" in
  try (assert (Hs := Hok s (stale 0%nat) (or_introl eq_refl));
       unfold aborts in Hs);
  unfold counted in Ht;
  destruct (check (stale 0%nat) s) as [[|]|?c] eqn:?E; cbn [ok negb] in *;
  try discriminate.

(** Once enough signatures of an error-free prefix are counted, the verifier
    answers OK whatever follows. *)
Lemma loop_accepts (pre post : list Signature) :
  forall stale v total,
    clean pre ->
    (v < t)%N -> (t <= v + count stale pre)%N ->
    loop stale (pre ++ post) v total = OkStatus.
Proof.
  induction pre as [|s pre IH]; intros stale v total Hok Hv Ht.
  - rewrite count_verified_nil in Ht. lia.
  - cbn [app]. turn stale s Hok Ht.
    + destruct (N.eqb_spec (v + 1) t) as [|Hne]; [reflexivity|].
      apply IH; [intros; apply Hok; now right | lia | lia].
    + apply IH; [intros; apply Hok; now right | lia | lia].
Qed.

(** With too few counted signatures and no error, the verifier runs to the
    end of the list. *)
Lemma loop_rejects (signatures : list Signature) :
  forall stale v total,
    clean signatures ->
    (v + count stale signatures < t)%N ->
    loop stale signatures v total =
    if (total + N.of_nat (List.length signatures) =? 0)%N then Err NotFound
    else Err Unauthenticated.
Proof.
  induction signatures as [|s l IH]; intros stale v total Hok Ht.
  - rewrite loop_nil. cbn [List.length]. now rewrite N.add_0_r.
  - cbn [List.length].
    replace (total + N.of_nat (S (List.length l)))%N
      with (total + 1 + N.of_nat (List.length l))%N by lia.
    turn stale s Hok Ht.
    + destruct (N.eqb_spec (v + 1) t) as [|Hne]; [lia|].
      apply IH; [intros; apply Hok; now right | lia].
    + apply IH; [intros; apply Hok; now right | lia].
Qed.

(** An error raised before the threshold is met is the answer. *)
Lemma loop_aborts (pre post : list Signature) (s : Signature) (c : Code)
  (found : Uninitialized) :
  forall stale v total,
    clean pre ->
    (v + count stale pre < t)%N ->
    check found s = Err c ->
    loop stale (pre ++ s :: post) v total = Err c.
Proof.
  induction pre as [|s' pre IH]; intros stale v total Hok Ht Hc.
  - cbn [app]. rewrite loop_cons.
    now rewrite (@check_signature_error found (stale 0%nat) s c Hc).
  - cbn [app]. turn stale s' Hok Ht.
    + destruct (N.eqb_spec (v + 1) t) as [|Hne]; [lia|].
      apply IH; [intros; apply Hok; now right | lia | easy].
    + apply IH; [intros; apply Hok; now right | lia | easy].
Qed.

(** Behind an error-free prefix, a signature that raises an error leaves
    two answers: OK, given before that signature is reached, and the
    error. *)
Lemma loop_first_error (pre post : list Signature) (s : Signature)
  (c : Code) (found : Uninitialized) :
  forall stale v total,
    clean pre ->
    check found s = Err c ->
    loop stale (pre ++ s :: post) v total = OkStatus \/
    loop stale (pre ++ s :: post) v total = Err c.
Proof.
  induction pre as [|s' pre IH]; intros stale v total Hok Hc.
  - right. cbn [app]. rewrite loop_cons.
    now rewrite (@check_signature_error found (stale 0%nat) s c Hc).
  - cbn [app]. rewrite loop_cons.
    assert (Hs := Hok s' (stale 0%nat) (or_introl eq_refl)).
    unfold aborts in Hs.
    destruct (check (stale 0%nat) s') as [[|]|c'] eqn:E; cbn [ok negb] in Hs;
      try discriminate.
    + destruct (v + 1 =? t)%N; [now left|].
      apply IH; [intros; apply Hok; now right | easy].
    + apply IH; [intros; apply Hok; now right | easy].
Qed.

(** The verifier answers OK only by counting up to the threshold. *)
Lemma loop_ok_counted (signatures : list Signature) :
  forall stale v total,
    loop stale signatures v total = OkStatus ->
    (v < t)%N /\ (t <= v + count stale signatures)%N.
Proof.
  induction signatures as [|s l IH]; intros stale v total H.
  - rewrite loop_nil in H. destruct (total =? 0)%N; discriminate.
  - rewrite count_verified_cons. rewrite loop_cons in H. unfold counted.
    destruct (check (stale 0%nat) s) as [[|]|c] eqn:E; try discriminate.
    + destruct (N.eqb_spec (v + 1) t) as [|Hne]; [lia|].
      apply IH in H. lia.
    + apply IH in H. lia.
Qed.

(** Without an error the verifier either accepts or runs to the end. *)
Lemma loop_cases (signatures : list Signature) :
  forall stale v total,
    clean signatures ->
    loop stale signatures v total = OkStatus \/
    loop stale signatures v total =
    if (total + N.of_nat (List.length signatures) =? 0)%N then Err NotFound
    else Err Unauthenticated.
Proof.
  induction signatures as [|s l IH]; intros stale v total Hok.
  - right. rewrite loop_nil. cbn [List.length]. now rewrite N.add_0_r.
  - cbn [List.length].
    replace (total + N.of_nat (S (List.length l)))%N
      with (total + 1 + N.of_nat (List.length l))%N by lia.
    rewrite loop_cons.
    assert (Hs := Hok s (stale 0%nat) (or_introl eq_refl)).
    unfold aborts in Hs.
    destruct (check (stale 0%nat) s) as [[|]|c] eqn:E; cbn [ok negb] in Hs;
      try discriminate.
    + destruct (v + 1 =? t)%N; [now left|].
      apply IH. intros; apply Hok; now right.
    + apply IH. intros; apply Hok; now right.
Qed.

(** A counted signature carries, in its key id buffer, an allowed key id. *)
Lemma counted_allowed (found : Uninitialized) (s : Signature) :
  counts found s = true ->
  exists buf, Read kDigestSizeBytes (key_id s) = Val buf /\
              In buf allowed_key_ids.
Proof.
  unfold counted, check_signature.
  destruct (Read kDigestSizeBytes (key_id s)) as [buf|c]; cbn [try];
    [|discriminate].
  destruct (negb (List.length buf =? kDigestSizeBytes)%nat); [discriminate|].
  cbv zeta.
  destruct (existsb (fun trusted => bytes_eqb trusted buf) allowed_key_ids)
    eqn:E; cbn [negb]; [|discriminate].
  intros _. exists buf. split; [reflexivity|]. now apply existsb_bytes_In.
Qed.

(** Signatures with pairwise distinct key id buffers cannot be counted more
    often than there are allowed key ids. *)
Lemma count_verified_bound (signatures : list Signature) :
  NoDup (map (fun s => Read kDigestSizeBytes (key_id s)) signatures) ->
  forall stale,
    (count stale signatures <= N.of_nat (List.length allowed_key_ids))%N.
Proof.
  intros Hnd stale.
  set (f := fun s => Read kDigestSizeBytes (key_id s)) in *.
  set (g := fun s => match f s with
                     | Val buf =>
                         existsb (fun k => bytes_eqb k buf) allowed_key_ids
                     | Err _ => false
                     end).
  assert (Hcount : forall l stale',
            (count stale' l <= N.of_nat (List.length (filter g l)))%N).
  { induction l as [|s l IH]; intros stale'; [cbn; lia|].
    rewrite count_verified_cons. cbn [filter]. specialize (IH (later stale')).
    destruct (counts (stale' 0%nat) s) eqn:Ec.
    - apply counted_allowed in Ec as (buf & E & Hin).
      assert (Hg : g s = true).
      { unfold g, f. rewrite E. now apply existsb_bytes_In. }
      rewrite Hg. cbn [List.length]. lia.
    - destruct (g s); cbn [List.length]; lia. }
  specialize (Hcount signatures stale).
  assert (Hlen : (List.length (map f (filter g signatures)) <=
                  List.length (map (@Val bytes) allowed_key_ids))%nat).
  { apply NoDup_incl_length.
    - clear -Hnd. induction signatures as [|s l IH]; cbn [filter map];
        [constructor|].
      cbn [map] in Hnd. inversion Hnd as [|x l' Hx Hl]; subst.
      destruct (g s); [|now apply IH].
      cbn [map]. constructor; [|now apply IH].
      intros Hin. apply Hx. apply in_map_iff in Hin as (s' & E & Hs').
      apply filter_In in Hs' as [Hs' _]. apply in_map_iff. now exists s'.
    - intros r Hr. apply in_map_iff in Hr as (s & <- & Hs).
      apply filter_In in Hs as [_ Hc]. unfold g in Hc.
      destruct (f s) as [buf|c]; [|discriminate].
      apply existsb_bytes_In in Hc. now apply in_map. }
  rewrite !length_map in Hlen. lia.
Qed.

(** On a list without errors the verifier decides by the count alone. *)
Lemma loop_clean_decision (signatures : list Signature) (stale : Stale) :
  clean signatures ->
  loop stale signatures 0 0 =
  if (1 <=? t)%N && (t <=? count stale signatures)%N then OkStatus
  else if (N.of_nat (List.length signatures) =? 0)%N then Err NotFound
       else Err Unauthenticated.
Proof.
  intros Hclean.
  destruct (N.leb_spec 1 t) as [H1|H0]; cbn [andb].
  - destruct (N.leb_spec t (count stale signatures)) as [Hle|Hlt].
    + pose proof (@loop_accepts signatures [] stale 0%N 0%N Hclean) as Hok.
      rewrite app_nil_r in Hok. apply Hok; lia.
    + now rewrite (@loop_rejects signatures stale 0%N 0%N Hclean) by lia.
  - destruct (@loop_cases signatures stale 0%N 0%N Hclean) as [Hok|Hend];
      [|exact Hend].
    apply loop_ok_counted in Hok. lia.
Qed.

End SignatureVerifier.

(** On a signature as the specification has signatures, the turn of the
    loop tells whether the signature verifies under an allowed key, whatever
    it finds in the arrays. *)
Lemma check_signature_well_formed (crypto : Crypto) (found : Uninitialized)
  (m : bytes) (allowed_key_ids : list bytes)
  (key_mapping : list (bytes * Key)) (s : Signature) :
  well_formed_signature allowed_key_ids key_mapping s ->
  check_signature crypto found (Val m) allowed_key_ids key_mapping s =
  Val (verifies_under_allowed_key crypto (Val m) allowed_key_ids key_mapping
         s).
Proof.
  intros (id & Hid & Hlid & Hallowed).
  unfold check_signature, verifies_under_allowed_key.
  rewrite Hid. rewrite (Read_exact id) by (unfold kDigestSizeBytes; lia).
  cbn [try]. unfold kDigestSizeBytes. rewrite Hlid. cbn [Nat.eqb negb].
  cbv zeta.
  destruct (existsb (fun trusted => bytes_eqb trusted id) allowed_key_ids)
    eqn:E; cbn [negb andb]; [|now destruct (sig s)].
  apply existsb_bytes_In in E.
  destruct (Hallowed E) as (sg & key & kv & Hsg & Hlsg & Hk & Hkv & Hlkv).
  rewrite Hsg, Hk. cbn [try]. rewrite !Hkv. cbn [try sha256_Hash].
  unfold VerifyEcdsaSignature.
  rewrite (Read_exact kv) by lia. rewrite (Read_exact sg) by lia.
  cbn [try]. cbv zeta.
  now rewrite !uninitialized_buffer_full by assumption.
Qed.

Lemma valid_signatures_cons (crypto : Crypto) (message : Bytes)
  (allowed_key_ids : list bytes) (key_mapping : list (bytes * Key))
  (s : Signature) (l : list Signature) :
  valid_signatures crypto message allowed_key_ids key_mapping (s :: l) =
  ((if verifies_under_allowed_key crypto message allowed_key_ids key_mapping s
    then 1 else 0)
   + valid_signatures crypto message allowed_key_ids key_mapping l)%N.
Proof.
  unfold valid_signatures. cbn [filter].
  destruct (verifies_under_allowed_key crypto message allowed_key_ids
              key_mapping s); cbn [List.length]; lia.
Qed.

(** On well-formed signatures the loop counts the signatures that verify
    under an allowed key, and none raises an error. *)
Lemma count_verified_well_formed (crypto : Crypto) (m : bytes)
  (allowed_key_ids : list bytes) (key_mapping : list (bytes * Key))
  (signatures : list Signature) :
  Forall (well_formed_signature allowed_key_ids key_mapping) signatures ->
  forall stale,
    count_verified crypto stale (Val m) allowed_key_ids key_mapping signatures
    = valid_signatures crypto (Val m) allowed_key_ids key_mapping signatures.
Proof.
  induction 1 as [|s l Hs _ IH]; intros stale; [reflexivity|].
  rewrite count_verified_cons, valid_signatures_cons, IH.
  unfold counted. rewrite (check_signature_well_formed _ _ _ Hs).
  now destruct (verifies_under_allowed_key crypto (Val m) allowed_key_ids
                  key_mapping s).
Qed.

Lemma well_formed_clean (crypto : Crypto) (m : bytes)
  (allowed_key_ids : list bytes) (key_mapping : list (bytes * Key))
  (signatures : list Signature) :
  Forall (well_formed_signature allowed_key_ids key_mapping) signatures ->
  forall s found,
    In s signatures ->
    aborts crypto found (Val m) allowed_key_ids key_mapping s = false.
Proof.
  intros Hwf s found Hin. rewrite Forall_forall in Hwf.
  unfold aborts.
  now rewrite (check_signature_well_formed _ _ _ (Hwf s Hin)).
Qed.

(** ** C2: the threshold decision *)


(** What the arrays hold decides about a signature field that is too short.
    With threshold 2, the valid signature of K2 followed by that signature
    without its last byte is accepted when the second call of
    [VerifyEcdsaSignature] finds what the first call wrote, and rejected
    when it finds zeros; in the other order the list is rejected. *)
Example short_signature_on_stale_bytes :
  VerifyMetadataSignatures Example.crypto Sample.after_K2_signature
    (Val (Example.targets_bytes 1))
    [Example.targets_signature 1; Sample.cut_signature]
    (Example.targets_requirement 2) Example.key_mapping = OkStatus /\
  VerifyMetadataSignatures Example.crypto Example.stale
    (Val (Example.targets_bytes 1))
    [Example.targets_signature 1; Sample.cut_signature]
    (Example.targets_requirement 2) Example.key_mapping
  = Err Unauthenticated /\
  VerifyMetadataSignatures Example.crypto Sample.after_K2_signature
    (Val (Example.targets_bytes 1))
    [Sample.cut_signature; Example.targets_signature 1]
    (Example.targets_requirement 2) Example.key_mapping
  = Err Unauthenticated.
Proof. repeat split; vm_compute; reflexivity. Qed.



(** ** C8: the threshold of a signature requirement is not validated *)

(** C8, as stated, fails on the code.  With threshold 0 and one valid
    signature the verifier returns Unauthenticated, an authentication result;
    with threshold 2 and the single allowed key K2, the valid signature of K2
    supplied twice is counted twice and the metadata is accepted. *)
Lemma C8_counterexample :
  (forall stale,
     VerifyMetadataSignatures Example.crypto stale
       (Val (Example.targets_bytes 1)) [Example.targets_signature 1]
       (Example.targets_requirement 0) Example.key_mapping
     = Err Unauthenticated)
  /\ (N.of_nat (List.length [Example.K2_id]) < 2)%N
  /\ (forall stale,
        VerifyMetadataSignatures Example.crypto stale
          (Val (Example.targets_bytes 1))
          [Example.targets_signature 1; Example.targets_signature 1]
          (Example.targets_requirement 2) Example.key_mapping
        = OkStatus).
Proof. repeat split; intros stale; vm_compute; reflexivity. Qed.

(** C8 (amended): the verifier does not compare the threshold with the
    allowed key ids, and has no error of its own for a bad requirement.
    When the threshold is 0, or exceeds the number of allowed key ids while
    the signatures carry pairwise distinct key id buffers, the verifier never
    returns OK, whatever it finds in its uninitialised arrays: when no
    signature raises an error its answer is NotFound on an empty signature
    list and Unauthenticated otherwise, and when a signature raises an error
    and none before it does, its answer is that error. *)
Theorem C8_bad_threshold_never_accepted (crypto : Crypto) (stale : Stale)
  (message : Bytes) (signatures : list Signature)
  (requirement : SignatureRequirement) (key_mapping : list (bytes * Key))
  (t : N) (allowed : list bytes) :
  threshold requirement = Val t ->
  key_ids requirement = Val allowed ->
  t = 0%N \/
  ((N.of_nat (List.length allowed) < t)%N /\
   NoDup (map (fun s => Read kDigestSizeBytes (key_id s)) signatures)) ->
  let res :=
    VerifyMetadataSignatures crypto stale message signatures requirement
      key_mapping in
  let raises s :=
    exists found,
      aborts crypto found message allowed key_mapping s = true in
  res <> OkStatus /\
  ((forall s, In s signatures -> ~ raises s) ->
   res = if (N.of_nat (List.length signatures) =? 0)%N then Err NotFound
         else Err Unauthenticated) /\
  (forall pre s post found c,
     signatures = pre ++ s :: post ->
     (forall s', In s' pre -> ~ raises s') ->
     check_signature crypto found message allowed key_mapping s = Err c ->
     res = Err c).
Proof.
  intros Ht Ha Hbad. cbv zeta.
  unfold VerifyMetadataSignatures. rewrite Ht, Ha. cbn [try].
  assert (Hno : signatures_loop crypto stale message allowed key_mapping t
                  signatures 0 0 <> OkStatus).
  { intros Hok. apply loop_ok_counted in Hok as [Hlt Hle].
    destruct Hbad as [-> | [Hlen Hnd]]; [lia|].
    pose proof (@count_verified_bound crypto message allowed key_mapping
                  signatures Hnd stale). lia. }
  assert (Hclean : forall l,
            (forall s, In s l ->
                       ~ exists found,
                           aborts crypto found message allowed key_mapping s
                           = true) ->
            forall s found,
              In s l ->
              aborts crypto found message allowed key_mapping s = false).
  { intros l H s found Hin.
    destruct (aborts crypto found message allowed key_mapping s) eqn:E;
      [|reflexivity].
    elim (H s Hin). now exists found. }
  split; [exact Hno|]. split.
  - intros Hc.
    destruct (@loop_cases crypto message allowed key_mapping t signatures
                stale 0%N 0%N (Hclean _ Hc)) as [Hok | Hend];
      [now elim Hno | exact Hend].
  - intros pre s post found c -> Hc Hs.
    destruct (@loop_first_error crypto message allowed key_mapping t pre post
                s c found stale 0%N 0%N (Hclean _ Hc) Hs) as [Hok | Herr];
      [now elim Hno | exact Herr].
Qed.

(** C8 at work, with the single allowed key K2.  Threshold 2: the valid
    signature of K2 next to a signature of a foreign key is rejected with
    Unauthenticated.  Threshold 0: the valid signature of K2 before a
    signature with a short key id is not accepted; the answer is the
    Internal of the short key id. *)
Lemma C8_bad_threshold_never_accepted_witness :
  VerifyMetadataSignatures Example.crypto Example.stale
    (Val (Example.targets_bytes 1))
    [Example.targets_signature 1; Sample.foreign_signature]
    (Example.targets_requirement 2) Example.key_mapping
  = Err Unauthenticated /\
  VerifyMetadataSignatures Example.crypto Example.stale
    (Val (Example.targets_bytes 1))
    [Example.targets_signature 1; Example.short_id_signature]
    (Example.targets_requirement 0) Example.key_mapping
  = Err Internal.
Proof.
  split.
  - refine (proj1 (proj2
      (@C8_bad_threshold_never_accepted Example.crypto Example.stale
         (Val (Example.targets_bytes 1))
         [Example.targets_signature 1; Sample.foreign_signature]
         (Example.targets_requirement 2) Example.key_mapping
         2%N [Example.K2_id] eq_refl eq_refl (or_intror (conj _ _)))) _).
    + vm_compute. reflexivity.
    + cbn [map]. apply NoDup_cons; [intros [H|[]]; discriminate H|].
      apply NoDup_cons; [intros []|]. apply NoDup_nil.
    + intros s [<-|[<-|[]]] [found H]; vm_compute in H; discriminate H.
  - refine (proj2 (proj2
      (@C8_bad_threshold_never_accepted Example.crypto Example.stale
         (Val (Example.targets_bytes 1))
         [Example.targets_signature 1; Example.short_id_signature]
         (Example.targets_requirement 0) Example.key_mapping
         0%N [Example.K2_id] eq_refl eq_refl (or_introl eq_refl)))
      [Example.targets_signature 1] Example.short_id_signature []
      Example.zeros Internal eq_refl _ eq_refl).
    intros s [<-|[]] [found H]; vm_compute in H; discriminate H.
Defined.

(** ** C9: key ids of the wrong size *)

(** A key id of 1 to 31 bytes makes the verifier leave with Internal. *)
Lemma check_signature_short_key_id (crypto : Crypto) (found : Uninitialized)
  (message : Bytes) (allowed : list bytes) (key_mapping : list (bytes * Key))
  (s : Signature) (id : bytes) :
  key_id s = Val id -> id <> [] -> (List.length id < 32)%nat ->
  check_signature crypto found message allowed key_mapping s = Err Internal.
Proof.
  intros Hid Hne Hlen. unfold check_signature. rewrite Hid.
  destruct id as [|x id]; [congruence|].
  cbn [Read try]. rewrite firstn_all2 by (unfold kDigestSizeBytes; lia).
  unfold kDigestSizeBytes.
  destruct (Nat.eqb_spec (List.length (x :: id)) 32); [lia|]. reflexivity.
Qed.

(** An absent or unreadable key id leaves with the status of the accessor,
    an empty one with OutOfRange. *)
Lemma check_signature_no_key_id (crypto : Crypto) (found : Uninitialized)
  (message : Bytes) (allowed : list bytes) (key_mapping : list (bytes * Key))
  (s : Signature) :
  (forall c, key_id s = Err c ->
             check_signature crypto found message allowed key_mapping s
             = Err c) /\
  (key_id s = Val [] ->
   check_signature crypto found message allowed key_mapping s
   = Err OutOfRange).
Proof.
  split; [intros c Hid | intros Hid]; unfold check_signature;
    now rewrite Hid.
Qed.

(** A key id of more than 32 bytes is cut to its first 32 bytes: the
    signature is treated as the one carrying that prefix. *)
Lemma check_signature_long_key_id (crypto : Crypto) (found : Uninitialized)
  (message : Bytes) (allowed : list bytes) (key_mapping : list (bytes * Key))
  (s : Signature) (id : bytes) :
  key_id s = Val id -> (32 < List.length id)%nat ->
  check_signature crypto found message allowed key_mapping s =
  check_signature crypto found message allowed key_mapping
    {| key_id := Val (firstn 32 id); sig := sig s |}.
Proof.
  intros Hid Hlen. unfold check_signature. rewrite Hid. cbn [key_id sig].
  assert (Hf : List.length (firstn 32 id) = 32%nat)
    by (rewrite length_firstn; lia).
  rewrite (Read_exact (firstn 32 id)) by (unfold kDigestSizeBytes; lia).
  destruct id as [|x id]; [cbn in Hlen; lia|].
  reflexivity.
Qed.

(** C9 fails on the code for a key id that is too long.  The signature of K2
    with a key id field of 33 bytes (the id of K2 and one more byte) is not
    refused with Internal: the first 32 bytes are read, the size check
    passes, the signature is counted and the metadata is accepted, whatever
    the verifier finds in its uninitialised arrays. *)
Theorem C9_long_key_id_accepted (stale : Stale) :
  key_id Example.long_id_signature = Val (Example.K2_id ++ [x00]) /\
  List.length (Example.K2_id ++ [x00]) = 33%nat /\
  check_signature Example.crypto (stale 0%nat)
    (Val (Example.targets_bytes 1))
    [Example.K2_id] Example.key_mapping Example.long_id_signature = Val true /\
  VerifyMetadataSignatures Example.crypto stale
    (Val (Example.targets_bytes 1))
    [Example.long_id_signature]
    (Example.targets_requirement 1) Example.key_mapping = OkStatus.
Proof. repeat split. Qed.

(** ** Effects of the member functions *)

Lemma extends_refl (P : BackendCall -> Prop) (st : UpdateBundleAccessor) :
  extends P st st.
Proof.
  split; [now repeat split|]. exists []. now rewrite app_nil_r.
Qed.

Lemma extends_trans (P : BackendCall -> Prop)
  (st1 st2 st3 : UpdateBundleAccessor) :
  extends P st1 st2 -> extends P st2 st3 -> extends P st1 st3.
Proof.
  intros [(a1 & a2 & a3 & a4 & a5 & a6) (c1 & E1 & F1)]
         [(b1 & b2 & b3 & b4 & b5 & b6) (c2 & E2 & F2)].
  split; [repeat split; congruence|].
  exists (c1 ++ c2). split; [now rewrite E2, E1, app_assoc|].
  now apply Forall_app.
Qed.

Lemma extends_weaken (P Q : BackendCall -> Prop)
  (st st' : UpdateBundleAccessor) :
  (forall c, P c -> Q c) -> extends P st st' -> extends Q st st'.
Proof.
  intros HPQ [Hs (cs & E & F)]. split; [exact Hs|].
  exists cs. split; [exact E|]. revert F. apply Forall_impl. exact HPQ.
Qed.

Lemma stage_ret {A} (P : BackendCall -> Prop) (a : A) : stage P (ret a).
Proof. intros st. apply extends_refl. Qed.

Lemma stage_fail {A} (P : BackendCall -> Prop) (c : Code) :
  stage P (@fail A c).
Proof. intros st. apply extends_refl. Qed.

Lemma stage_lift {A} (P : BackendCall -> Prop) (r : Result A) :
  stage P (lift r).
Proof. intros st. apply extends_refl. Qed.

Lemma stage_get (P : BackendCall -> Prop) : stage P get.
Proof. intros st. apply extends_refl. Qed.

Lemma stage_bind {A B} (P : BackendCall -> Prop) (m : M A) (k : A -> M B) :
  stage P m -> (forall a, stage P (k a)) -> stage P (bind m k).
Proof.
  intros Hm Hk st. unfold bind. specialize (Hm st).
  destruct (m st) as [[a|c] st']; cbn [snd] in *; [|exact Hm].
  eapply extends_trans; [exact Hm | apply Hk].
Qed.

Lemma stage_record_call (P : BackendCall -> Prop) (c : BackendCall) :
  P c -> stage P (update (record_call c)).
Proof.
  intros Hc st. split; [now repeat split|].
  exists [c]. split; [reflexivity | now constructor].
Qed.

Lemma stage_set_trusted_root (P : BackendCall -> Prop)
  (r : Result SignedRootMetadata) : stage P (update (set_trusted_root r)).
Proof.
  intros st. split; [now repeat split|].
  exists []. cbn. now rewrite app_nil_r.
Qed.

Lemma stage_weaken {A} (P Q : BackendCall -> Prop) (m : M A) :
  (forall c, P c -> Q c) -> stage P m -> stage Q m.
Proof. intros HPQ Hm st. eapply extends_weaken; [exact HPQ | apply Hm]. Qed.

(** Breaks a member function into its steps. *)
Ltac stage_steps :=
  repeat first
    [ apply stage_ret | apply stage_fail | apply stage_lift | apply stage_get
    | apply stage_set_trusted_root
    | apply stage_record_call; (now left) || (now right) || exact I
    | apply stage_bind; [|intros ?]
    | match goal with
      | |- stage _ (if ?b then _ else _) => destruct b
      | |- stage _ (match ?x with _ => _ end) => destruct x
      end ].

Lemma stage_GetOnDeviceManifest : stage manifest_read GetOnDeviceManifest.
Proof. unfold GetOnDeviceManifest. stage_steps. Qed.

Lemma stage_GetOnDeviceTrustedRoot :
  stage (fun _ => True) GetOnDeviceTrustedRoot.
Proof. unfold GetOnDeviceTrustedRoot. stage_steps. Qed.

Lemma stage_UpgradeRoot (crypto : Crypto) (stack : Stack) :
  stage (fun _ => True) (UpgradeRoot crypto stack).
Proof.
  unfold UpgradeRoot. stage_steps; apply stage_GetOnDeviceTrustedRoot.
Qed.

Lemma stage_VerifyTargetsMetadata (crypto : Crypto) (stack : Stack) :
  stage manifest_read (VerifyTargetsMetadata crypto stack).
Proof.
  unfold VerifyTargetsMetadata. stage_steps; apply stage_GetOnDeviceManifest.
Qed.

Lemma stage_VerifyOutOfBundleTargetPayload (config : Config) (name : bytes)
  (len : N) (expected : Bytes) :
  stage manifest_read (VerifyOutOfBundleTargetPayload config name len expected).
Proof.
  unfold VerifyOutOfBundleTargetPayload.
  stage_steps; apply stage_GetOnDeviceManifest.
Qed.

Lemma stage_verify_target_files (crypto : Crypto) (config : Config)
  (files : list TargetFile) :
  stage manifest_read (verify_target_files crypto config files).
Proof.
  induction files as [|f files IH]; cbn [verify_target_files];
    [apply stage_ret|].
  apply stage_bind; [|intros _; exact IH].
  unfold verify_target_file, VerifyTargetPayload.
  stage_steps; apply stage_VerifyOutOfBundleTargetPayload.
Qed.

Lemma stage_VerifyTargetsPayloads (crypto : Crypto) (config : Config) :
  stage manifest_read (VerifyTargetsPayloads crypto config).
Proof.
  unfold VerifyTargetsPayloads. stage_steps.
  apply stage_verify_target_files.
Qed.

(** ** The trace of backend calls *)

Lemma calls_of_eq {A} (m : M A) (st : UpdateBundleAccessor)
  (cs : list BackendCall) :
  backend_calls (snd (m st)) = backend_calls st ++ cs -> calls_of m st = cs.
Proof.
  intros E. unfold calls_of. rewrite E.
  rewrite skipn_app, skipn_all, Nat.sub_diag. reflexivity.
Qed.

Lemma stage_calls {A} (P : BackendCall -> Prop) (m : M A)
  (st : UpdateBundleAccessor) :
  stage P m ->
  backend_calls (snd (m st)) = backend_calls st ++ calls_of m st /\
  Forall P (calls_of m st).
Proof.
  intros Hm. destruct (Hm st) as [_ (cs & E & F)].
  rewrite (@calls_of_eq _ m st cs E). now split.
Qed.

Lemma calls_of_bind {A B} (P : BackendCall -> Prop) (m : M A) (k : A -> M B)
  (st : UpdateBundleAccessor) :
  stage P m -> (forall a, stage P (k a)) ->
  calls_of (bind m k) st =
  calls_of m st ++
  match m st with
  | (Val a, st') => calls_of (k a) st'
  | (Err _, _) => []
  end.
Proof.
  intros Hm Hk. apply calls_of_eq.
  destruct (@stage_calls _ P m st Hm) as [Em _]. unfold bind.
  destruct (m st) as [[a|c] st'] eqn:E; cbn [snd] in *.
  - destruct (@stage_calls _ P (k a) st' (Hk a)) as [Ek _].
    now rewrite Ek, Em, app_assoc.
  - now rewrite app_nil_r.
Qed.

(** ** C4: the version check of the root upgrade *)

(** The trust anchor [UpgradeRoot] selects. *)
Lemma UpgradeRoot_anchor (crypto : Crypto) (stack : Stack)
  (st : UpdateBundleAccessor) :
  trusted_root_ (snd (UpgradeRoot crypto stack st)) =
  if disable_verification_ st then (b <- bundle_ st ;; root_metadata b)
  else on_device_root (backend_ st).
Proof.
  unfold UpgradeRoot, bind, get, update, lift, ret, fail,
    GetOnDeviceTrustedRoot.
  destruct (disable_verification_ st); cbn;
    repeat match goal with
      | |- context [match ?x with _ => _ end] => destruct x; cbn
      end; reflexivity.
Qed.

(** [UpgradeRoot] by cases: either it makes no call but the read of the
    on-device root in normal mode, or it is in normal mode, the new root has
    passed the two signature checks and the version check, and the root is
    handed to the backend as the last call. *)
Ltac simpl_stage :=
  cbn -[GetMetadataVersion VerifyRootMetadataSignatures
        VerifyMetadataSignatures GetVersion].

Lemma UpgradeRoot_cases (crypto : Crypto) (stack : Stack)
  (st : UpdateBundleAccessor) :
  calls_of (UpgradeRoot crypto stack) st =
    (if disable_verification_ st then [] else [GetRootMetadataReader]) \/
  (disable_verification_ st = false /\
   exists new_root trusted tv nv,
     (b <- bundle_ st ;; root_metadata b) = Val new_root /\
     on_device_root (backend_ st) = Val trusted /\
     VerifyRootMetadataSignatures crypto (stack NewRootUnderTrustedRoot)
      trusted new_root = Val true /\
     VerifyRootMetadataSignatures crypto (stack NewRootUnderItself)
      new_root new_root = Val true /\
     root_version trusted = Val tv /\
     root_version new_root = Val nv /\
     (tv <= nv)%N /\
     calls_of (UpgradeRoot crypto stack) st =
       [GetRootMetadataReader;
        SafelyPersistRootMetadata (root_to_bytes new_root)] /\
     fst (UpgradeRoot crypto stack st) =
       persist_root_status (backend_ st) (root_to_bytes new_root)).
Proof.
  unfold calls_of, root_version.
  unfold UpgradeRoot, bind, get, update, lift, ret, fail,
    GetOnDeviceTrustedRoot.
  destruct (disable_verification_ st) eqn:Ed; simpl_stage.
  - left.
    repeat match goal with
      | |- context [match ?x with _ => _ end] => destruct x; simpl_stage
      end; rewrite ?skipn_all; reflexivity.
  - destruct (b <- bundle_ st ;; root_metadata b) as [nr|c] eqn:En; simpl_stage;
      [|left; now rewrite skipn_app, skipn_all, Nat.sub_diag].
    destruct (on_device_root (backend_ st)) as [tr|c] eqn:Et; simpl_stage;
      [|left; now rewrite skipn_app, skipn_all, Nat.sub_diag].
    destruct (VerifyRootMetadataSignatures crypto
        (stack NewRootUnderTrustedRoot)
      tr nr) as [[|]|c] eqn:E1;
      simpl_stage; try (left; now rewrite skipn_app, skipn_all, Nat.sub_diag).
    destruct (VerifyRootMetadataSignatures crypto (stack NewRootUnderItself)
      nr nr) as [[|]|c] eqn:E2;
      simpl_stage; try (left; now rewrite skipn_app, skipn_all, Nat.sub_diag).
    destruct (serialized_root_metadata tr) as [tc|c] eqn:Etc; simpl_stage;
      [|left; now rewrite skipn_app, skipn_all, Nat.sub_diag].
    destruct (GetMetadataVersion (root_common_metadata (as_message tc)))
      as [tv|c] eqn:Etv; simpl_stage;
      [|left; now rewrite skipn_app, skipn_all, Nat.sub_diag].
    destruct (serialized_root_metadata nr) as [nc|c] eqn:Enc; simpl_stage;
      [|left; now rewrite skipn_app, skipn_all, Nat.sub_diag].
    destruct (GetMetadataVersion (root_common_metadata (as_message nc)))
      as [nv|c] eqn:Env; simpl_stage;
      [|left; now rewrite skipn_app, skipn_all, Nat.sub_diag].
    destruct (N.ltb_spec nv tv) as [Hlt|Hle]; simpl_stage;
      [left; now rewrite skipn_app, skipn_all, Nat.sub_diag|].
    right. split; [reflexivity|].
    exists nr, tr, tv, nv. rewrite Etc, Enc. cbn [try].
    repeat split; try assumption; try reflexivity.
    rewrite <- app_assoc. now rewrite skipn_app, skipn_all, Nat.sub_diag.
Qed.

(** C4: in a root upgrade in which the signatures of the new root verify
    under the trusted root and under the new root itself, a trusted version
    strictly greater than the new version makes [UpgradeRoot] fail with
    Unauthenticated, and no root is handed to the backend; a new version
    greater than or equal to the trusted one passes the check: in normal
    mode the new root is handed to the backend and the answer of the backend
    is returned, in self-verification mode OK is returned. *)
Theorem C4_root_version_check (crypto : Crypto) (stack : Stack)
  (st : UpdateBundleAccessor)
  (new_root trusted : SignedRootMetadata) (tv nv : N) :
  (b <- bundle_ st ;; root_metadata b) = Val new_root ->
  (if disable_verification_ st then Val new_root
   else on_device_root (backend_ st)) = Val trusted ->
  VerifyRootMetadataSignatures crypto (stack NewRootUnderTrustedRoot)
      trusted new_root = Val true ->
  VerifyRootMetadataSignatures crypto (stack NewRootUnderItself)
      new_root new_root = Val true ->
  root_version trusted = Val tv ->
  root_version new_root = Val nv ->
  ((nv < tv)%N ->
   fst (UpgradeRoot crypto stack st) = Err Unauthenticated /\
   forall new_root_bytes,
     ~ In (SafelyPersistRootMetadata new_root_bytes)
          (calls_of (UpgradeRoot crypto stack) st)) /\
  ((tv <= nv)%N ->
   if disable_verification_ st
   then fst (UpgradeRoot crypto stack st) = OkStatus /\
        calls_of (UpgradeRoot crypto stack) st = []
   else fst (UpgradeRoot crypto stack st) =
          persist_root_status (backend_ st) (root_to_bytes new_root) /\
        calls_of (UpgradeRoot crypto stack) st =
          [GetRootMetadataReader;
           SafelyPersistRootMetadata (root_to_bytes new_root)]).
Proof.
  intros En Et E1 E2 Etv Env. unfold root_version in Etv, Env.
  destruct (serialized_root_metadata trusted) as [tc|c] eqn:Etc;
    [|discriminate].
  destruct (serialized_root_metadata new_root) as [nc|c] eqn:Enc;
    [|discriminate].
  cbn [try] in Etv, Env.
  unfold calls_of.
  unfold UpgradeRoot, bind, get, update, lift, ret, fail,
    GetOnDeviceTrustedRoot.
  rewrite En.
  destruct (disable_verification_ st) eqn:Ed; simpl_stage.
  - injection Et as Et. subst trusted.
    rewrite Enc in Etc. injection Etc as Etc. subst tc.
    assert (nv = tv) by congruence. subst nv.
    rewrite E1. simpl_stage. rewrite E2. simpl_stage.
    rewrite Enc. simpl_stage.
    rewrite Etv. simpl_stage. rewrite N.ltb_irrefl. simpl_stage.
    split; [lia|]. intros _. now rewrite skipn_all.
  - rewrite Et. simpl_stage. rewrite E1. simpl_stage. rewrite E2. simpl_stage.
    rewrite Etc. simpl_stage. rewrite Etv. simpl_stage.
    rewrite Enc. simpl_stage. rewrite Env. simpl_stage.
    split; intros H.
    + destruct (N.ltb_spec nv tv); [|lia]. simpl_stage.
      rewrite skipn_app, skipn_all, Nat.sub_diag. cbn.
      split; [reflexivity|]. intros bs [Hb|[]]. discriminate.
    + destruct (N.ltb_spec nv tv); [lia|]. simpl_stage.
      rewrite <- app_assoc, skipn_app, skipn_all, Nat.sub_diag.
      now split.
Qed.

(** C4 at work: the root rollback scenario (on-device root 5, bundle root 4,
    validly signed both ways). *)
Lemma C4_root_version_check_witness :
  fst (UpgradeRoot Example.crypto Example.stack Example.root_rollback)
  = Err Unauthenticated /\
  forall new_root_bytes,
    ~ In (SafelyPersistRootMetadata new_root_bytes)
         (calls_of (UpgradeRoot Example.crypto Example.stack)
             Example.root_rollback).
Proof.
  refine (proj1
      (@C4_root_version_check Example.crypto Example.stack Example.root_rollback
                   (Example.signed_root 4) (Example.signed_root 5) 5%N 4%N
                   _ _ _ _ _ _) _);
    vm_compute; reflexivity.
Defined.

(** ** C3: when the root is persisted *)

Lemma stage_appends {A} (P : BackendCall -> Prop) (m : M A) :
  stage P m -> appends m.
Proof.
  intros Hm st. destruct (Hm st) as [_ (cs & E & _)]. now exists cs.
Qed.

Lemma appends_calls {A} (m : M A) (st : UpdateBundleAccessor) :
  appends m ->
  backend_calls (snd (m st)) = backend_calls st ++ calls_of m st.
Proof.
  intros Hm. destruct (Hm st) as (cs & E).
  now rewrite (@calls_of_eq _ m st cs E).
Qed.

Lemma calls_of_then {A B} (m : M A) (k : A -> M B)
  (st : UpdateBundleAccessor) :
  appends m -> (forall a, appends (k a)) ->
  calls_of (bind m k) st =
  calls_of m st ++
  match m st with
  | (Val a, st') => calls_of (k a) st'
  | (Err _, _) => []
  end.
Proof.
  intros Hm Hk. apply calls_of_eq.
  pose proof (@appends_calls _ m st Hm) as Em. unfold bind.
  destruct (m st) as [[a|c] st'] eqn:E; cbn [snd] in *.
  - rewrite (@appends_calls _ (k a) st' (Hk a)).
    now rewrite Em, app_assoc.
  - now rewrite app_nil_r.
Qed.

Lemma appends_set_bundle_verified (v : bool) :
  appends (update (set_bundle_verified v)).
Proof. intros st. exists []. cbn. now rewrite app_nil_r. Qed.

Lemma appends_bind {A B} (m : M A) (k : A -> M B) :
  appends m -> (forall a, appends (k a)) -> appends (bind m k).
Proof.
  intros Hm Hk st. unfold bind. destruct (Hm st) as (c1 & E1).
  destruct (m st) as [[a|c] st']; cbn [snd] in *; [|now exists c1].
  destruct (Hk a st') as (c2 & E2). exists (c1 ++ c2).
  now rewrite E2, E1, app_assoc.
Qed.

Lemma calls_of_set_bundle_verified (v : bool) (st : UpdateBundleAccessor) :
  calls_of (update (set_bundle_verified v)) st = [].
Proof. apply calls_of_eq. cbn. now rewrite app_nil_r. Qed.

(** With verification compiled in, the calls of [DoVerify] are those of
    [UpgradeRoot] followed by reads of the on-device manifest, made by the
    verification of the targets metadata and of the payloads. *)
Lemma DoVerify_calls (crypto : Crypto) (stack : Stack) (config : Config)
  (st : UpdateBundleAccessor) :
  PW_SOFTWARE_UPDATE_DISABLE_BUNDLE_VERIFICATION config = false ->
  exists later,
    calls_of (DoVerify crypto stack config) st =
    calls_of (UpgradeRoot crypto stack)
        (set_bundle_verified false st) ++ later /\
    Forall manifest_read later.
Proof.
  intros Hflag. unfold DoVerify. rewrite Hflag.
  pose proof (stage_appends (stage_UpgradeRoot crypto stack)) as HU.
  pose proof (stage_appends (stage_VerifyTargetsMetadata crypto stack)) as HM.
  pose proof (stage_appends (stage_VerifyTargetsPayloads crypto config)) as HP.
  rewrite calls_of_then;
    [| apply appends_set_bundle_verified
     | intros _; repeat (apply appends_bind; [assumption|intros _]);
       apply appends_set_bundle_verified ].
  rewrite calls_of_set_bundle_verified. cbn [app update].
  rewrite calls_of_then;
    [| assumption
     | intros _; repeat (apply appends_bind; [assumption|intros _]);
       apply appends_set_bundle_verified ].
  eexists. split; [reflexivity|].
  destruct (UpgradeRoot crypto stack (set_bundle_verified false st))
    as [[[]|c] st1]; [|constructor].
  rewrite calls_of_then;
    [| assumption
     | intros _; apply appends_bind; [assumption|intros _];
       apply appends_set_bundle_verified ].
  apply Forall_app. split.
  - apply (stage_calls st1 (stage_VerifyTargetsMetadata crypto stack)).
  - destruct (VerifyTargetsMetadata crypto stack st1) as [[[]|c] st2];
      [|constructor].
    rewrite calls_of_then;
      [| assumption | intros _; apply appends_set_bundle_verified ].
    apply Forall_app. split.
    + apply (stage_calls st2 (stage_VerifyTargetsPayloads crypto config)).
    + destruct (VerifyTargetsPayloads crypto config st2) as [[[]|c] st3];
        [|constructor].
      rewrite calls_of_set_bundle_verified. constructor.
Qed.

(** C3: a call of SafelyPersistRootMetadata during [DoVerify] is made in
    normal mode only, with the bytes of a new root of the bundle that has
    passed the signature check under the on-device trusted root, the
    signature check under itself and the version check; it is the last call
    of [UpgradeRoot], already in the trace of the state in which the
    verification of the targets metadata starts, and every later call of
    [DoVerify] is a read of the on-device manifest.  In self-verification
    mode the root is never persisted. *)
Theorem C3_root_persisted_after_checks (crypto : Crypto) (stack : Stack)
  (config : Config)
  (st : UpdateBundleAccessor) :
  (forall new_root_bytes,
     In (SafelyPersistRootMetadata new_root_bytes)
        (calls_of (DoVerify crypto stack config) st) ->
     disable_verification_ st = false /\
     exists new_root trusted tv nv later,
       (b <- bundle_ st ;; root_metadata b) = Val new_root /\
       new_root_bytes = root_to_bytes new_root /\
       on_device_root (backend_ st) = Val trusted /\
       VerifyRootMetadataSignatures crypto (stack NewRootUnderTrustedRoot)
      trusted new_root = Val true /\
       VerifyRootMetadataSignatures crypto (stack NewRootUnderItself)
      new_root new_root = Val true /\
       root_version trusted = Val tv /\
       root_version new_root = Val nv /\
       (tv <= nv)%N /\
       backend_calls
         (snd (UpgradeRoot crypto stack (set_bundle_verified false st))) =
         backend_calls st ++
         [GetRootMetadataReader; SafelyPersistRootMetadata new_root_bytes] /\
       calls_of (DoVerify crypto stack config) st =
         [GetRootMetadataReader; SafelyPersistRootMetadata new_root_bytes]
         ++ later /\
       Forall manifest_read later) /\
  (disable_verification_ st = true ->
   forall new_root_bytes,
     ~ In (SafelyPersistRootMetadata new_root_bytes)
          (calls_of (DoVerify crypto stack config) st)).
Proof.
  assert (Hmain : forall new_root_bytes,
     In (SafelyPersistRootMetadata new_root_bytes)
        (calls_of (DoVerify crypto stack config) st) ->
     disable_verification_ st = false /\
     exists new_root trusted tv nv later,
       (b <- bundle_ st ;; root_metadata b) = Val new_root /\
       new_root_bytes = root_to_bytes new_root /\
       on_device_root (backend_ st) = Val trusted /\
       VerifyRootMetadataSignatures crypto (stack NewRootUnderTrustedRoot)
      trusted new_root = Val true /\
       VerifyRootMetadataSignatures crypto (stack NewRootUnderItself)
      new_root new_root = Val true /\
       root_version trusted = Val tv /\
       root_version new_root = Val nv /\
       (tv <= nv)%N /\
       backend_calls
         (snd (UpgradeRoot crypto stack (set_bundle_verified false st))) =
         backend_calls st ++
         [GetRootMetadataReader; SafelyPersistRootMetadata new_root_bytes] /\
       calls_of (DoVerify crypto stack config) st =
         [GetRootMetadataReader; SafelyPersistRootMetadata new_root_bytes]
         ++ later /\
       Forall manifest_read later).
  { intros bs Hin.
    destruct (PW_SOFTWARE_UPDATE_DISABLE_BUNDLE_VERIFICATION config) eqn:Hflag.
    { unfold DoVerify in Hin. rewrite Hflag in Hin.
      rewrite calls_of_set_bundle_verified in Hin. destruct Hin. }
    destruct (@DoVerify_calls crypto stack config st Hflag)
      as (later & Ecalls & Hlater).
    set (st0 := set_bundle_verified false st) in *.
    assert (Hnot : ~ In (SafelyPersistRootMetadata bs) later).
    { intros H. rewrite Forall_forall in Hlater.
      destruct (Hlater _ H); discriminate. }
    rewrite Ecalls in Hin. apply in_app_or in Hin as [Hin|Hin]; [|easy].
    destruct (UpgradeRoot_cases crypto stack st0) as [Hnone | Hper].
    - rewrite Hnone in Hin. cbn in Hin.
      destruct (disable_verification_ st); cbn in Hin;
        [easy | destruct Hin as [H|[]]; discriminate].
    - destruct Hper as (Hd & nr & tr & tv & nv & En & Et & E1 & E2 & Etv
                        & Env & Hle & Ec & _).
      cbn in Hd, En, Et. split; [exact Hd|].
      rewrite Ec in Hin. destruct Hin as [H|[H|[]]]; [discriminate|].
      injection H as <-.
      exists nr, tr, tv, nv, later.
      repeat split; try assumption.
      + rewrite (@appends_calls _ (UpgradeRoot crypto stack) st0
                   (stage_appends (stage_UpgradeRoot crypto stack))).
        now rewrite Ec.
      + now rewrite Ecalls, Ec. }
  split; [exact Hmain|].
  intros Hself bs Hin. destruct (Hmain bs Hin) as [Hd _]. congruence.
Qed.

(** C3 at work: on the happy path the root of the bundle is persisted, with
    its two checks passed, before the on-device manifest is read. *)
Lemma C3_root_persisted_after_checks_witness :
  disable_verification_ Example.happy = false /\
  exists new_root trusted tv nv later,
    (b <- bundle_ Example.happy ;; root_metadata b) = Val new_root /\
    root_to_bytes (Example.signed_root 1) = root_to_bytes new_root /\
    on_device_root (backend_ Example.happy) = Val trusted /\
    VerifyRootMetadataSignatures Example.crypto
        (Example.stack NewRootUnderTrustedRoot)
      trusted new_root = Val true /\
    VerifyRootMetadataSignatures Example.crypto
        (Example.stack NewRootUnderItself)
      new_root new_root = Val true /\
    root_version trusted = Val tv /\
    root_version new_root = Val nv /\
    (tv <= nv)%N /\
    backend_calls
      (snd (UpgradeRoot Example.crypto Example.stack
              (set_bundle_verified false Example.happy))) =
      backend_calls Example.happy ++
      [GetRootMetadataReader;
       SafelyPersistRootMetadata (root_to_bytes (Example.signed_root 1))] /\
    calls_of (DoVerify Example.crypto Example.stack Example.config)
        Example.happy =
      [GetRootMetadataReader;
       SafelyPersistRootMetadata (root_to_bytes (Example.signed_root 1))]
      ++ later /\
    Forall manifest_read later.
Proof.
  apply (proj1
      (C3_root_persisted_after_checks Example.crypto Example.stack
          Example.config
                  Example.happy)).
  vm_compute. right. left. reflexivity.
Defined.

(** ** C5: anti-rollback of the targets metadata *)

(** The version [VerifyTargetsMetadata] reads for the new targets metadata
    is the version of the manifest of the bundle. *)
Lemma targets_sig_res_version (crypto : Crypto) (stack : Stack)
  (st : UpdateBundleAccessor)
  (top_level_targets_metadata : Result (Serialized TargetsMetadata))
  (sig_res : Status) :
  targets_sig_res crypto stack st = Val (top_level_targets_metadata, sig_res) ->
  GetMetadataVersion
    (m <- top_level_targets_metadata ;;
     targets_common_metadata (as_message m))
  = GetVersion (FromBundle (bundle_ st)).
Proof.
  unfold targets_sig_res, FromBundle, GetVersion, GetMetadataVersion, map_at.
  destruct (trusted_root_ st) as [tr|c]; cbn [try]; [|discriminate].
  destruct (bundle_ st) as [b|c]; cbn [try]; [|discriminate].
  destruct (targets_metadata b) as [map|c]; cbn [try]; [|discriminate].
  destruct (lookup map kTopLevelTargetsName) as [signed|c]; cbn [try];
    [|discriminate].
  destruct (targets_signatures signed) as [sigs|c]; cbn [try];
    [|discriminate].
  destruct (serialized_root_metadata tr) as [content|c]; cbn [try];
    [|discriminate].
  destruct (keys (as_message content)) as [key_mapping|c]; cbn [try];
    [|discriminate].
  destruct (targets_signature_requirement (as_message content))
    as [requirement|c]; cbn [try]; [|discriminate].
  intros H; injection H as <- _.
  destruct (serialized_targets_metadata signed) as [m|c]; cbn [try];
    [|reflexivity].
  destruct (targets_common_metadata (as_message m)) as [cm|c]; cbn [try];
    [|reflexivity].
  now destruct (version cm).
Qed.

(** C5: in normal mode, once the signatures of the targets metadata have
    verified, [VerifyTargetsMetadata] returns OK when the backend reports
    the on-device manifest as NotFound; otherwise, with the version of the
    on-device manifest and the version of the targets metadata of the
    bundle both readable, it fails with Unauthenticated when the on-device
    version is strictly greater and returns OK when the new version is
    equal or greater.  The new version is the one the manifest of the bundle
    declares. *)
Theorem C5_targets_anti_rollback (crypto : Crypto) (stack : Stack)
  (st : UpdateBundleAccessor)
  (top_level_targets_metadata : Result (Serialized TargetsMetadata)) :
  disable_verification_ st = false ->
  targets_sig_res crypto stack st
  = Val (top_level_targets_metadata, OkStatus) ->
  let manifest := device_manifest (backend_ st) in
  (IsNotFound manifest = true ->
   fst (VerifyTargetsMetadata crypto stack st) = OkStatus) /\
  (forall current_version new_version,
     GetVersion manifest = Val current_version ->
     GetVersion (FromBundle (bundle_ st)) = Val new_version ->
     ((new_version < current_version)%N ->
      fst (VerifyTargetsMetadata crypto stack st) = Err Unauthenticated) /\
     ((current_version <= new_version)%N ->
      fst (VerifyTargetsMetadata crypto stack st) = OkStatus)).
Proof.
  intros Hd Hsig. cbv zeta. unfold device_manifest.
  pose proof (targets_sig_res_version crypto stack st Hsig) as Hversion.
  unfold VerifyTargetsMetadata, GetOnDeviceManifest, bind, get, update, lift,
    ret, fail.
  rewrite Hd, Hsig. simpl_stage.
  destruct (before_manifest_read_status (backend_ st)) as [[]|c] eqn:Eb;
    simpl_stage.
  - split.
    + intros Hnf. now rewrite Hnf.
    + intros cv nv Hcv Hnv. rewrite <- Hversion in Hnv.
      destruct (on_device_manifest (backend_ st)) as [tm|c] eqn:Em;
        [|discriminate].
      simpl_stage. rewrite Hcv, Hnv.
      split; intros H; destruct (N.ltb_spec nv cv); try lia; reflexivity.
  - split.
    + intros Hnf. now rewrite Hnf.
    + intros cv nv Hcv. discriminate.
Qed.

(** C5 at work on a device whose manifest is at version 7, with valid
    signatures: targets metadata at version 6 is refused with
    Unauthenticated, at version 7 and at version 8 it is accepted. *)
Lemma C5_targets_anti_rollback_witness :
  fst (VerifyTargetsMetadata Example.crypto Example.stack
         (Example.after_root (Example.targets_at 6)))
  = Err Unauthenticated /\
  fst (VerifyTargetsMetadata Example.crypto Example.stack
         (Example.after_root (Example.targets_at 7))) = OkStatus /\
  fst (VerifyTargetsMetadata Example.crypto Example.stack
         (Example.after_root (Example.targets_at 8))) = OkStatus.
Proof.
  split; [|split].
  - refine (proj1 (proj2 (@C5_targets_anti_rollback Example.crypto
                            Example.stack
                            (Example.after_root (Example.targets_at 6))
                            (Val {| as_bytes := Example.targets_bytes 6;
                                    as_message :=
                                      Example.targets_content 6
                                        [Example.fw_target] |})
                            _ _)
                   7%N 6%N _ _) _);
      vm_compute; reflexivity.
  - refine (proj2 (proj2 (@C5_targets_anti_rollback Example.crypto
                            Example.stack
                            (Example.after_root (Example.targets_at 7))
                            (Val {| as_bytes := Example.targets_bytes 7;
                                    as_message :=
                                      Example.targets_content 7
                                        [Example.fw_target] |})
                            _ _)
                   7%N 7%N _ _) _);
      vm_compute; (reflexivity || discriminate).
  - refine (proj2 (proj2 (@C5_targets_anti_rollback Example.crypto
                            Example.stack
                            (Example.after_root (Example.targets_at 8))
                            (Val {| as_bytes := Example.targets_bytes 8;
                                    as_message :=
                                      Example.targets_content 8
                                        [Example.fw_target] |})
                            _ _)
                   7%N 8%N _ _) _);
      vm_compute; (reflexivity || discriminate).
Defined.

(** ** C6: targets metadata without signatures *)

(** C6, as stated, fails on the code.  In normal mode, targets metadata with
    zero signatures makes [VerifyTargetsMetadata], and with it [DoVerify],
    fail with NotFound, the status of the signature verifier, and not with
    Unauthenticated. *)
Lemma C6_counterexample :
  disable_verification_ (Example.unsigned false) = false /\
  (b <- bundle_ (Example.unsigned false) ;;
   s <- map_at (targets_metadata b) kTopLevelTargetsName ;;
   targets_signatures s) = Val [] /\
  fst (VerifyTargetsMetadata Example.crypto Example.stack
         (Example.after_root (Example.unsigned false))) = Err NotFound /\
  fst (DoVerify Example.crypto Example.stack Example.config
      (Example.unsigned false))
  = Err NotFound.
Proof. repeat split. Qed.

(** C6 (amended): when the targets metadata of the bundle carries zero
    signatures, and the trusted root, its key mapping and its targets
    signature requirement (threshold and key ids) are readable, the
    verification of the targets metadata fails with NotFound in normal mode,
    and returns OK in self-verification mode, where the NotFound of the
    signature verifier is downgraded. *)
Theorem C6_unsigned_targets (crypto : Crypto) (stack : Stack)
  (st : UpdateBundleAccessor)
  (trusted : SignedRootMetadata) (content : Serialized RootMetadata)
  (key_mapping : list (bytes * Key)) (requirement : SignatureRequirement)
  (t : N) (allowed : list bytes) (b : UpdateBundle)
  (map : list (bytes * SignedTargetsMetadata))
  (signed : SignedTargetsMetadata) :
  trusted_root_ st = Val trusted ->
  serialized_root_metadata trusted = Val content ->
  keys (as_message content) = Val key_mapping ->
  targets_signature_requirement (as_message content) = Val requirement ->
  threshold requirement = Val t ->
  key_ids requirement = Val allowed ->
  bundle_ st = Val b ->
  targets_metadata b = Val map ->
  lookup map kTopLevelTargetsName = Val signed ->
  targets_signatures signed = Val [] ->
  fst (VerifyTargetsMetadata crypto stack st) =
  if disable_verification_ st then OkStatus else Err NotFound.
Proof.
  intros Htr Hc Hk Hr Ht Ha Hb Hm Hs Hsig.
  unfold VerifyTargetsMetadata, bind, get, update, lift, ret, fail.
  unfold targets_sig_res. rewrite Htr, Hb. cbn [try ok negb].
  rewrite Hm. cbn [try]. rewrite Hs. cbn [try]. rewrite Hsig, Hc.
  cbn [try]. rewrite Hk, Hr. cbn [try fst snd].
  unfold VerifyMetadataSignatures. rewrite Ht, Ha. cbn [try signatures_loop].
  cbn [N.eqb IsNotFound]. rewrite andb_false_r.
  now destruct (disable_verification_ st).
Qed.

(** C6 at work: the unsigned bundle of the self-verification scenario. *)
Lemma C6_unsigned_targets_witness :
  fst (VerifyTargetsMetadata Example.crypto Example.stack
         (Example.after_root (Example.unsigned_with_root true))) = OkStatus.
Proof.
  refine (@C6_unsigned_targets Example.crypto Example.stack
            (Example.after_root (Example.unsigned_with_root true))
            (Example.signed_root 1)
            {| as_bytes := Example.root_bytes 1;
               as_message := Example.root_content 1 |}
            Example.key_mapping (Example.targets_requirement 1)
            1%N [Example.K2_id]
            _ _ _ _ _ _ _ _ _ _ _ _ _);
    vm_compute; reflexivity.
Defined.

(** ** The stages of [DoVerify] *)

Lemma bind_eq {A B} (m : M A) (k : A -> M B) (st : UpdateBundleAccessor) :
  bind m k st =
  match m st with
  | (Val a, st') => k a st'
  | (Err c, st') => (Err c, st')
  end.
Proof. reflexivity. Qed.

(** With verification compiled in, [DoVerify] clears the latch, runs the
    three stages and sets the latch after the last one: either all stages
    return OK, or [DoVerify] leaves with an error and the latch cleared. *)
Lemma DoVerify_stages (crypto : Crypto) (stack : Stack) (config : Config)
  (st : UpdateBundleAccessor) :
  PW_SOFTWARE_UPDATE_DISABLE_BUNDLE_VERIFICATION config = false ->
  let st0 := set_bundle_verified false st in
  let st1 := snd (UpgradeRoot crypto stack st0) in
  let st2 := snd (VerifyTargetsMetadata crypto stack st1) in
  let st3 := snd (VerifyTargetsPayloads crypto config st2) in
  (fst (UpgradeRoot crypto stack st0) = OkStatus /\
   fst (VerifyTargetsMetadata crypto stack st1) = OkStatus /\
   fst (VerifyTargetsPayloads crypto config st2) = OkStatus /\
   DoVerify crypto stack config st =
       (OkStatus, set_bundle_verified true st3)) \/
  (exists c, fst (DoVerify crypto stack config st) = Err c /\
             bundle_verified_ (snd (DoVerify crypto stack config st)) = false).
Proof.
  intros Hflag. cbv zeta. unfold DoVerify. rewrite Hflag.
  rewrite bind_eq. cbn [update].
  set (st0 := set_bundle_verified false st).
  pose proof (stage_UpgradeRoot crypto stack st0) as [H1 _].
  rewrite bind_eq.
  destruct (UpgradeRoot crypto stack st0) as [[[]|c] st1] eqn:E1; cbn
      [fst snd] in *.
  2:{ right. exists c. split; [reflexivity|].
      destruct H1 as (_ & _ & _ & _ & _ & ->). reflexivity. }
  pose proof (stage_VerifyTargetsMetadata crypto stack st1) as [H2 _].
  rewrite bind_eq.
  destruct (VerifyTargetsMetadata crypto stack st1) as [[[]|c] st2] eqn:E2;
    cbn [fst snd] in *.
  2:{ right. exists c. split; [reflexivity|].
      destruct H1 as (_ & _ & _ & _ & _ & L1).
      destruct H2 as (_ & _ & _ & _ & _ & L2). now rewrite L2, L1. }
  pose proof (stage_VerifyTargetsPayloads crypto config st2) as [H3 _].
  rewrite bind_eq.
  destruct (VerifyTargetsPayloads crypto config st2) as [[[]|c] st3] eqn:E3;
    cbn [fst snd] in *.
  2:{ right. exists c. split; [reflexivity|].
      destruct H1 as (_ & _ & _ & _ & _ & L1).
      destruct H2 as (_ & _ & _ & _ & _ & L2).
      destruct H3 as (_ & _ & _ & _ & _ & L3). now rewrite L3, L2, L1. }
  left. repeat split.
Qed.

(** The stages leave the bundle and the backend as they are. *)
Lemma stage_bundle {A} (P : BackendCall -> Prop) (m : M A)
  (st : UpdateBundleAccessor) :
  stage P m ->
  bundle_ (snd (m st)) = bundle_ st /\
  backend_ (snd (m st)) = backend_ st /\
  disable_verification_ (snd (m st)) = disable_verification_ st /\
  bundle_verified_ (snd (m st)) = bundle_verified_ st.
Proof.
  intros Hm. destruct (Hm st) as [(_ & _ & Hb & Hu & Hd & Hv) _].
  now repeat split.
Qed.

(** ** C7: the latch in front of the manifest *)

Lemma Close_latch (st : UpdateBundleAccessor) :
  bundle_verified_ (snd (Close st)) = false.
Proof.
  unfold Close, bind, get, update, lift, ret.
  destruct (blob_store_reader_IsOpen st); cbn; [|reflexivity].
  now destruct (Close_status (blob_store_ st)).
Qed.

Lemma DoOpen_latch (st : UpdateBundleAccessor) :
  bundle_verified_ (snd (DoOpen st)) = bundle_verified_ st.
Proof.
  unfold DoOpen, bind, get, update, lift, ret, fail. cbn.
  destruct (Init_status (blob_store_ st)); cbn; [|reflexivity].
  destruct (Open_status (blob_store_ st)); cbn; [|reflexivity].
  now destruct (blob_message (blob_store_ st)).
Qed.

Lemma DoVerify_latch (crypto : Crypto) (stack : Stack) (config : Config)
  (st : UpdateBundleAccessor) :
  bundle_verified_ (snd (DoVerify crypto stack config st)) =
  ok (fst (DoVerify crypto stack config st)).
Proof.
  destruct (PW_SOFTWARE_UPDATE_DISABLE_BUNDLE_VERIFICATION config) eqn:Hflag.
  - unfold DoVerify. now rewrite Hflag.
  - destruct (@DoVerify_stages crypto stack config st Hflag)
      as [(_ & _ & _ & ->) | (c & Hc & Hl)]; [reflexivity|].
    now rewrite Hl, Hc.
Qed.

(** [OpenAndVerify] sets the latch exactly when it returns OK, unless the
    bundle could not be opened, in which case the latch is left as it was. *)
Lemma OpenAndVerify_latch (crypto : Crypto) (stack : Stack) (config : Config)
  (st : UpdateBundleAccessor) :
  (fst (OpenAndVerify crypto stack config st) = OkStatus ->
   bundle_verified_ (snd (OpenAndVerify crypto stack config st)) = true) /\
  (fst (OpenAndVerify crypto stack config st) <> OkStatus ->
   bundle_verified_ st = false ->
   bundle_verified_ (snd (OpenAndVerify crypto stack config st)) = false).
Proof.
  unfold OpenAndVerify. rewrite bind_eq.
  pose proof (DoOpen_latch st) as Ho.
  destruct (DoOpen st) as [[[]|c] st1]; cbn [fst snd] in *.
  - pose proof (DoVerify_latch crypto stack config st1) as Hv.
    destruct (DoVerify crypto stack config st1) as [[[]|c] st2]; cbn
        [fst snd] in *.
    + split; [intros _; exact Hv | intros H; now elim H].
    + split; [discriminate | intros _ _; apply Close_latch].
  - split; [discriminate | intros _ H; congruence].
Qed.

(** After a verification that is compiled in, the manifest of the bundle is
    readable. *)
Lemma DoVerify_manifest_ok (crypto : Crypto) (stack : Stack) (config : Config)
  (st : UpdateBundleAccessor) :
  PW_SOFTWARE_UPDATE_DISABLE_BUNDLE_VERIFICATION config = false ->
  fst (DoVerify crypto stack config st) = OkStatus ->
  ok (FromBundle (bundle_ (snd (DoVerify crypto stack config st)))) = true.
Proof.
  intros Hflag Hok.
  destruct (@DoVerify_stages crypto stack config st Hflag)
    as [(_ & _ & H3 & E) | (c & Hc & _)];
    [|rewrite Hc in Hok; discriminate].
  rewrite E. cbn [snd set_bundle_verified bundle_].
  set (st2 := snd (VerifyTargetsMetadata crypto stack
                     (snd (UpgradeRoot crypto stack
                             (set_bundle_verified false st))))) in *.
  destruct (@stage_bundle _ _ _ st2
              (stage_VerifyTargetsPayloads crypto config)) as (-> & _).
  unfold VerifyTargetsPayloads, bind, get, lift in H3. cbn [fst snd] in H3.
  destruct (FromBundle (bundle_ st2)); [reflexivity | discriminate].
Qed.

Lemma run_never_verified (crypto : Crypto) (config : Config)
  (calls : list ApiCall) :
  forall st,
    bundle_verified_ st = false ->
    never_verified (fst (run crypto config calls st)) ->
    bundle_verified_ (snd (run crypto config calls st)) = false.
Proof.
  induction calls as [|c calls IH]; intros st Hst Hnv; [exact Hst|].
  cbn [run] in *.
  destruct (api crypto config c st) as [r st'] eqn:Ec.
  destruct (run crypto config calls st') as [log st''] eqn:Er.
  cbn [fst snd] in *.
  assert (Hst' : bundle_verified_ st' = false).
  { destruct c as [| |blob backend]; cbn [api] in Ec.
    - pose proof (OpenAndVerify_latch crypto stack config st) as [_ H].
      rewrite Ec in H. cbn [fst snd] in H. apply H; [|exact Hst].
      apply (Hnv stack r). now left.
    - pose proof (Close_latch st) as H. now rewrite Ec in H.
    - injection Ec as _ <-. exact Hst. }
  specialize (IH st' Hst'). rewrite Er in IH. apply IH.
  intros stack' r' Hin. apply (Hnv stack'). now right.
Qed.

(** C7, as stated, fails on the code: a set latch does not make
    [GetManifest] succeed.  With verification compiled out, [OpenAndVerify]
    on a bundle without targets metadata returns OK and sets the latch, and
    [GetManifest] then returns NotFound. *)
Lemma C7_counterexample :
  fst (OpenAndVerify Example.crypto Example.stack Sample.config_unverified
         Sample.with_empty_bundle) = OkStatus /\
  bundle_verified_
    (snd (OpenAndVerify Example.crypto Example.stack Sample.config_unverified
            Sample.with_empty_bundle)) = true /\
  GetManifest
    (snd (OpenAndVerify Example.crypto Example.stack Sample.config_unverified
            Sample.with_empty_bundle)) = Err NotFound.
Proof. repeat split. Qed.

(** C7 (amended): [GetManifest] succeeds only if the latch is set.  With
    the latch cleared it returns FailedPrecondition; with the latch set it
    returns the manifest of the bundle, which is OK after an [OpenAndVerify]
    that returned OK with verification compiled in.  The latch is cleared
    in a new accessor and stays cleared through every sequence of calls in
    which no [OpenAndVerify] has returned OK, and it is cleared after
    [Close].  [DoVerify], when verification is compiled in, runs its three
    stages from the state in which it has cleared the latch: [GetManifest]
    returns FailedPrecondition in that state and after each stage, and a
    [DoVerify] that fails leaves it returning FailedPrecondition, also on an
    accessor that was verified before. *)
Theorem C7_manifest_behind_latch (crypto : Crypto) (stack : Stack)
  (config : Config) :
  (forall st, bundle_verified_ st = false ->
              GetManifest st = Err FailedPrecondition) /\
  (forall st, bundle_verified_ st = true ->
              GetManifest st = FromBundle (bundle_ st)) /\
  (forall st, ok (GetManifest st) = true -> bundle_verified_ st = true) /\
  (forall blob_store backend disable_verification calls,
     never_verified
       (fst (run crypto config calls
               (constructed blob_store backend disable_verification))) ->
     GetManifest
       (snd (run crypto config calls
               (constructed blob_store backend disable_verification)))
     = Err FailedPrecondition) /\
  (forall st, GetManifest (snd (Close st)) = Err FailedPrecondition) /\
  (forall st,
     PW_SOFTWARE_UPDATE_DISABLE_BUNDLE_VERIFICATION config = false ->
     let st0 := set_bundle_verified false st in
     let st1 := snd (UpgradeRoot crypto stack st0) in
     let st2 := snd (VerifyTargetsMetadata crypto stack st1) in
     let st3 := snd (VerifyTargetsPayloads crypto config st2) in
     DoVerify crypto stack config st =
     (UpgradeRoot crypto stack ~;;
      VerifyTargetsMetadata crypto stack ~;;
      VerifyTargetsPayloads crypto config ~;;
      update (set_bundle_verified true)) st0 /\
     GetManifest st0 = Err FailedPrecondition /\
     GetManifest st1 = Err FailedPrecondition /\
     GetManifest st2 = Err FailedPrecondition /\
     GetManifest st3 = Err FailedPrecondition /\
     (fst (DoVerify crypto stack config st) <> OkStatus ->
      GetManifest (snd (DoVerify crypto stack config st))
      = Err FailedPrecondition)) /\
  (forall st,
     fst (OpenAndVerify crypto stack config st) = OkStatus ->
     bundle_verified_ (snd (OpenAndVerify crypto stack config st)) = true /\
     (PW_SOFTWARE_UPDATE_DISABLE_BUNDLE_VERIFICATION config = false ->
      ok (GetManifest (snd (OpenAndVerify crypto stack config st))) = true)).
Proof.
  assert (Hlatch : forall st, bundle_verified_ st = false ->
                             GetManifest st = Err FailedPrecondition).
  { intros st H. unfold GetManifest. now rewrite H. }
  split; [exact Hlatch|].
  split; [intros st H; unfold GetManifest; now rewrite H|].
  split.
  { intros st H. unfold GetManifest in H.
    destruct (bundle_verified_ st); [reflexivity | discriminate]. }
  split.
  { intros blob backend dv calls Hnv. apply Hlatch.
    now apply run_never_verified. }
  split; [intros st; apply Hlatch, Close_latch|].
  split.
  { intros st Hflag. cbv zeta.
    set (st0 := set_bundle_verified false st).
    set (st1 := snd (UpgradeRoot crypto stack st0)).
    set (st2 := snd (VerifyTargetsMetadata crypto stack st1)).
    destruct (@stage_bundle _ _ _ st0 (stage_UpgradeRoot crypto stack))
      as (_ & _ & _ & L1).
    destruct (@stage_bundle _ _ _ st1
                (stage_VerifyTargetsMetadata crypto stack))
      as (_ & _ & _ & L2).
    destruct (@stage_bundle _ _ _ st2
                (stage_VerifyTargetsPayloads crypto config))
      as (_ & _ & _ & L3).
    fold st1 in L1. fold st2 in L2.
    assert (L0 : bundle_verified_ st0 = false) by reflexivity.
    split.
    { unfold DoVerify. rewrite Hflag. reflexivity. }
    repeat split; try (apply Hlatch; congruence).
    intros Hfail. apply Hlatch. rewrite DoVerify_latch.
    destruct (fst (DoVerify crypto stack config st)) as [[]|c];
      [now elim Hfail | reflexivity]. }
  intros st Hok.
  split; [now apply OpenAndVerify_latch|].
  intros Hflag. unfold GetManifest.
  rewrite (proj1 (OpenAndVerify_latch crypto stack config st) Hok).
  cbn [negb].
  revert Hok. unfold OpenAndVerify. rewrite bind_eq.
  destruct (DoOpen st) as [[[]|c] st1]; cbn [fst snd]; [|discriminate].
  pose proof (@DoVerify_manifest_ok crypto stack config st1 Hflag) as Hm.
  destruct (DoVerify crypto stack config st1) as [[[]|c] st2];
    cbn [fst snd] in *; [|discriminate].
  intros _. now apply Hm.
Qed.

(** ** C1: what a successful verification says about the payloads *)

Lemma VerifyInBundleTargetPayload_ok (crypto : Crypto) (len : N)
  (expected : Bytes) (payload : bytes) :
  VerifyInBundleTargetPayload crypto len expected payload = OkStatus ->
  N.of_nat (List.length payload) = len /\
  expected = Val (sha256 crypto payload).
Proof.
  unfold VerifyInBundleTargetPayload. cbv zeta.
  destruct (N.eqb_spec (N.of_nat (List.length payload)) len) as [El|];
    cbn [negb]; [|discriminate].
  cbn [sha256_Hash try]. destruct expected as [e|c]; cbn [Equal try];
    [|discriminate].
  destruct (bytes_eqb e (sha256 crypto payload)) eqn:E; cbn [negb];
    [|discriminate].
  intros _. apply bytes_eqb_eq in E. now subst.
Qed.

Lemma GetOnDeviceManifest_value (st : UpdateBundleAccessor) :
  fst (GetOnDeviceManifest st) = Val (device_manifest (backend_ st)).
Proof.
  unfold GetOnDeviceManifest, device_manifest, bind, get, update, ret.
  cbn. now destruct (before_manifest_read_status (backend_ st)).
Qed.

Lemma VerifyOutOfBundleTargetPayload_ok (config : Config) (name : bytes)
  (len : N) (expected : Bytes) (st : UpdateBundleAccessor) :
  fst (VerifyOutOfBundleTargetPayload config name len expected st)
  = OkStatus ->
  PW_SOFTWARE_UPDATE_WITH_PERSONALIZATION config = true /\
  exists cached cached_digest,
    GetTargetFile (device_manifest (backend_ st)) name = Val cached /\
    file_length cached = Val len /\
    sha256_entry cached = Val (Val cached_digest) /\
    cached_digest <> [] /\
    expected =
    Val (zeroed_buffer kDigestSizeBytes
           (firstn kDigestSizeBytes cached_digest)).
Proof.
  unfold VerifyOutOfBundleTargetPayload.
  destruct (PW_SOFTWARE_UPDATE_WITH_PERSONALIZATION config);
    [|discriminate].
  rewrite bind_eq. pose proof (GetOnDeviceManifest_value st) as Hm.
  destruct (GetOnDeviceManifest st) as [[m|c] st1]; cbn [fst] in Hm;
    [|discriminate].
  injection Hm as ->. set (m := device_manifest (backend_ st)).
  destruct (ok m); cbn [negb]; [|discriminate].
  destruct (GetTargetFile m name) as [cached|c]; [|discriminate].
  unfold bind, lift, fail, ret.
  destruct (file_length cached) as [cl|c] eqn:El; [|discriminate].
  destruct (N.eqb_spec cl len) as [->|]; cbn [negb]; [|discriminate].
  unfold sha256_entry.
  destruct (target_sha256_of (hashes cached)) as [cs|c] eqn:Ec;
    [|discriminate].
  destruct (Read kDigestSizeBytes cs) as [r|c] eqn:Er; [|discriminate].
  apply Read_Val in Er as (cd & -> & Hne & ->).
  destruct expected as [e|c]; cbn [Equal]; [|discriminate].
  destruct (bytes_eqb e _) eqn:E; cbn [negb fst]; [|discriminate].
  intros _. split; [reflexivity|]. exists cached, cd.
  apply bytes_eqb_eq in E. subst e. now repeat split.
Qed.

(** A name that fits the buffer is read whole. *)
Lemma ReadProtoString_Val (name : bytes) (n : nat) (r : bytes) :
  ReadProtoString (Val name) n = Val r -> r = name.
Proof.
  unfold ReadProtoString.
  destruct (Nat.ltb_spec n (List.length name)) as [|Hfit]; [discriminate|].
  intros Hr. apply Read_Val in Hr as (bs & E & _ & ->).
  injection E as <-. now apply firstn_all2.
Qed.

Lemma verify_target_file_ok (crypto : Crypto) (config : Config)
  (T : TargetFile) (st : UpdateBundleAccessor) :
  fst (verify_target_file crypto config T st) = OkStatus ->
  payload_in_bundle crypto (bundle_ st) T \/
  (PW_SOFTWARE_UPDATE_WITH_PERSONALIZATION config = true /\
   measured_on_device (device_manifest (backend_ st)) T).
Proof.
  unfold verify_target_file, bind, lift, fail.
  destruct (file_name T) as [name|c] eqn:En; [|discriminate].
  destruct (ReadProtoString (Val name) (MAX_TARGET_NAME_LENGTH config))
    as [target_name|c] eqn:Er; [|discriminate].
  apply ReadProtoString_Val in Er. subst target_name.
  destruct (file_length T) as [len|c] eqn:El; [|discriminate].
  destruct (PW_SOFTWARE_UPDATE_MAX_TARGET_PAYLOAD_SIZE config <? len)%N;
    [discriminate|].
  destruct (target_sha256_of (hashes T)) as [expected|c] eqn:Eh;
    [|discriminate].
  destruct expected as [digest|c]; cbn [status]; [|discriminate].
  unfold VerifyTargetPayload, get. rewrite bind_eq.
  unfold bundled_payload.
  destruct (b <- bundle_ st ;; map_at (target_payloads b) name)
    as [payload|c] eqn:Ep.
  - unfold lift. cbn [fst]. intros H.
    apply VerifyInBundleTargetPayload_ok in H as [Hl Hd].
    left. exists name, len, digest, payload.
    injection Hd as ->. now repeat split.
  - intros H. apply VerifyOutOfBundleTargetPayload_ok in H
      as (Hp & cached & cd & Hc & Hcl & Hcs & Hne & Hd).
    right. split; [exact Hp|].
    exists name, len, digest, cached, cd.
    injection Hd as ->. now repeat split.
Qed.

Lemma verify_target_files_ok (crypto : Crypto) (config : Config)
  (files : list TargetFile) :
  forall st,
    fst (verify_target_files crypto config files st) = OkStatus ->
    forall T, In T files ->
      payload_in_bundle crypto (bundle_ st) T \/
      (PW_SOFTWARE_UPDATE_WITH_PERSONALIZATION config = true /\
       measured_on_device (device_manifest (backend_ st)) T).
Proof.
  induction files as [|f files IH]; intros st Hok T HT; [destruct HT|].
  cbn [verify_target_files] in Hok. rewrite bind_eq in Hok.
  pose proof (@verify_target_file_ok crypto config f st) as Hf.
  assert (Hst : stage manifest_read (verify_target_file crypto config f)).
  { unfold verify_target_file, VerifyTargetPayload.
    stage_steps; apply stage_VerifyOutOfBundleTargetPayload. }
  destruct (@stage_bundle _ _ _ st Hst) as (Hb & Hk & _).
  destruct (verify_target_file crypto config f st) as [[[]|c] st1];
    cbn [fst snd] in *; [|discriminate].
  destruct HT as [<-|HT]; [now apply Hf|].
  rewrite <- Hb, <- Hk. now apply IH.
Qed.

(** A successful verification has measured every target file of the bundle
    manifest, in the bundle or against the on-device manifest. *)
Theorem DoVerify_payloads_measured (crypto : Crypto) (stack : Stack)
  (config : Config)
  (st : UpdateBundleAccessor) :
  PW_SOFTWARE_UPDATE_DISABLE_BUNDLE_VERIFICATION config = false ->
  fst (DoVerify crypto stack config st) = OkStatus ->
  exists files,
    GetTargetFiles (FromBundle (bundle_ st)) = Val files /\
    forall T, In T files ->
      payload_in_bundle crypto (bundle_ st) T \/
      (PW_SOFTWARE_UPDATE_WITH_PERSONALIZATION config = true /\
       measured_on_device (device_manifest (backend_ st)) T).
Proof.
  intros Hflag Hok.
  destruct (@DoVerify_stages crypto stack config st Hflag)
    as [(_ & _ & H3 & _) | (c & Hc & _)];
    [|rewrite Hc in Hok; discriminate].
  set (st0 := set_bundle_verified false st) in *.
  set (st1 := snd (UpgradeRoot crypto stack st0)) in *.
  set (st2 := snd (VerifyTargetsMetadata crypto stack st1)) in *.
  destruct (@stage_bundle _ _ _ st0 (stage_UpgradeRoot crypto stack))
    as (B1 & K1 & _).
  destruct (@stage_bundle _ _ _ st1 (stage_VerifyTargetsMetadata crypto stack))
    as (B2 & K2 & _).
  fold st1 in B1, K1. fold st2 in B2, K2.
  assert (Bst : bundle_ st2 = bundle_ st) by (rewrite B2, B1; reflexivity).
  assert (Kst : backend_ st2 = backend_ st) by (rewrite K2, K1; reflexivity).
  unfold VerifyTargetsPayloads, get in H3. rewrite bind_eq in H3.
  unfold lift in H3. rewrite bind_eq in H3.
  destruct (FromBundle (bundle_ st2)) as [tm|c] eqn:Em; cbn [status] in H3;
    [|discriminate].
  rewrite bind_eq in H3.
  destruct (GetTargetFiles (Val tm)) as [files|c] eqn:Ef; [|discriminate].
  exists files. rewrite <- Bst, Em. split; [exact Ef|].
  rewrite <- Kst. now apply verify_target_files_ok.
Qed.

(** What was measured against the on-device manifest is recorded there, when
    the SHA256 entries of that manifest have the size of a digest. *)
Lemma measured_recorded (manifest : ManifestAccessor) (T : TargetFile) :
  device_digests_sized manifest ->
  measured_on_device manifest T -> recorded_on_device manifest T.
Proof.
  intros Hsized (name & len & digest & cached & cd & Hn & Hl & Hd & Hc & Hcl
                 & Hcd & Hne & Hbuf).
  unfold GetTargetFile in Hc.
  destruct (GetTargetFiles manifest) as [files|c] eqn:Ef; [|discriminate].
  cbn [try] in Hc. apply find_target_file_In in Hc as [Hin Hcn].
  pose proof (Hsized files cached cd Ef Hin Hcd) as Hlen.
  rewrite firstn_all2 in Hbuf by lia.
  rewrite zeroed_buffer_full in Hbuf by exact Hlen. subst cd.
  exists name, len, digest, files, cached. now repeat split.
Qed.

(** The statement of C1, under the assumption that the SHA256 entries of the
    on-device manifest have 32 bytes. *)
Theorem DoVerify_payloads_accounted_for (crypto : Crypto) (stack : Stack)
  (config : Config)
  (st : UpdateBundleAccessor) :
  PW_SOFTWARE_UPDATE_DISABLE_BUNDLE_VERIFICATION config = false ->
  device_digests_sized (device_manifest (backend_ st)) ->
  fst (DoVerify crypto stack config st) = OkStatus ->
  exists files,
    GetTargetFiles (FromBundle (bundle_ st)) = Val files /\
    forall T, In T files -> payload_accounted_for crypto config st T.
Proof.
  intros Hflag Hsized Hok.
  destruct (@DoVerify_payloads_measured crypto stack config st Hflag Hok)
    as (files & Ef & Hall).
  exists files. split; [exact Ef|].
  intros T HT. destruct (Hall T HT) as [Hin | [Hp Hm]]; [now left|].
  right. split; [exact Hp|]. now apply measured_recorded.
Qed.

(** C1 fails on the code when the on-device manifest records a SHA256 entry
    that is shorter than a digest.  The bundle lists fw.bin with length 4 and
    the SHA256 entry ab 00 ... 00, and carries no payload; the on-device
    manifest records fw.bin with length 4 and the one-byte SHA256 entry ab.
    With personalization compiled in, verification returns OK: the entry is
    read into a zeroed buffer of 32 bytes and compared as a whole.  Yet
    fw.bin has no payload in the bundle, and the on-device manifest does not
    record its digest. *)
Theorem C1_short_device_digest_accepted (stack : Stack) :
  PW_SOFTWARE_UPDATE_DISABLE_BUNDLE_VERIFICATION Example.config_personalized
  = false /\
  fst (DoVerify Example.crypto stack Example.config_personalized
         Example.personalized_out) = OkStatus /\
  GetTargetFiles (FromBundle (bundle_ Example.personalized_out))
  = Val [Example.padded_target] /\
  ~ payload_accounted_for Example.crypto Example.config_personalized
      Example.personalized_out Example.padded_target.
Proof.
  repeat split.
  intros [(name & len & digest & payload & Hn & _ & _ & Hp & _)
         | (_ & name & len & digest & files & cached & _ & _ & Hd & Hf & Hin
            & _ & _ & Hcd)].
  - injection Hn as <-. discriminate Hp.
  - injection Hf as <-. destruct Hin as [<-|[]].
    vm_compute in Hd, Hcd. rewrite <- Hd in Hcd. discriminate Hcd.
Qed.

(** C7 at work: an accessor whose only verification failed (root rollback)
    and which was then closed refuses the manifest. *)
Lemma C7_manifest_behind_latch_witness :
  GetManifest
    (snd (run Example.crypto Example.config
            [CallOpenAndVerify Example.stack; CallClose]
            (constructed (blob_store_ Example.root_rollback)
               (backend_ Example.root_rollback) false)))
  = Err FailedPrecondition.
Proof.
  apply (proj1 (proj2 (proj2 (proj2
           (C7_manifest_behind_latch Example.crypto Example.stack
               Example.config))))).
  intros stack r Hin. cbn [run api fst snd] in Hin.
  destruct (OpenAndVerify Example.crypto Example.stack Example.config
              (constructed (blob_store_ Example.root_rollback)
                 (backend_ Example.root_rollback) false))
    as [r0 st0] eqn:E.
  vm_compute in E. injection E as <- <-.
  destruct (Close _) as [r1 st1]. cbn [run fst snd] in Hin.
  destruct Hin as [H|[H|[]]]; [|discriminate H].
  injection H as _ <-. discriminate.
Defined.

(** ** C10: the total payload size *)

Lemma add_u64_add (u a b : N) :
  add_u64 (add_u64 u a) b = add_u64 u (a + b).
Proof.
  unfold add_u64. rewrite N.Div0.add_mod_idemp_l. f_equal. lia.
Qed.

(** The loop adds, to the value [total_bytes] holds on entry, the lengths of
    the manifest entries whose payloads are in the bundle. *)
Lemma total_payload_loop_sum (config : Config)
  (payloads : list (bytes * bytes)) (targets : list TargetFile) :
  forall u r,
    (u < 2 ^ 64)%N ->
    total_payload_loop config payloads targets u = Val r ->
    r = add_u64 u (sum_of_present_lengths payloads targets).
Proof.
  induction targets as [|target rest IH]; intros u r Hu H.
  - cbn in H. injection H as <-. unfold add_u64.
    cbn [sum_of_present_lengths]. rewrite N.add_0_r.
    symmetry. now apply N.mod_small.
  - cbn [total_payload_loop sum_of_present_lengths] in *.
    destruct (file_name target) as [name|c]; cbn [try] in H; [|discriminate].
    destruct (Nat.ltb_spec (MAX_TARGET_NAME_LENGTH config) (List.length name))
      as [|Hfit]; [discriminate|].
    destruct (Read (MAX_TARGET_NAME_LENGTH config) (Val name)) as [view|c]
      eqn:Er; cbn [try] in H; [|discriminate].
    apply Read_Val in Er as (bs & E & _ & ->). injection E as <-.
    rewrite firstn_all2 in H by exact Hfit.
    destruct (ok (lookup payloads name)); cbn [negb] in H.
    + destruct (file_length target) as [len|c]; cbn [try] in H;
        [|discriminate].
      apply IH in H; [|unfold add_u64; now apply N.mod_lt].
      now rewrite add_u64_add in H.
    + apply IH in H; [|exact Hu].
      now destruct (file_length target).
Qed.

(** [GetTotalPayloadSize] returns the sum of the specification shifted by the
    value the uninitialised variable holds. *)
Theorem GetTotalPayloadSize_sum (config : Config) (indeterminate : N)
  (st : UpdateBundleAccessor) (r : N) :
  (indeterminate < 2 ^ 64)%N ->
  GetTotalPayloadSize config indeterminate st = Val r ->
  exists targets payloads,
    GetTargetFiles (GetManifest st) = Val targets /\
    (b <- bundle_ st ;; target_payloads b) = Val payloads /\
    r = add_u64 indeterminate (sum_of_present_lengths payloads targets).
Proof.
  intros Hu H. unfold GetTotalPayloadSize in H.
  destruct (GetTargetFiles (GetManifest st)) as [targets|c]; cbn [try] in H;
    [|discriminate].
  destruct (b <- bundle_ st ;; target_payloads b) as [payloads|c];
    cbn [try] in H; [|discriminate].
  exists targets, payloads. repeat split.
  now apply (@total_payload_loop_sum config payloads targets).
Qed.

(** C10 fails on the code: the sum does not start at 0.  After the successful
    verification of the happy path (fw.bin of length 4, payload present) the
    sum of the specification is 4, and [GetTotalPayloadSize] returns 4 more
    than what the uninitialised [total_bytes] holds: 4 when it holds 0, 5
    when it holds 1. *)
Theorem C10_total_starts_at_indeterminate (stack : Stack) :
  fst (DoVerify Example.crypto stack Example.config Example.happy)
  = OkStatus /\
  sum_of_present_lengths [(Example.fw_bin, Example.fw_payload)]
    [Example.fw_target] = 4%N /\
  GetTotalPayloadSize Example.config 0 (Example.happy_verified stack)
  = Val 4%N /\
  GetTotalPayloadSize Example.config 1 (Example.happy_verified stack)
  = Val 5%N /\
  forall indeterminate,
    GetTotalPayloadSize Example.config indeterminate
      (Example.happy_verified stack)
    = Val (add_u64 indeterminate 4).
Proof.
  repeat split.
Qed.

(** ** The scenarios of the specification *)

(** Happy path: verification succeeds, the manifest is handed out, the
    payload of fw.bin is the four bytes of the bundle, and the lengths of the
    present payloads sum to 4. *)
Example scenario_happy_path (stack : Stack) :
  let st :=
    snd (OpenAndVerify Example.crypto stack Example.config
           (constructed (blob_store_ Example.happy) (backend_ Example.happy)
              false)) in
  fst (OpenAndVerify Example.crypto stack Example.config
         (constructed (blob_store_ Example.happy) (backend_ Example.happy)
            false)) = OkStatus /\
  ok (GetManifest st) = true /\
  bundled_payload st Example.fw_bin = Val Example.fw_payload /\
  GetTotalPayloadSize Example.config 0 st = Val 4%N.
Proof. vm_compute. repeat split. Qed.

(** Root rotation: the backend sees one SafelyPersistRootMetadata call, with
    the bytes of the new root, before the on-device manifest is read. *)
Example scenario_root_rotation (stack : Stack) :
  fst (DoVerify Example.crypto stack Example.config Example.rotation) = OkStatus
      /\
  calls_of (DoVerify Example.crypto stack Example.config) Example.rotation =
  [GetRootMetadataReader;
   SafelyPersistRootMetadata (root_to_bytes Example.rotated_root);
   BeforeManifestRead; GetManifestReader].
Proof. vm_compute. repeat split. Qed.

(** Root rollback: Unauthenticated, nothing persisted, accessor closed. *)
Example scenario_root_rollback (stack : Stack) :
  let st := constructed (blob_store_ Example.root_rollback)
              (backend_ Example.root_rollback) false in
  fst (OpenAndVerify Example.crypto stack Example.config st)
  = Err Unauthenticated /\
  backend_calls (snd (OpenAndVerify Example.crypto stack Example.config st))
  = [GetRootMetadataReader] /\
  blob_store_reader_IsOpen
    (snd (OpenAndVerify Example.crypto stack Example.config st)) = false.
Proof. vm_compute. repeat split. Qed.

(** A root of the same version as the trusted root is accepted. *)
Example scenario_root_same_version (stack : Stack) :
  fst (DoVerify Example.crypto stack Example.config Example.root_same_version)
  = OkStatus.
Proof. reflexivity. Qed.

(** Targets rollback: on-device manifest at version 7, bundle targets at
    version 6; version 7 is accepted. *)
Example scenario_targets_rollback (stack : Stack) :
  fst (DoVerify Example.crypto stack Example.config (Example.targets_at 6))
  = Err Unauthenticated /\
  fst (DoVerify Example.crypto stack Example.config (Example.targets_at 7))
  = OkStatus.
Proof. vm_compute. repeat split. Qed.

(** Payload corruption. *)
Example scenario_payload_corruption (stack : Stack) :
  fst (DoVerify Example.crypto stack Example.config Example.corrupted)
  = Err Unauthenticated.
Proof. reflexivity. Qed.

(** Unsigned bundle in self-verification mode. *)
Example scenario_unsigned_self_verification (stack : Stack) :
  fst (DoVerify Example.crypto stack Example.config
         (Example.unsigned_with_root true)) = OkStatus /\
  ok (GetManifest (snd (DoVerify Example.crypto stack Example.config
                          (Example.unsigned_with_root true)))) = true.
Proof. vm_compute. repeat split. Qed.

(** A personalized-out target is accepted against a full cached digest, and
    refused when personalization is not compiled in. *)
Example scenario_personalized_out (stack : Stack) :
  fst (DoVerify Example.crypto stack Example.config_personalized
         Example.personalized_cached) = OkStatus /\
  fst (DoVerify Example.crypto stack Example.config Example.personalized_cached)
  = Err Unauthenticated.
Proof. vm_compute. repeat split. Qed.

(** The payload of the personalized-out target is accounted for by the
    on-device manifest. *)
Example personalized_cached_accounted_for :
  exists files,
    GetTargetFiles (FromBundle (bundle_ Example.personalized_cached))
    = Val files /\
    forall T, In T files ->
      payload_accounted_for Example.crypto Example.config_personalized
        Example.personalized_cached T.
Proof.
  apply (@DoVerify_payloads_accounted_for Example.crypto Example.stack);
    [reflexivity | | reflexivity].
  intros files cached digest Hf Hin Hd.
  injection Hf as <-. destruct Hin as [<-|[]].
  injection Hd as <-. reflexivity.
Qed.

(** * Further properties *)

(** ** The signature verifier: skipped, reordered and repeated signatures *)

Section SignatureLists.

Variable crypto : Crypto.
Variable message : Bytes.
Variable allowed_key_ids : list bytes.
Variable key_mapping : list (bytes * Key).
Variable t : N.

Local Abbreviation check found :=
  (check_signature crypto found message allowed_key_ids key_mapping).
Local Abbreviation loop stale :=
  (signatures_loop crypto stale message allowed_key_ids key_mapping t).

(** The number of signatures seen only matters at the end of an empty
    list. *)
Lemma loop_total (signatures : list Signature) :
  forall stale v total total',
    (total = 0%N <-> total' = 0%N) \/ signatures <> [] ->
    loop stale signatures v total = loop stale signatures v total'.
Proof.
  induction signatures as [|s l IH]; intros stale v total total' H.
  - rewrite !loop_nil. destruct H as [H|H]; [|congruence].
    destruct (N.eqb_spec total 0), (N.eqb_spec total' 0); try reflexivity;
      tauto.
  - rewrite !loop_cons.
    assert (E : forall w, loop (later stale) l w (total + 1)%N =
                          loop (later stale) l w (total' + 1)%N).
    { intros w. apply IH. left. lia. }
    now rewrite !E.
Qed.

(** A signature that is neither counted nor in error can be left out, when
    the turns of the other signatures find the same as before. *)
Lemma loop_skip (pre post : list Signature) (s : Signature) :
  forall stale v total total',
    check (stale (List.length pre)) s = Val false ->
    pre ++ post <> [] \/ total' <> 0%N ->
    loop stale (pre ++ s :: post) v total =
    loop (without_turn (List.length pre) stale) (pre ++ post) v total'.
Proof.
  induction pre as [|a pre IH]; intros stale v total total' Hs H.
  - cbn [app List.length] in *. rewrite loop_cons, Hs.
    change (without_turn 0 stale) with (later stale).
    apply loop_total. destruct H as [H|H]; [now right | left; lia].
  - cbn [app List.length]. rewrite !loop_cons.
    change (without_turn (S (List.length pre)) stale 0%nat)
      with (stale 0%nat).
    change (later (without_turn (S (List.length pre)) stale))
      with (without_turn (List.length pre) (later stale)).
    assert (E : forall w,
              loop (later stale) (pre ++ s :: post) w (total + 1)%N =
              loop (without_turn (List.length pre) (later stale))
                (pre ++ post) w (total' + 1)%N).
    { intros w. apply IH; [exact Hs | right; lia]. }
    now rewrite !E.
Qed.

(** A signature whose key id is not allowed is skipped. *)
Lemma check_signature_foreign (found : Uninitialized) (s : Signature)
  (id : bytes) :
  key_id s = Val id -> List.length id = 32%nat ->
  ~ In id allowed_key_ids ->
  check found s = Val false.
Proof.
  intros Hid Hlen Hnot. unfold check_signature. rewrite Hid.
  rewrite (Read_exact id) by (unfold kDigestSizeBytes; lia).
  cbn [try]. unfold kDigestSizeBytes. rewrite Hlen. cbn [Nat.eqb negb].
  cbv zeta.
  destruct (existsb (fun trusted => bytes_eqb trusted id) allowed_key_ids)
    eqn:E; [|reflexivity].
  apply existsb_bytes_In in E. contradiction.
Qed.

(** Copies of a signature that every turn counts. *)
Lemma count_verified_repeat (s : Signature) (n : nat) :
  forall stale,
    (forall i, (i < n)%nat ->
               counted crypto (stale i) message allowed_key_ids key_mapping s
               = true) ->
    count_verified crypto stale message allowed_key_ids key_mapping
      (repeat s n) = N.of_nat n.
Proof.
  induction n as [|n IH]; intros stale H; [reflexivity|].
  cbn [repeat]. rewrite count_verified_cons, (H 0%nat) by lia.
  rewrite IH; [lia|]. intros i Hi. apply (H (S i)). lia.
Qed.

End SignatureLists.

Lemma valid_signatures_Permutation (crypto : Crypto) (message : Bytes)
  (allowed_key_ids : list bytes) (key_mapping : list (bytes * Key))
  (l l' : list Signature) :
  Permutation l l' ->
  valid_signatures crypto message allowed_key_ids key_mapping l =
  valid_signatures crypto message allowed_key_ids key_mapping l'.
Proof.
  induction 1 as [|x l l' _ IH|x y l|l l' l'' _ IH1 _ IH2].
  - reflexivity.
  - rewrite !valid_signatures_cons. now rewrite IH.
  - rewrite !valid_signatures_cons. lia.
  - now rewrite IH1.
Qed.

(** X1: a signature whose key id has between 1 and 31 bytes, inspected
    before the threshold is met (no signature before it raises an error,
    and the turns before it count fewer than t signatures, given what they
    find in the uninitialised arrays), makes [VerifyMetadataSignatures]
    return Internal, whatever signatures follow it. *)
Theorem short_key_id_is_internal (crypto : Crypto) (stale : Stale)
  (message : Bytes) (requirement : SignatureRequirement)
  (key_mapping : list (bytes * Key)) (t : N) (allowed : list bytes)
  (pre post : list Signature) (s : Signature) (id : bytes) :
  threshold requirement = Val t ->
  key_ids requirement = Val allowed ->
  (forall s' found,
      In s' pre ->
      aborts crypto found message allowed key_mapping s' = false) ->
  (count_verified crypto stale message allowed key_mapping pre < t)%N ->
  key_id s = Val id -> id <> [] -> (List.length id < 32)%nat ->
  VerifyMetadataSignatures crypto stale message (pre ++ s :: post)
    requirement key_mapping = Err Internal.
Proof.
  intros Ht Ha Hclean Hcount Hid Hne Hlen.
  unfold VerifyMetadataSignatures. rewrite Ht, Ha. cbn [try].
  apply (@loop_aborts crypto message allowed key_mapping t pre post s
           Internal (stale 0%nat)); [exact Hclean | lia | ].
  now apply (@check_signature_short_key_id crypto (stale 0%nat) message
               allowed key_mapping s id).
Qed.

(** X1 at work.  Behind the signature of K2 without its last byte, which is
    not counted when the arrays hold zeros, the short key id is reached at
    threshold 1 and the answer is Internal. *)
Lemma short_key_id_is_internal_witness :
  VerifyMetadataSignatures Example.crypto Example.stale
    (Val (Example.targets_bytes 1))
    ([Sample.foreign_signature; Sample.cut_signature] ++
     Example.short_id_signature :: [Example.targets_signature 1])
    (Example.targets_requirement 1) Example.key_mapping = Err Internal.
Proof.
  apply (@short_key_id_is_internal Example.crypto Example.stale
           (Val (Example.targets_bytes 1)) (Example.targets_requirement 1)
           Example.key_mapping 1%N [Example.K2_id]
           [Sample.foreign_signature; Sample.cut_signature]
           [Example.targets_signature 1]
           Example.short_id_signature (repeat x22 31)).
  - reflexivity.
  - reflexivity.
  - intros s' found [<-|[<-|[]]]; vm_compute; reflexivity.
  - vm_compute. reflexivity.
  - reflexivity.
  - discriminate.
  - vm_compute. lia.
Defined.

(** X2: a signature whose 32-byte key id is not among the allowed key ids
    counts neither towards acceptance nor towards rejection: with or without
    it the metadata is accepted in the same cases, and when other signatures
    remain the verifier returns the very same status.  The comparison is
    between runs in which the turns of the other signatures find the same
    in the uninitialised arrays. *)
Theorem foreign_signature_is_ignored (crypto : Crypto) (stale : Stale)
  (message : Bytes) (requirement : SignatureRequirement)
  (key_mapping : list (bytes * Key)) (allowed : list bytes)
  (pre post : list Signature) (s : Signature) (id : bytes) :
  key_ids requirement = Val allowed ->
  key_id s = Val id -> List.length id = 32%nat -> ~ In id allowed ->
  let verify stale signatures :=
    VerifyMetadataSignatures crypto stale message signatures requirement
      key_mapping in
  let stale' := without_turn (List.length pre) stale in
  (verify stale (pre ++ s :: post) = OkStatus <->
   verify stale' (pre ++ post) = OkStatus)
  /\ (pre ++ post <> [] ->
      verify stale (pre ++ s :: post) = verify stale' (pre ++ post)).
Proof.
  intros Ha Hid Hlen Hnot. cbv zeta. unfold VerifyMetadataSignatures.
  destruct (threshold requirement) as [t|c]; cbn [try]; [|now split].
  rewrite Ha. cbn [try].
  pose proof (@check_signature_foreign crypto message allowed key_mapping
                (stale (List.length pre)) s id Hid Hlen Hnot) as Hs.
  assert (Hsame : pre ++ post <> [] ->
            signatures_loop crypto stale message allowed key_mapping t
              (pre ++ s :: post) 0 0 =
            signatures_loop crypto (without_turn (List.length pre) stale)
              message allowed key_mapping t (pre ++ post) 0 0).
  { intros Hne. apply loop_skip; [exact Hs | now left]. }
  split; [|exact Hsame].
  destruct (pre ++ post) as [|a l] eqn:E.
  - apply app_eq_nil in E as [-> ->]. cbn [app].
    rewrite loop_cons. cbn [List.length] in Hs. rewrite Hs, !loop_nil. cbn.
    split; discriminate.
  - rewrite Hsame by discriminate. tauto.
Qed.

Lemma foreign_signature_is_ignored_witness :
  VerifyMetadataSignatures Example.crypto Example.stale
    (Val (Example.targets_bytes 1))
    ([] ++ Sample.foreign_signature :: [Example.targets_signature 1])
    (Example.targets_requirement 1) Example.key_mapping =
  VerifyMetadataSignatures Example.crypto
    (without_turn (List.length (@nil Signature)) Example.stale)
    (Val (Example.targets_bytes 1))
    ([] ++ [Example.targets_signature 1])
    (Example.targets_requirement 1) Example.key_mapping.
Proof.
  apply (proj2 (@foreign_signature_is_ignored Example.crypto Example.stale
                  (Val (Example.targets_bytes 1))
                  (Example.targets_requirement 1) Example.key_mapping
                  [Example.K2_id] [] [Example.targets_signature 1]
                  Sample.foreign_signature (repeat x33 32)
                  eq_refl eq_refl eq_refl
                  ltac:(intros [H|[]]; discriminate H))).
  discriminate.
Defined.

(** X3: on well-formed signatures (a key id of 32 bytes and, when the key
    id is allowed, a signature field of 64 bytes and a key of 65 bytes in
    the key mapping) over a readable message, the answer of
    [VerifyMetadataSignatures] depends neither on the order of the
    signatures nor on what the verifier finds in its uninitialised
    arrays. *)
Theorem signature_order_is_irrelevant (crypto : Crypto)
  (stale stale' : Stale) (m : bytes) (requirement : SignatureRequirement)
  (key_mapping : list (bytes * Key)) (allowed : list bytes)
  (signatures signatures' : list Signature) :
  key_ids requirement = Val allowed ->
  Forall (well_formed_signature allowed key_mapping) signatures ->
  Permutation signatures signatures' ->
  VerifyMetadataSignatures crypto stale (Val m) signatures requirement
    key_mapping
  = VerifyMetadataSignatures crypto stale' (Val m) signatures' requirement
      key_mapping.
Proof.
  intros Ha Hwf Hperm. unfold VerifyMetadataSignatures.
  destruct (threshold requirement) as [t|c]; cbn [try]; [|reflexivity].
  rewrite Ha. cbn [try].
  assert (Hwf' : Forall (well_formed_signature allowed key_mapping)
                   signatures').
  { rewrite Forall_forall in *. intros s Hs. apply Hwf.
    apply (Permutation_in s (Permutation_sym Hperm) Hs). }
  rewrite !loop_clean_decision by now apply well_formed_clean.
  rewrite !count_verified_well_formed by assumption.
  rewrite (valid_signatures_Permutation crypto (Val m) allowed key_mapping
             Hperm).
  now rewrite (Permutation_length Hperm).
Qed.

(** X3 at work: the signatures of K1 and K2 and a foreign one, in two
    orders and with different contents of the arrays. *)
Lemma signature_order_is_irrelevant_witness :
  VerifyMetadataSignatures Example.crypto Example.stale
    (Val (Example.targets_bytes 1))
    [Sample.foreign_signature; Example.targets_signature 1]
    (Example.targets_requirement 1) Example.key_mapping =
  VerifyMetadataSignatures Example.crypto (fun _ => Sample.leftover)
    (Val (Example.targets_bytes 1))
    [Example.targets_signature 1; Sample.foreign_signature]
    (Example.targets_requirement 1) Example.key_mapping.
Proof.
  apply (@signature_order_is_irrelevant Example.crypto Example.stale
           (fun _ => Sample.leftover) (Example.targets_bytes 1)
           (Example.targets_requirement 1)
           Example.key_mapping [Example.K2_id]).
  - reflexivity.
  - repeat constructor.
    + exists (repeat x33 32). repeat split.
      intros [H|[]]; discriminate H.
    + exists Example.K2_id. repeat split. intros _.
      exists (Example.sign Example.K2_val (Example.targets_bytes 1)),
        {| keyval := Val Example.K2_val |}, Example.K2_val.
      repeat split.
  - apply perm_swap.
Defined.

(** X4: signatures are counted one by one, also when they are copies of
    each other: t copies of one signature that each of the first t turns
    counts (as every turn does for a signature with a 64-byte signature
    field that verifies under an allowed 65-byte key) meet any threshold
    t >= 1. *)
Theorem repeated_signature_meets_threshold (crypto : Crypto)
  (stale : Stale) (message : Bytes) (requirement : SignatureRequirement)
  (key_mapping : list (bytes * Key)) (t : N) (allowed : list bytes)
  (s : Signature) (post : list Signature) :
  threshold requirement = Val t ->
  key_ids requirement = Val allowed ->
  (1 <= t)%N ->
  (forall i, (i < N.to_nat t)%nat ->
             counted crypto (stale i) message allowed key_mapping s = true) ->
  VerifyMetadataSignatures crypto stale message
    (repeat s (N.to_nat t) ++ post) requirement key_mapping = OkStatus.
Proof.
  intros Ht Ha H1 Hs. unfold VerifyMetadataSignatures.
  rewrite Ht, Ha. cbn [try].
  apply loop_accepts; [ | lia | ].
  - intros s' found Hin. apply repeat_spec in Hin. subst s'.
    rewrite (aborts_found crypto message allowed key_mapping found
               (stale 0%nat) s).
    specialize (Hs 0%nat ltac:(lia)).
    unfold aborts. unfold counted in Hs.
    now destruct (check_signature crypto (stale 0%nat) message allowed
                    key_mapping s) as [[|]|c].
  - rewrite count_verified_repeat by exact Hs. lia.
Qed.

Lemma repeated_signature_meets_threshold_witness :
  VerifyMetadataSignatures Example.crypto Example.stale
    (Val (Example.targets_bytes 1))
    (repeat (Example.targets_signature 1) (N.to_nat 3) ++ [])
    (Example.targets_requirement 3) Example.key_mapping = OkStatus.
Proof.
  apply (@repeated_signature_meets_threshold Example.crypto Example.stale
           (Val (Example.targets_bytes 1)) (Example.targets_requirement 3)
           Example.key_mapping 3%N [Example.K2_id]);
    vm_compute; (reflexivity || discriminate).
Defined.

(** ** Root upgrade and targets metadata: statuses and device reads *)

(** [UpgradeRoot] in normal mode on a new root that passes both signature
    checks. *)
Lemma UpgradeRoot_normal_run (crypto : Crypto) (stack : Stack)
  (st : UpdateBundleAccessor)
  (new_root trusted : SignedRootMetadata) (tv nv : N) :
  disable_verification_ st = false ->
  (b <- bundle_ st ;; root_metadata b) = Val new_root ->
  on_device_root (backend_ st) = Val trusted ->
  VerifyRootMetadataSignatures crypto (stack NewRootUnderTrustedRoot)
      trusted new_root = Val true ->
  VerifyRootMetadataSignatures crypto (stack NewRootUnderItself)
      new_root new_root = Val true ->
  root_version trusted = Val tv ->
  root_version new_root = Val nv ->
  (tv <= nv)%N ->
  calls_of (UpgradeRoot crypto stack) st =
  [GetRootMetadataReader; SafelyPersistRootMetadata (root_to_bytes new_root)].
Proof.
  intros Ed En Et E1 E2 Etv Env Hle. unfold root_version in Etv, Env.
  destruct (serialized_root_metadata trusted) as [tc|c] eqn:Etc;
    [|discriminate].
  destruct (serialized_root_metadata new_root) as [nc|c] eqn:Enc;
    [|discriminate].
  cbn [try] in Etv, Env. unfold calls_of.
  unfold UpgradeRoot, bind, get, update, lift, ret, fail,
    GetOnDeviceTrustedRoot.
  rewrite En, Ed. simpl_stage.
  rewrite Et. simpl_stage. rewrite E1. simpl_stage. rewrite E2. simpl_stage.
  rewrite Etc. simpl_stage. rewrite Etv. simpl_stage.
  rewrite Enc. simpl_stage. rewrite Env. simpl_stage.
  destruct (N.ltb_spec nv tv); [lia|]. simpl_stage.
  now rewrite <- app_assoc, skipn_app, skipn_all, Nat.sub_diag.
Qed.

(** The state [UpgradeRoot] leaves in self-verification mode. *)
Lemma UpgradeRoot_self_state (crypto : Crypto) (stack : Stack)
  (st : UpdateBundleAccessor) :
  disable_verification_ st = true ->
  snd (UpgradeRoot crypto stack st) =
  set_trusted_root (b <- bundle_ st ;; root_metadata b) st.
Proof.
  intros Hd.
  unfold UpgradeRoot, bind, get, update, lift, ret, fail. rewrite Hd.
  simpl_stage.
  repeat match goal with
    | |- context [match ?x with _ => _ end] => destruct x; simpl_stage
    end; reflexivity.
Qed.

(** X5: an allowed key id without entry in the key mapping is a hard failure
    with NotFound, the status that also stands for an unsigned message.  When
    the first signature of the targets metadata is of that kind, the
    verification of the targets metadata fails with NotFound in normal mode
    and returns OK in self-verification mode. *)
Theorem missing_key_passes_self_verification (crypto : Crypto) (stack : Stack)
  (st : UpdateBundleAccessor) (trusted : SignedRootMetadata)
  (content : Serialized RootMetadata) (key_mapping : list (bytes * Key))
  (requirement : SignatureRequirement) (t : N) (allowed : list bytes)
  (b : UpdateBundle) (map : list (bytes * SignedTargetsMetadata))
  (signed : SignedTargetsMetadata) (s : Signature) (rest : list Signature)
  (id sg : bytes) :
  trusted_root_ st = Val trusted ->
  serialized_root_metadata trusted = Val content ->
  keys (as_message content) = Val key_mapping ->
  targets_signature_requirement (as_message content) = Val requirement ->
  threshold requirement = Val t ->
  key_ids requirement = Val allowed ->
  bundle_ st = Val b ->
  targets_metadata b = Val map ->
  lookup map kTopLevelTargetsName = Val signed ->
  targets_signatures signed = Val (s :: rest) ->
  key_id s = Val id -> List.length id = 32%nat -> In id allowed ->
  sig s = Val sg ->
  lookup key_mapping id = Err NotFound ->
  fst (VerifyTargetsMetadata crypto stack st) =
  if disable_verification_ st then OkStatus else Err NotFound.
Proof.
  intros Htr Hc Hk Hr Ht Ha Hb Hm Hs Hsig Hid Hlen Hin Hsg Hmiss.
  assert (Hcheck : forall found message,
            check_signature crypto found message allowed key_mapping s
            = Err NotFound).
  { intros found message. unfold check_signature. rewrite Hid.
    rewrite (Read_exact id) by (unfold kDigestSizeBytes; lia).
    cbn [try]. unfold kDigestSizeBytes. rewrite Hlen. cbn [Nat.eqb negb].
    cbv zeta. rewrite (proj2 (existsb_bytes_In id allowed) Hin).
    cbn [negb]. rewrite Hsg. cbn [try]. now rewrite Hmiss. }
  unfold VerifyTargetsMetadata, bind, get, update, lift, ret, fail.
  unfold targets_sig_res. rewrite Htr, Hb. cbn [try ok negb].
  rewrite Hm. cbn [try]. rewrite Hs. cbn [try]. rewrite Hsig, Hc.
  cbn [try]. rewrite Hk, Hr. cbn [try fst snd].
  unfold VerifyMetadataSignatures. rewrite Ht, Ha. cbn [try].
  rewrite loop_cons, Hcheck. cbn [IsNotFound]. rewrite andb_false_r.
  now destruct (disable_verification_ st).
Qed.

Lemma missing_key_passes_self_verification_witness :
  fst (VerifyTargetsMetadata Example.crypto Example.stack
         (Example.after_root Sample.missing_key)) = OkStatus.
Proof.
  refine (@missing_key_passes_self_verification Example.crypto Example.stack
            (Example.after_root Sample.missing_key)
            Sample.root_without_K2 _ Sample.key_mapping_without_K2
            (Example.targets_requirement 1) 1%N [Example.K2_id] _ _ _
            (Example.targets_signature 1) [] Example.K2_id _
            _ _ _ _ _ _ _ _ _ _ _ _ _ _ _);
    try (vm_compute; reflexivity).
  now left.
Defined.

(** X6: [UpgradeRoot] returns the status of a failed signature check of the
    new root as it is, whether the check under the trust anchor or the check
    under the new root itself fails, and hands no root to the backend.  A
    new root without signatures is therefore refused with NotFound, in
    self-verification mode too. *)
Theorem UpgradeRoot_returns_verifier_status (crypto : Crypto) (stack : Stack)
  (st : UpdateBundleAccessor) (new_root trusted : SignedRootMetadata)
  (c : Code) :
  (b <- bundle_ st ;; root_metadata b) = Val new_root ->
  (if disable_verification_ st then Val new_root
   else on_device_root (backend_ st)) = Val trusted ->
  VerifyRootMetadataSignatures crypto (stack NewRootUnderTrustedRoot)
      trusted new_root = Err c \/
  (VerifyRootMetadataSignatures crypto (stack NewRootUnderTrustedRoot)
      trusted new_root = Val true /\
   VerifyRootMetadataSignatures crypto (stack NewRootUnderItself)
      new_root new_root = Err c) ->
  fst (UpgradeRoot crypto stack st) = Err c /\
  forall new_root_bytes,
    ~ In (SafelyPersistRootMetadata new_root_bytes)
         (calls_of (UpgradeRoot crypto stack) st).
Proof.
  intros En Et Hfail. unfold calls_of.
  unfold UpgradeRoot, bind, get, update, lift, ret, fail,
    GetOnDeviceTrustedRoot.
  rewrite En.
  destruct (disable_verification_ st) eqn:Ed; simpl_stage.
  - injection Et as Et. subst trusted.
    destruct Hfail as [E1 | [E1 E2]]; rewrite E1; simpl_stage;
      [|rewrite E2; simpl_stage];
      (split; [reflexivity|]); rewrite skipn_all; intros bs [].
  - rewrite Et. simpl_stage.
    destruct Hfail as [E1 | [E1 E2]]; rewrite E1; simpl_stage;
      [|rewrite E2; simpl_stage];
      (split; [reflexivity|]);
      rewrite skipn_app, skipn_all, Nat.sub_diag; cbn;
      intros bs [H|[]]; discriminate.
Qed.

Lemma UpgradeRoot_returns_verifier_status_witness :
  fst (UpgradeRoot Example.crypto Example.stack
      (Sample.with_unsigned_root true))
  = Err NotFound /\
  forall new_root_bytes,
    ~ In (SafelyPersistRootMetadata new_root_bytes)
         (calls_of (UpgradeRoot Example.crypto Example.stack)
            (Sample.with_unsigned_root true)).
Proof.
  apply (@UpgradeRoot_returns_verifier_status Example.crypto Example.stack
           (Sample.with_unsigned_root true) Sample.unsigned_root
           Sample.unsigned_root NotFound);
    [reflexivity | reflexivity | left; reflexivity].
Defined.

(** X7: a bundle without (readable) root metadata passes [UpgradeRoot] with
    OK and nothing persisted.  In self-verification mode the verification of
    the targets metadata is then a no-op that returns OK without a look at
    the signatures; in normal mode an on-device root that cannot be read
    makes the verification of the targets metadata fail with the status of
    that root. *)
Theorem bundle_without_root (crypto : Crypto) (stack : Stack)
  (st : UpdateBundleAccessor)
  (c : Code) :
  (b <- bundle_ st ;; root_metadata b) = Err c ->
  let st1 := snd (UpgradeRoot crypto stack st) in
  fst (UpgradeRoot crypto stack st) = OkStatus /\
  (forall new_root_bytes,
     ~ In (SafelyPersistRootMetadata new_root_bytes)
          (calls_of (UpgradeRoot crypto stack) st)) /\
  (disable_verification_ st = true ->
   VerifyTargetsMetadata crypto stack st1 = (OkStatus, st1)) /\
  (disable_verification_ st = false ->
   forall c', on_device_root (backend_ st) = Err c' ->
              fst (VerifyTargetsMetadata crypto stack st1) = Err c').
Proof.
  intros En. cbv zeta. unfold calls_of.
  unfold UpgradeRoot, bind, get, update, lift, ret, fail,
    GetOnDeviceTrustedRoot.
  rewrite En.
  destruct (disable_verification_ st) eqn:Ed; simpl_stage.
  - repeat split; try discriminate.
    + rewrite skipn_all. intros bs [].
    + intros _. unfold VerifyTargetsMetadata, bind, get, ret.
      cbn [disable_verification_ set_trusted_root trusted_root_ ok negb andb].
      now rewrite Ed.
  - repeat split; try discriminate.
    + rewrite skipn_app, skipn_all, Nat.sub_diag. cbn.
      intros bs [H|[]]; discriminate.
    + intros _ c' Hroot.
      unfold VerifyTargetsMetadata, bind, get, lift, targets_sig_res.
      cbn [disable_verification_ set_trusted_root record_call trusted_root_
           backend_].
      rewrite Ed, Hroot. reflexivity.
Qed.

Lemma bundle_without_root_witness :
  fst (VerifyTargetsMetadata Example.crypto Example.stack
         (snd (UpgradeRoot Example.crypto Example.stack
             (Sample.rootless false))))
  = Err DataLoss.
Proof.
  apply (proj2 (proj2 (proj2
           (@bundle_without_root Example.crypto Example.stack
               (Sample.rootless false)
              NotFound eq_refl))));
    reflexivity.
Defined.

(** X8: in normal mode a new root that passes the two signature checks and
    the version check is handed to the backend whatever happens to the rest
    of the bundle: the calls of [DoVerify] start with the read of the
    on-device root and that SafelyPersistRootMetadata call, also when the
    verification then fails. *)
Theorem valid_root_is_persisted_first (crypto : Crypto) (stack : Stack)
  (config : Config)
  (st : UpdateBundleAccessor) (new_root trusted : SignedRootMetadata)
  (tv nv : N) :
  PW_SOFTWARE_UPDATE_DISABLE_BUNDLE_VERIFICATION config = false ->
  disable_verification_ st = false ->
  (b <- bundle_ st ;; root_metadata b) = Val new_root ->
  on_device_root (backend_ st) = Val trusted ->
  VerifyRootMetadataSignatures crypto (stack NewRootUnderTrustedRoot)
      trusted new_root = Val true ->
  VerifyRootMetadataSignatures crypto (stack NewRootUnderItself)
      new_root new_root = Val true ->
  root_version trusted = Val tv ->
  root_version new_root = Val nv ->
  (tv <= nv)%N ->
  exists later,
    calls_of (DoVerify crypto stack config) st =
    [GetRootMetadataReader; SafelyPersistRootMetadata (root_to_bytes new_root)]
    ++ later /\
    Forall manifest_read later.
Proof.
  intros Hflag Ed En Et E1 E2 Etv Env Hle.
  destruct (@DoVerify_calls crypto stack config st Hflag) as (later & Ec & Hl).
  exists later. split; [|exact Hl]. rewrite Ec. f_equal.
  now apply (@UpgradeRoot_normal_run crypto stack (set_bundle_verified false st)
               new_root trusted tv nv).
Qed.

Lemma valid_root_is_persisted_first_witness :
  fst (DoVerify Example.crypto Example.stack Example.config
      Sample.upgrade_with_rollback)
  = Err Unauthenticated /\
  exists later,
    calls_of (DoVerify Example.crypto Example.stack Example.config)
      Sample.upgrade_with_rollback =
    [GetRootMetadataReader;
     SafelyPersistRootMetadata (root_to_bytes Example.rotated_root)]
    ++ later /\
    Forall manifest_read later.
Proof.
  split; [reflexivity|].
  apply (@valid_root_is_persisted_first Example.crypto Example.stack
      Example.config
           Sample.upgrade_with_rollback Example.rotated_root
           (Example.signed_root 1) 1%N 2%N);
    vm_compute; (reflexivity || discriminate).
Defined.

(** X9: in self-verification mode the root upgrade and the verification of
    the targets metadata never call the backend, and their answers do not
    depend on what the backend or the blob store would answer. *)
Theorem self_verification_ignores_device (crypto : Crypto) (stack : Stack)
  (st : UpdateBundleAccessor) (blob_store : BlobStore) (backend : Backend) :
  disable_verification_ st = true ->
  let st' := set_collaborators blob_store backend st in
  calls_of (UpgradeRoot crypto stack) st = [] /\
  calls_of (VerifyTargetsMetadata crypto stack) (snd
      (UpgradeRoot crypto stack st)) = [] /\
  fst (UpgradeRoot crypto stack st') = fst (UpgradeRoot crypto stack st) /\
  fst (VerifyTargetsMetadata crypto stack (snd
      (UpgradeRoot crypto stack st'))) =
  fst (VerifyTargetsMetadata crypto stack (snd (UpgradeRoot crypto stack st))).
Proof.
  intros Hd. cbv zeta.
  assert (Hd' : disable_verification_ (set_collaborators blob_store backend st)
                = true) by exact Hd.
  rewrite (UpgradeRoot_self_state crypto stack st Hd).
  rewrite (UpgradeRoot_self_state crypto stack _ Hd').
  cbn [set_collaborators bundle_].
  set (new_root := b <- bundle_ st ;; root_metadata b).
  assert (HU : forall s, disable_verification_ s = true ->
                         calls_of (UpgradeRoot crypto stack) s = []).
  { intros s Hs. apply calls_of_eq.
    rewrite (UpgradeRoot_self_state crypto stack s Hs). cbn.
    now rewrite app_nil_r. }
  assert (HM : forall s, disable_verification_ s = true ->
            VerifyTargetsMetadata crypto stack s =
            (fst (VerifyTargetsMetadata crypto stack s), s)).
  { intros s Hs.
    unfold VerifyTargetsMetadata, bind, get, update, lift, ret, fail.
    rewrite Hs. cbn [andb].
    repeat match goal with
      | |- context [match ?x with _ => _ end] => destruct x; simpl_stage
      | |- context [if ?x then _ else _] => destruct x; simpl_stage
      end; reflexivity. }
  repeat split.
  - now apply HU.
  - apply calls_of_eq. rewrite HM by exact Hd. cbn. now rewrite app_nil_r.
  - unfold UpgradeRoot, bind, get, update, lift, ret, fail.
    cbn [set_collaborators disable_verification_ bundle_]. rewrite Hd.
    fold new_root. simpl_stage.
    repeat match goal with
      | |- context [match ?x with _ => _ end] => destruct x; simpl_stage
      end; reflexivity.
  - unfold VerifyTargetsMetadata, bind, get, update, lift, ret, fail,
      targets_sig_res.
    cbn [set_collaborators set_trusted_root disable_verification_ bundle_
         trusted_root_].
    rewrite Hd. cbn [andb].
    repeat match goal with
      | |- context [match ?x with _ => _ end] => destruct x; simpl_stage
      | |- context [if ?x then _ else _] => destruct x; simpl_stage
      end; reflexivity.
Qed.

Lemma self_verification_ignores_device_witness :
  fst (VerifyTargetsMetadata Example.crypto Example.stack
         (snd (UpgradeRoot Example.crypto Example.stack
                 (set_collaborators (blob_store_ Example.happy)
                    (backend_ (Sample.rootless true))
                    (Example.unsigned_with_root true))))) =
  fst (VerifyTargetsMetadata Example.crypto Example.stack
         (snd (UpgradeRoot Example.crypto Example.stack
                 (Example.unsigned_with_root true)))).
Proof.
  apply (@self_verification_ignores_device Example.crypto Example.stack
           (Example.unsigned_with_root true) (blob_store_ Example.happy)
           (backend_ (Sample.rootless true)) eq_refl).
Defined.

(** ** Payloads: what a verified bundle guarantees *)

Lemma verify_target_file_facts (crypto : Crypto) (config : Config)
  (T : TargetFile) (st : UpdateBundleAccessor) :
  fst (verify_target_file crypto config T st) = OkStatus ->
  well_formed_target config T /\
  forall name payload,
    file_name T = Val name ->
    bundled_payload st name = Val payload ->
    payload_matches crypto T payload.
Proof.
  unfold verify_target_file, bind, lift, fail, well_formed_target,
    payload_matches, sha256_entry.
  destruct (file_name T) as [name|c] eqn:En; [|discriminate].
  destruct (ReadProtoString (Val name) (MAX_TARGET_NAME_LENGTH config))
    as [target_name|c] eqn:Er; [|discriminate].
  assert (Hname : name <> [] /\
                  (List.length name <= MAX_TARGET_NAME_LENGTH config)%nat).
  { unfold ReadProtoString in Er.
    destruct (Nat.ltb_spec (MAX_TARGET_NAME_LENGTH config)
                (List.length name)) as [|Hfit]; [discriminate|].
    apply Read_Val in Er as (bs & E & Hne & _). injection E as <-.
    now split. }
  apply ReadProtoString_Val in Er. subst target_name.
  destruct (file_length T) as [len|c] eqn:El; [|discriminate].
  destruct (N.ltb_spec (PW_SOFTWARE_UPDATE_MAX_TARGET_PAYLOAD_SIZE config)
              len) as [|Hlen]; [discriminate|].
  destruct (target_sha256_of (hashes T)) as [expected|c] eqn:Eh;
    [|discriminate].
  destruct expected as [digest|c]; cbn [status]; [|discriminate].
  unfold VerifyTargetPayload, get. rewrite bind_eq.
  intros H. split.
  - exists name, len, digest. tauto.
  - intros name' payload Hn' Hp. injection Hn' as <-.
    rewrite Hp in H. unfold lift in H. cbn [fst] in H.
    apply VerifyInBundleTargetPayload_ok in H as [Hl Hd].
    injection Hd as ->. exists len, (sha256 crypto payload). now repeat split.
Qed.

Lemma verify_target_files_facts (crypto : Crypto) (config : Config)
  (files : list TargetFile) :
  forall st,
    fst (verify_target_files crypto config files st) = OkStatus ->
    forall T, In T files ->
      well_formed_target config T /\
      forall name payload,
        file_name T = Val name ->
        bundled_payload st name = Val payload ->
        payload_matches crypto T payload.
Proof.
  induction files as [|f files IH]; intros st Hok T HT; [destruct HT|].
  cbn [verify_target_files] in Hok. rewrite bind_eq in Hok.
  pose proof (@verify_target_file_facts crypto config f st) as Hf.
  assert (Hst : stage manifest_read (verify_target_file crypto config f)).
  { unfold verify_target_file, VerifyTargetPayload.
    stage_steps; apply stage_VerifyOutOfBundleTargetPayload. }
  destruct (@stage_bundle _ _ _ st Hst) as (Hb & _).
  destruct (verify_target_file crypto config f st) as [[[]|c] st1];
    cbn [fst snd] in *; [|discriminate].
  destruct HT as [<-|HT]; [now apply Hf|].
  destruct (IH st1 Hok T HT) as [Hw Hp]. split; [exact Hw|].
  intros name payload Hn Hpl. apply (Hp name payload Hn).
  unfold bundled_payload in *. now rewrite Hb.
Qed.

(** [DoVerify] leaves the bundle, the collaborators, the reader and the mode
    as they are. *)
Lemma DoVerify_same_bundle (crypto : Crypto) (stack : Stack) (config : Config)
  (st : UpdateBundleAccessor) :
  same_bundle st (snd (DoVerify crypto stack config st)).
Proof.
  assert (Hstage : forall (m : M unit) s, stage manifest_read m \/
                                          stage (fun _ => True) m ->
                                          same_bundle s (snd (m s))).
  { intros m s [H|H]; destruct (H s) as [(a & b & c & d & e & _) _];
      now repeat split. }
  assert (Htrans : forall a b c, same_bundle a b -> same_bundle b c ->
                                 same_bundle a c).
  { intros a b c (a1 & a2 & a3 & a4 & a5) (b1 & b2 & b3 & b4 & b5).
    repeat split; congruence. }
  unfold DoVerify.
  destruct (PW_SOFTWARE_UPDATE_DISABLE_BUNDLE_VERIFICATION config);
    [now repeat split|].
  rewrite bind_eq. cbn [update].
  set (st0 := set_bundle_verified false st).
  assert (H0 : same_bundle st st0) by now repeat split.
  pose proof (Hstage (UpgradeRoot crypto stack) st0
                (or_intror (stage_UpgradeRoot crypto stack))) as H1.
  rewrite bind_eq.
  destruct (UpgradeRoot crypto stack st0) as [[[]|c] st1]; cbn [snd] in *;
    [|now apply (Htrans _ st0)].
  pose proof (Hstage (VerifyTargetsMetadata crypto stack) st1
                (or_introl (stage_VerifyTargetsMetadata crypto stack))) as H2.
  rewrite bind_eq.
  destruct (VerifyTargetsMetadata crypto stack st1) as [[[]|c] st2];
    cbn [snd] in *;
    [|apply (Htrans _ st0); [exact H0|]; now apply (Htrans _ st1)].
  pose proof (Hstage (VerifyTargetsPayloads crypto config) st2
                (or_introl (stage_VerifyTargetsPayloads crypto config)))
    as H3.
  rewrite bind_eq.
  assert (H03 : same_bundle st
                  (snd (VerifyTargetsPayloads crypto config st2))).
  { apply (Htrans _ st0); [exact H0|]. apply (Htrans _ st1); [exact H1|].
    now apply (Htrans _ st2). }
  destruct (VerifyTargetsPayloads crypto config st2) as [[[]|c] st3];
    cbn [snd update] in *; [|exact H03].
  destruct H03 as (a & b & c & d & e). now repeat split.
Qed.

(** What a successful verification has checked about each target file. *)
Lemma DoVerify_targets_facts (crypto : Crypto) (stack : Stack) (config : Config)
  (st : UpdateBundleAccessor) :
  PW_SOFTWARE_UPDATE_DISABLE_BUNDLE_VERIFICATION config = false ->
  fst (DoVerify crypto stack config st) = OkStatus ->
  exists files,
    GetTargetFiles (FromBundle (bundle_ st)) = Val files /\
    forall T, In T files ->
      well_formed_target config T /\
      forall name payload,
        file_name T = Val name ->
        bundled_payload st name = Val payload ->
        payload_matches crypto T payload.
Proof.
  intros Hflag Hok.
  destruct (@DoVerify_stages crypto stack config st Hflag)
    as [(_ & _ & H3 & _) | (c & Hc & _)];
    [|rewrite Hc in Hok; discriminate].
  set (st0 := set_bundle_verified false st) in *.
  set (st1 := snd (UpgradeRoot crypto stack st0)) in *.
  set (st2 := snd (VerifyTargetsMetadata crypto stack st1)) in *.
  destruct (@stage_bundle _ _ _ st0 (stage_UpgradeRoot crypto stack))
    as (B1 & _).
  destruct (@stage_bundle _ _ _ st1 (stage_VerifyTargetsMetadata crypto stack))
    as (B2 & _).
  fold st1 in B1. fold st2 in B2.
  assert (Bst : bundle_ st2 = bundle_ st) by (rewrite B2, B1; reflexivity).
  unfold VerifyTargetsPayloads, get in H3. rewrite bind_eq in H3.
  unfold lift in H3. rewrite bind_eq in H3.
  destruct (FromBundle (bundle_ st2)) as [tm|c] eqn:Em; cbn [status] in H3;
    [|discriminate].
  rewrite bind_eq in H3.
  destruct (GetTargetFiles (Val tm)) as [files|c] eqn:Ef; [|discriminate].
  exists files. rewrite <- Bst, Em. split; [exact Ef|].
  intros T HT.
  destruct (@verify_target_files_facts crypto config files st2 H3 T HT)
    as [Hw Hp].
  split; [exact Hw|]. intros name payload Hn Hpl.
  apply (Hp name payload Hn). unfold bundled_payload in *. now rewrite Bst.
Qed.

(** X10: after a successful verification (compiled in) every target file of
    the bundle manifest has a non-empty name of at most
    MAX_TARGET_NAME_LENGTH bytes, a length of at most
    PW_SOFTWARE_UPDATE_MAX_TARGET_PAYLOAD_SIZE, and a SHA256 entry. *)
Theorem verified_targets_are_well_formed (crypto : Crypto) (stack : Stack)
  (config : Config)
  (st : UpdateBundleAccessor) :
  PW_SOFTWARE_UPDATE_DISABLE_BUNDLE_VERIFICATION config = false ->
  fst (DoVerify crypto stack config st) = OkStatus ->
  exists files,
    GetTargetFiles (FromBundle (bundle_ st)) = Val files /\
    forall T, In T files -> well_formed_target config T.
Proof.
  intros Hflag Hok.
  destruct (@DoVerify_targets_facts crypto stack config st Hflag Hok)
    as (files & Ef & Hall).
  exists files. split; [exact Ef|]. intros T HT. now apply Hall.
Qed.

Lemma verified_targets_are_well_formed_witness :
  exists files,
    GetTargetFiles (FromBundle (bundle_ Example.happy)) = Val files /\
    forall T, In T files -> well_formed_target Example.config T.
Proof.
  apply (@verified_targets_are_well_formed Example.crypto Example.stack
      Example.config
           Example.happy); reflexivity.
Defined.

(** X11: after a successful verification (compiled in) every payload the
    bundle carries under the name of a target file of its manifest has the
    length and the SHA-256 digest that target file states: a payload in the
    bundle is always measured, with or without personalization, and a wrong
    one is never excused by the on-device manifest. *)
Theorem bundled_payloads_are_measured (crypto : Crypto) (stack : Stack)
  (config : Config)
  (st : UpdateBundleAccessor) :
  PW_SOFTWARE_UPDATE_DISABLE_BUNDLE_VERIFICATION config = false ->
  fst (DoVerify crypto stack config st) = OkStatus ->
  exists files,
    GetTargetFiles (FromBundle (bundle_ st)) = Val files /\
    forall T name payload,
      In T files ->
      file_name T = Val name ->
      bundled_payload st name = Val payload ->
      payload_matches crypto T payload.
Proof.
  intros Hflag Hok.
  destruct (@DoVerify_targets_facts crypto stack config st Hflag Hok)
    as (files & Ef & Hall).
  exists files. split; [exact Ef|]. intros T name payload HT.
  now apply Hall.
Qed.

Lemma bundled_payloads_are_measured_witness :
  exists files,
    GetTargetFiles (FromBundle (bundle_ Example.happy)) = Val files /\
    forall T name payload,
      In T files ->
      file_name T = Val name ->
      bundled_payload Example.happy name = Val payload ->
      payload_matches Example.crypto T payload.
Proof.
  apply (@bundled_payloads_are_measured Example.crypto Example.stack
      Example.config
           Example.happy); reflexivity.
Defined.

(** X12: when personalization is not compiled in, a bundle that passes
    verification carries, for every target file of its manifest, a payload
    of the stated length and digest. *)
Theorem verified_bundle_is_complete (crypto : Crypto) (stack : Stack)
  (config : Config)
  (st : UpdateBundleAccessor) :
  PW_SOFTWARE_UPDATE_DISABLE_BUNDLE_VERIFICATION config = false ->
  PW_SOFTWARE_UPDATE_WITH_PERSONALIZATION config = false ->
  fst (DoVerify crypto stack config st) = OkStatus ->
  exists files,
    GetTargetFiles (FromBundle (bundle_ st)) = Val files /\
    forall T, In T files -> payload_in_bundle crypto (bundle_ st) T.
Proof.
  intros Hflag Hpers Hok.
  destruct (@DoVerify_payloads_measured crypto stack config st Hflag Hok)
    as (files & Ef & Hall).
  exists files. split; [exact Ef|]. intros T HT.
  destruct (Hall T HT) as [Hin | [Hp _]]; [exact Hin | congruence].
Qed.

Lemma verified_bundle_is_complete_witness :
  exists files,
    GetTargetFiles (FromBundle (bundle_ Example.happy)) = Val files /\
    forall T, In T files ->
              payload_in_bundle Example.crypto (bundle_ Example.happy) T.
Proof.
  apply (@verified_bundle_is_complete Example.crypto Example.stack
      Example.config
           Example.happy); reflexivity.
Defined.

Lemma OpenAndVerify_ok_inv (crypto : Crypto) (stack : Stack) (config : Config)
  (st : UpdateBundleAccessor) :
  fst (OpenAndVerify crypto stack config st) = OkStatus ->
  exists st1,
    DoOpen st = (OkStatus, st1) /\
    fst (DoVerify crypto stack config st1) = OkStatus /\
    snd (OpenAndVerify crypto stack config st) = snd
        (DoVerify crypto stack config st1).
Proof.
  unfold OpenAndVerify. rewrite bind_eq.
  destruct (DoOpen st) as [[[]|c] st1]; cbn [fst snd]; [|discriminate].
  intros H. exists st1. split; [reflexivity|].
  destruct (DoVerify crypto stack config st1) as [[[]|c] st2]; cbn
      [fst snd] in *;
    [now split | discriminate].
Qed.

(** X13: after [OpenAndVerify] has returned OK (verification compiled in),
    every payload [GetTargetPayload] hands out for a name is the payload of
    the first manifest entry of that name, and has the length and the
    SHA-256 digest that entry states. *)
Theorem GetTargetPayload_is_measured (crypto : Crypto) (stack : Stack)
  (config : Config)
  (st : UpdateBundleAccessor) :
  PW_SOFTWARE_UPDATE_DISABLE_BUNDLE_VERIFICATION config = false ->
  fst (OpenAndVerify crypto stack config st) = OkStatus ->
  let st' := snd (OpenAndVerify crypto stack config st) in
  forall name payload,
    GetTargetPayload st' name = Val payload ->
    exists T,
      GetTargetFile (GetManifest st') name = Val T /\
      file_name T = Val name /\
      payload_matches crypto T payload.
Proof.
  intros Hflag Hok. cbv zeta.
  destruct (OpenAndVerify_ok_inv crypto stack config st Hok)
    as (st1 & _ & Hv & ->).
  destruct (@DoVerify_targets_facts crypto stack config st1 Hflag Hv)
    as (files & Ef & Hall).
  destruct (DoVerify_same_bundle crypto stack config st1) as
      (_ & _ & _ & Hb & _).
  pose proof (DoVerify_latch crypto stack config st1) as Hl. rewrite Hv in Hl.
  set (st2 := snd (DoVerify crypto stack config st1)) in *.
  intros name payload Hget. unfold GetTargetPayload in Hget.
  assert (Hman : GetManifest st2 = FromBundle (bundle_ st1)).
  { unfold GetManifest. now rewrite Hl, Hb. }
  rewrite Hman in *.
  destruct (GetTargetFile (FromBundle (bundle_ st1)) name) as [T|c] eqn:ET;
    [|discriminate].
  cbn [try] in Hget. exists T. split; [reflexivity|].
  unfold GetTargetFile in ET. rewrite Ef in ET. cbn [try] in ET.
  apply find_target_file_In in ET as [HT Hn]. split; [exact Hn|].
  apply (proj2 (Hall T HT) name payload Hn).
  unfold bundled_payload in *. now rewrite <- Hb.
Qed.

Lemma GetTargetPayload_is_measured_witness :
  exists T,
    GetTargetFile (GetManifest Sample.verified) Example.fw_bin = Val T /\
    file_name T = Val Example.fw_bin /\
    payload_matches Example.crypto T Example.fw_payload.
Proof.
  apply (@GetTargetPayload_is_measured Example.crypto Example.stack
      Example.config
           (constructed (blob_store_ Example.happy) (backend_ Example.happy)
              false) eq_refl eq_refl Example.fw_bin Example.fw_payload).
  reflexivity.
Defined.

(** X14: when [OpenAndVerify] fails on an accessor that was not verified
    before, nothing is handed out afterwards: [GetManifest],
    [GetTargetPayload] for every name and [GetTotalPayloadSize] return
    FailedPrecondition, and [PersistManifest] returns FailedPrecondition
    without a single call on the backend. *)
Theorem nothing_handed_out_after_failure (crypto : Crypto) (stack : Stack)
  (config : Config)
  (st : UpdateBundleAccessor) :
  bundle_verified_ st = false ->
  fst (OpenAndVerify crypto stack config st) <> OkStatus ->
  let st' := snd (OpenAndVerify crypto stack config st) in
  GetManifest st' = Err FailedPrecondition /\
  (forall name, GetTargetPayload st' name = Err FailedPrecondition) /\
  (forall indeterminate,
     GetTotalPayloadSize config indeterminate st' = Err FailedPrecondition) /\
  (forall w, PersistManifest w st' = (Returns (Err FailedPrecondition), [])).
Proof.
  intros Hst Hfail. cbv zeta.
  pose proof (proj2
      (OpenAndVerify_latch crypto stack config st) Hfail Hst) as Hl.
  assert (Hm : GetManifest (snd (OpenAndVerify crypto stack config st))
               = Err FailedPrecondition).
  { unfold GetManifest. now rewrite Hl. }
  repeat split.
  - exact Hm.
  - intros name. unfold GetTargetPayload. now rewrite Hm.
  - intros u. unfold GetTotalPayloadSize. now rewrite Hm.
  - intros w. unfold PersistManifest. now rewrite Hm.
Qed.

Lemma nothing_handed_out_after_failure_witness :
  GetManifest Sample.rejected = Err FailedPrecondition /\
  (forall name, GetTargetPayload Sample.rejected name
                = Err FailedPrecondition) /\
  (forall indeterminate,
     GetTotalPayloadSize Example.config indeterminate Sample.rejected
     = Err FailedPrecondition) /\
  (forall w, PersistManifest w Sample.rejected
             = (Returns (Err FailedPrecondition), [])).
Proof.
  apply (@nothing_handed_out_after_failure Example.crypto Example.stack
      Example.config
           (constructed (blob_store_ Example.root_rollback)
              (backend_ Example.root_rollback) false) eq_refl).
  vm_compute. discriminate.
Defined.

(** X15: [GetTargetPayload] on a proto string agrees with [GetTargetPayload]
    on the bytes of the string when the string is not empty and fits the
    name buffer; a longer string is refused with ResourceExhausted, an empty
    one with OutOfRange, and never looked up under a shortened name. *)
Theorem GetTargetPayload_String_reads_whole_name (config : Config)
  (st : UpdateBundleAccessor) (name : bytes) :
  ((MAX_TARGET_NAME_LENGTH config < List.length name)%nat ->
   GetTargetPayload_String config st (Val name) = Err ResourceExhausted) /\
  (name = [] ->
   GetTargetPayload_String config st (Val name) = Err OutOfRange) /\
  (name <> [] ->
   (List.length name <= MAX_TARGET_NAME_LENGTH config)%nat ->
   GetTargetPayload_String config st (Val name) = GetTargetPayload st name).
Proof.
  unfold GetTargetPayload_String, ReadProtoString. repeat split.
  - intros H.
    destruct (Nat.ltb_spec (MAX_TARGET_NAME_LENGTH config)
                (List.length name)); [reflexivity | lia].
  - intros ->. reflexivity.
  - intros Hne Hfit.
    destruct (Nat.ltb_spec (MAX_TARGET_NAME_LENGTH config)
                (List.length name)); [lia|].
    destruct name as [|x name]; [congruence|].
    cbn [Read try]. now rewrite firstn_all2.
Qed.

Lemma GetTargetPayload_String_reads_whole_name_witness :
  GetTargetPayload_String Example.config Sample.verified
    (Val Example.fw_bin) = GetTargetPayload Sample.verified Example.fw_bin.
Proof.
  apply (proj2 (proj2 (GetTargetPayload_String_reads_whole_name
                         Example.config Sample.verified Example.fw_bin)));
    [discriminate | vm_compute; lia].
Defined.

Lemma total_payload_loop_defined (config : Config)
  (payloads : list (bytes * bytes)) (targets : list TargetFile) :
  (forall T, In T targets -> well_formed_target config T) ->
  forall u, exists r, total_payload_loop config payloads targets u = Val r.
Proof.
  induction targets as [|T rest IH]; intros Hw u; [now exists u|].
  cbn [total_payload_loop].
  destruct (Hw T (or_introl eq_refl))
    as (name & len & digest & Hn & Hne & Hfit & Hl & _ & _).
  rewrite Hn. cbn [try].
  destruct (Nat.ltb_spec (MAX_TARGET_NAME_LENGTH config) (List.length name));
    [lia|].
  destruct name as [|x name]; [congruence|]. cbn [Read try].
  assert (Hrest : forall T', In T' rest -> well_formed_target config T')
    by (intros T' H'; apply Hw; now right).
  destruct (ok (lookup payloads _)); cbn [negb].
  - rewrite Hl. cbn [try]. now apply IH.
  - now apply IH.
Qed.

(** X16: after a successful verification (compiled in) of a bundle whose
    payload map is readable, [GetTotalPayloadSize] does not fail: it returns
    the value held by its uninitialised variable plus the lengths of the
    manifest entries whose payloads are in the bundle, modulo 2^64. *)
Theorem GetTotalPayloadSize_after_verification (crypto : Crypto) (stack : Stack)
  (config : Config) (st : UpdateBundleAccessor)
  (payloads : list (bytes * bytes)) (indeterminate : N) :
  PW_SOFTWARE_UPDATE_DISABLE_BUNDLE_VERIFICATION config = false ->
  fst (DoVerify crypto stack config st) = OkStatus ->
  (b <- bundle_ st ;; target_payloads b) = Val payloads ->
  (indeterminate < 2 ^ 64)%N ->
  exists targets,
    GetTargetFiles (FromBundle (bundle_ st)) = Val targets /\
    GetTotalPayloadSize config indeterminate (snd
        (DoVerify crypto stack config st))
    = Val (add_u64 indeterminate (sum_of_present_lengths payloads targets)).
Proof.
  intros Hflag Hok Hp Hu.
  destruct (@DoVerify_targets_facts crypto stack config st Hflag Hok)
    as (files & Ef & Hall).
  destruct (DoVerify_same_bundle crypto stack config st) as
      (_ & _ & _ & Hb & _).
  pose proof (DoVerify_latch crypto stack config st) as Hl. rewrite Hok in Hl.
  change (ok OkStatus) with true in Hl.
  exists files. split; [exact Ef|].
  unfold GetTotalPayloadSize, GetManifest. rewrite Hl, Hb. cbn [negb ok].
  rewrite Ef, Hp. cbn [try].
  destruct (@total_payload_loop_defined config payloads files
              (fun T HT => proj1 (Hall T HT)) indeterminate) as (r & Er).
  rewrite Er. f_equal.
  now apply (@total_payload_loop_sum config payloads files).
Qed.

Lemma GetTotalPayloadSize_after_verification_witness :
  exists targets,
    GetTargetFiles (FromBundle (bundle_ Example.happy)) = Val targets /\
    GetTotalPayloadSize Example.config 0
      (snd (DoVerify Example.crypto Example.stack Example.config Example.happy))
    = Val (add_u64 0
             (sum_of_present_lengths
                [(Example.fw_bin, Example.fw_payload)] targets)).
Proof.
  apply (@GetTotalPayloadSize_after_verification Example.crypto Example.stack
           Example.config Example.happy
           [(Example.fw_bin, Example.fw_payload)] 0%N);
    reflexivity.
Defined.

(** ** What an accepted bundle guarantees in normal mode *)

Ltac simpl_stage_in H :=
  cbn -[GetMetadataVersion VerifyRootMetadataSignatures
        VerifyMetadataSignatures GetVersion] in H.

(** In normal mode [UpgradeRoot] returns OK on a new root only after the two
    signature checks, the version check and the backend's OK. *)
Lemma UpgradeRoot_ok_inv (crypto : Crypto) (stack : Stack)
  (st : UpdateBundleAccessor)
  (new_root : SignedRootMetadata) :
  disable_verification_ st = false ->
  (b <- bundle_ st ;; root_metadata b) = Val new_root ->
  fst (UpgradeRoot crypto stack st) = OkStatus ->
  exists trusted tv nv,
    on_device_root (backend_ st) = Val trusted /\
    VerifyRootMetadataSignatures crypto (stack NewRootUnderTrustedRoot)
      trusted new_root = Val true /\
    VerifyRootMetadataSignatures crypto (stack NewRootUnderItself)
      new_root new_root = Val true /\
    root_version trusted = Val tv /\
    root_version new_root = Val nv /\
    (tv <= nv)%N /\
    persist_root_status (backend_ st) (root_to_bytes new_root) = OkStatus.
Proof.
  intros Ed En. unfold root_version.
  unfold UpgradeRoot, bind, get, update, lift, ret, fail,
    GetOnDeviceTrustedRoot.
  rewrite En, Ed. simpl_stage.
  destruct (on_device_root (backend_ st)) as [tr|c] eqn:Et; simpl_stage;
    [|discriminate].
  destruct (VerifyRootMetadataSignatures crypto (stack NewRootUnderTrustedRoot)
      tr new_root) as [[|]|c]
    eqn:E1; simpl_stage; try discriminate.
  destruct (VerifyRootMetadataSignatures crypto (stack NewRootUnderItself)
      new_root new_root)
    as [[|]|c] eqn:E2; simpl_stage; try discriminate.
  destruct (serialized_root_metadata tr) as [tc|c] eqn:Etc; simpl_stage;
    [|discriminate].
  destruct (GetMetadataVersion (root_common_metadata (as_message tc)))
    as [tv|c] eqn:Etv; simpl_stage; [|discriminate].
  destruct (serialized_root_metadata new_root) as [nc|c] eqn:Enc;
    simpl_stage; [|discriminate].
  destruct (GetMetadataVersion (root_common_metadata (as_message nc)))
    as [nv|c] eqn:Env; simpl_stage; [|discriminate].
  destruct (N.ltb_spec nv tv) as [|Hle]; simpl_stage; [discriminate|].
  intros Hp. exists tr, tv, nv. rewrite Etc. cbn [try].
  repeat split; assumption.
Qed.

(** In normal mode [VerifyTargetsMetadata] returns OK only after the
    signatures have verified and the anti-rollback check has passed or was
    skipped for a manifest reported as NotFound. *)
Lemma VerifyTargetsMetadata_ok_inv (crypto : Crypto) (stack : Stack)
  (st : UpdateBundleAccessor) :
  disable_verification_ st = false ->
  fst (VerifyTargetsMetadata crypto stack st) = OkStatus ->
  exists top,
    targets_sig_res crypto stack st = Val (top, OkStatus) /\
    (IsNotFound (device_manifest (backend_ st)) = true \/
     exists current_version new_version,
       GetVersion (device_manifest (backend_ st)) = Val current_version /\
       GetMetadataVersion
         (m <- top ;; targets_common_metadata (as_message m))
       = Val new_version /\
       (current_version <= new_version)%N).
Proof.
  intros Ed. unfold device_manifest.
  unfold VerifyTargetsMetadata, GetOnDeviceManifest, bind, get, update, lift,
    ret, fail.
  rewrite Ed. cbn [andb].
  destruct (targets_sig_res crypto stack st) as [[top sig_res]|c]; simpl_stage;
    [|discriminate].
  destruct sig_res as [[]|c]; simpl_stage; [|discriminate].
  intros H. exists top. split; [reflexivity|].
  destruct (before_manifest_read_status (backend_ st)) as [[]|c];
    simpl_stage_in H.
  - destruct (IsNotFound (on_device_manifest (backend_ st))) eqn:Enf;
      [now left|]. right.
    destruct (GetVersion (on_device_manifest (backend_ st))) as [cv|c];
      simpl_stage_in H; [|discriminate].
    destruct (GetMetadataVersion _) as [nv|c] eqn:Env; simpl_stage_in H;
      [|discriminate].
    destruct (N.ltb_spec nv cv); simpl_stage_in H; [discriminate|].
    now exists cv, nv.
  - left. destruct c; simpl_stage_in H; try discriminate. reflexivity.
Qed.

(** X17: in normal mode, when [DoVerify] (compiled in) returns OK on a
    bundle that carries a new root, that root has valid signatures under the
    on-device root and under itself, its version is not below the version of
    the on-device root, and the backend has answered OK to its
    persistence. *)
Theorem accepted_root_is_verified (crypto : Crypto) (stack : Stack)
  (config : Config)
  (st : UpdateBundleAccessor) (new_root : SignedRootMetadata) :
  PW_SOFTWARE_UPDATE_DISABLE_BUNDLE_VERIFICATION config = false ->
  disable_verification_ st = false ->
  (b <- bundle_ st ;; root_metadata b) = Val new_root ->
  fst (DoVerify crypto stack config st) = OkStatus ->
  exists trusted tv nv,
    on_device_root (backend_ st) = Val trusted /\
    VerifyRootMetadataSignatures crypto (stack NewRootUnderTrustedRoot)
      trusted new_root = Val true /\
    VerifyRootMetadataSignatures crypto (stack NewRootUnderItself)
      new_root new_root = Val true /\
    root_version trusted = Val tv /\
    root_version new_root = Val nv /\
    (tv <= nv)%N /\
    persist_root_status (backend_ st) (root_to_bytes new_root) = OkStatus.
Proof.
  intros Hflag Ed En Hok.
  destruct (@DoVerify_stages crypto stack config st Hflag)
    as [(H1 & _) | (c & Hc & _)]; [|rewrite Hc in Hok; discriminate].
  exact (@UpgradeRoot_ok_inv crypto stack
      (set_bundle_verified false st) new_root
           Ed En H1).
Qed.

Lemma accepted_root_is_verified_witness :
  exists trusted tv nv,
    on_device_root (backend_ Example.rotation) = Val trusted /\
    VerifyRootMetadataSignatures Example.crypto
        (Example.stack NewRootUnderTrustedRoot)
      trusted Example.rotated_root
    = Val true /\
    VerifyRootMetadataSignatures Example.crypto
        (Example.stack NewRootUnderItself)
      Example.rotated_root Example.rotated_root = Val true /\
    root_version trusted = Val tv /\
    root_version Example.rotated_root = Val nv /\
    (tv <= nv)%N /\
    persist_root_status (backend_ Example.rotation)
      (root_to_bytes Example.rotated_root) = OkStatus.
Proof.
  apply (@accepted_root_is_verified Example.crypto Example.stack Example.config
           Example.rotation Example.rotated_root); reflexivity.
Defined.

(** X18: in normal mode, when [DoVerify] (compiled in) returns OK, the
    on-device root is readable and the signatures of the top-level targets
    metadata of the bundle have verified, with OK from
    [VerifyMetadataSignatures], under the key mapping and the targets
    signature requirement of the on-device root as [UpgradeRoot] has read
    it: also when the bundle carries a new root, which has then just been
    persisted. *)
Theorem accepted_targets_are_signed (crypto : Crypto) (stack : Stack)
  (config : Config)
  (st : UpdateBundleAccessor) :
  PW_SOFTWARE_UPDATE_DISABLE_BUNDLE_VERIFICATION config = false ->
  disable_verification_ st = false ->
  fst (DoVerify crypto stack config st) = OkStatus ->
  exists trusted top,
    on_device_root (backend_ st) = Val trusted /\
    targets_sig_res crypto stack (set_trusted_root (Val trusted) st)
    = Val (top, OkStatus).
Proof.
  intros Hflag Ed Hok.
  destruct (@DoVerify_stages crypto stack config st Hflag)
    as [(_ & H2 & _) | (c & Hc & _)]; [|rewrite Hc in Hok; discriminate].
  set (st0 := set_bundle_verified false st) in *.
  set (st1 := snd (UpgradeRoot crypto stack st0)) in *.
  destruct (@stage_bundle _ _ _ st0 (stage_UpgradeRoot crypto stack))
    as (B1 & _ & D1 & _).
  fold st1 in B1, D1.
  assert (Ed1 : disable_verification_ st1 = false) by (rewrite D1; exact Ed).
  destruct (VerifyTargetsMetadata_ok_inv crypto stack st1 Ed1 H2)
    as (top & Hsig & _).
  pose proof (UpgradeRoot_anchor crypto stack st0) as Ha. fold st1 in Ha.
  cbn [st0 set_bundle_verified disable_verification_ backend_] in Ha.
  rewrite Ed in Ha.
  assert (Hsame : targets_sig_res crypto stack st1 =
                  targets_sig_res crypto stack
                    (set_trusted_root (on_device_root (backend_ st)) st)).
  { unfold targets_sig_res. cbn [set_trusted_root trusted_root_ bundle_].
    now rewrite Ha, B1. }
  rewrite Hsame in Hsig.
  destruct (on_device_root (backend_ st)) as [trusted|c];
    [|discriminate Hsig].
  now exists trusted, top.
Qed.

Lemma accepted_targets_are_signed_witness :
  exists trusted top,
    on_device_root (backend_ Example.happy) = Val trusted /\
    targets_sig_res Example.crypto Example.stack
      (set_trusted_root (Val trusted) Example.happy)
    = Val (top, OkStatus).
Proof.
  apply (@accepted_targets_are_signed Example.crypto Example.stack
      Example.config
           Example.happy); reflexivity.
Defined.

(** X19: in normal mode, when [DoVerify] (compiled in) returns OK and the
    on-device manifest has a readable version, the version of the targets
    metadata of the bundle is readable and not below it. *)
Theorem accepted_targets_are_fresh (crypto : Crypto) (stack : Stack)
  (config : Config)
  (st : UpdateBundleAccessor) (current_version : N) :
  PW_SOFTWARE_UPDATE_DISABLE_BUNDLE_VERIFICATION config = false ->
  disable_verification_ st = false ->
  GetVersion (device_manifest (backend_ st)) = Val current_version ->
  fst (DoVerify crypto stack config st) = OkStatus ->
  exists new_version,
    GetVersion (FromBundle (bundle_ st)) = Val new_version /\
    (current_version <= new_version)%N.
Proof.
  intros Hflag Ed Hcv Hok.
  destruct (@DoVerify_stages crypto stack config st Hflag)
    as [(_ & H2 & _) | (c & Hc & _)]; [|rewrite Hc in Hok; discriminate].
  set (st0 := set_bundle_verified false st) in *.
  set (st1 := snd (UpgradeRoot crypto stack st0)) in *.
  destruct (@stage_bundle _ _ _ st0 (stage_UpgradeRoot crypto stack))
    as (B1 & K1 & D1 & _).
  fold st1 in B1, K1, D1.
  assert (Ed1 : disable_verification_ st1 = false) by (rewrite D1; exact Ed).
  destruct (VerifyTargetsMetadata_ok_inv crypto stack st1 Ed1 H2)
    as (top & Hsig & Hfresh).
  rewrite K1 in Hfresh. cbn [st0 set_bundle_verified backend_] in Hfresh.
  destruct Hfresh as [Hnf | (cv & nv & Hcv' & Hnv & Hle)].
  { destruct (device_manifest (backend_ st)); discriminate. }
  rewrite Hcv in Hcv'. injection Hcv' as <-.
  exists nv. split; [|exact Hle].
  unfold targets_sig_res in Hsig. rewrite B1 in Hsig.
  cbn [st0 set_bundle_verified bundle_] in Hsig.
  unfold GetVersion, FromBundle, map_at.
  destruct (trusted_root_ st1) as [tr|c]; [|discriminate].
  cbn [try] in Hsig.
  destruct (bundle_ st) as [b|c]; [|discriminate]. cbn [try] in Hsig |- *.
  destruct (targets_metadata b) as [map|c]; [|discriminate].
  cbn [try] in Hsig |- *.
  destruct (lookup map kTopLevelTargetsName) as [signed|c]; [|discriminate].
  cbn [try] in Hsig |- *.
  destruct (targets_signatures signed); [|discriminate]. cbn [try] in Hsig.
  destruct (serialized_root_metadata tr); [|discriminate].
  cbn [try] in Hsig.
  destruct (keys (as_message a0)); [|discriminate]. cbn [try] in Hsig.
  destruct (targets_signature_requirement (as_message a0)); [|discriminate].
  cbn [try] in Hsig. injection Hsig as <- _.
  unfold GetMetadataVersion in Hnv.
  destruct (serialized_targets_metadata signed) as [m|c]; [|discriminate].
  cbn [try] in Hnv |- *.
  destruct (targets_common_metadata (as_message m)) as [cm|c];
    [|discriminate].
  cbn [try] in Hnv |- *.
  destruct (version cm); [exact Hnv | discriminate].
Qed.

Lemma accepted_targets_are_fresh_witness :
  exists new_version,
    GetVersion (FromBundle (bundle_ (Example.targets_at 7)))
    = Val new_version /\
    (7 <= new_version)%N.
Proof.
  apply (@accepted_targets_are_fresh Example.crypto Example.stack Example.config
           (Example.targets_at 7) 7%N); reflexivity.
Defined.

(** ** The life cycle of the accessor *)

Lemma Close_closes (st : UpdateBundleAccessor) :
  blob_store_reader_IsOpen (snd (Close st)) = false /\
  bundle_verified_ (snd (Close st)) = false.
Proof.
  unfold Close, bind, get, update, lift, ret. cbn.
  destruct (blob_store_reader_IsOpen st) eqn:E; cbn; [|now split].
  destruct (Close_status (blob_store_ st)); cbn; now split.
Qed.

(** X20: [Close] clears the latch and leaves the reader closed whatever the
    reader answers, and closing a closed accessor returns OK and changes
    nothing: [Close] is idempotent. *)
Theorem Close_is_idempotent (st : UpdateBundleAccessor) :
  bundle_verified_ (snd (Close st)) = false /\
  blob_store_reader_IsOpen (snd (Close st)) = false /\
  Close (snd (Close st)) = (OkStatus, snd (Close st)).
Proof.
  destruct st as [blob open backend bundle root disable verified calls].
  unfold Close, bind, get, update, lift, ret. cbn.
  destruct open; cbn; [|now repeat split].
  destruct (Close_status blob); cbn; now repeat split.
Qed.

(** X21: [OpenAndVerify] on a closed, unverified accessor either returns OK
    and leaves the reader open and the latch set, or returns an error and
    leaves the reader closed and the latch cleared. *)
Theorem OpenAndVerify_opens_or_closes (crypto : Crypto) (stack : Stack)
  (config : Config)
  (st : UpdateBundleAccessor) :
  blob_store_reader_IsOpen st = false ->
  bundle_verified_ st = false ->
  let st' := snd (OpenAndVerify crypto stack config st) in
  if ok (fst (OpenAndVerify crypto stack config st))
  then blob_store_reader_IsOpen st' = true /\ bundle_verified_ st' = true
  else blob_store_reader_IsOpen st' = false /\ bundle_verified_ st' = false.
Proof.
  intros Hopen Hlatch. cbv zeta.
  unfold OpenAndVerify. rewrite bind_eq.
  unfold DoOpen, bind, get, update, lift, ret, fail.
  destruct (Init_status (blob_store_ st)) as [[]|c]; cbn [fst snd ok];
    [|now split].
  destruct (Open_status (blob_store_ st)) as [[]|c]; cbn [fst snd ok];
    [|now split].
  destruct (blob_message (blob_store_ st)) as [b|c]; cbn [fst snd ok];
    [|now split].
  set (st1 := set_bundle (Val b) (set_reader_IsOpen true st)).
  destruct (DoVerify_same_bundle crypto stack config st1) as (_ & Hr & _).
  pose proof (DoVerify_latch crypto stack config st1) as Hl.
  destruct (DoVerify crypto stack config st1) as [[[]|c] st2]; cbn
      [fst snd ok] in *.
  - now split.
  - destruct (Close_closes st2) as [H1 H2]. now split.
Qed.

Lemma OpenAndVerify_opens_or_closes_witness :
  blob_store_reader_IsOpen Sample.rejected = false /\
  bundle_verified_ Sample.rejected = false.
Proof.
  exact (@OpenAndVerify_opens_or_closes Example.crypto Example.stack
      Example.config
           (constructed (blob_store_ Example.root_rollback)
              (backend_ Example.root_rollback) false) eq_refl eq_refl).
Defined.

(** X22: [PersistManifest] keeps the order of the write protocol.  It calls
    the backend only for a manifest that [GetManifest] hands out; the
    manifest it exports is that manifest, exported only after
    BeforeManifestWrite returned OK and the backend handed out a writer;
    AfterManifestWrite is called only after the export returned OK; and it
    returns OK only when all four calls were made and AfterManifestWrite
    returned OK. *)
Theorem PersistManifest_protocol (w : ManifestWriteBackend)
  (st : UpdateBundleAccessor) :
  let outcome := fst (PersistManifest w st) in
  let calls := snd (PersistManifest w st) in
  (calls <> [] ->
   bundle_verified_ st = true /\ ok (FromBundle (bundle_ st)) = true) /\
  (forall m, In (Export m) calls ->
             GetManifest st = Val m /\
             BeforeManifestWrite_status w = OkStatus /\
             GetManifestWriter_result w = Val true) /\
  (In AfterManifestWrite calls ->
   exists m, Export_status w m = OkStatus /\
             calls = [BeforeManifestWrite; GetManifestWriter; Export m;
                      AfterManifestWrite]) /\
  (outcome = Returns OkStatus ->
   AfterManifestWrite_status w = OkStatus /\
   exists m, calls = [BeforeManifestWrite; GetManifestWriter; Export m;
                      AfterManifestWrite]).
Proof.
  cbv zeta. unfold PersistManifest.
  assert (Hv : forall m, GetManifest st = Val m ->
            bundle_verified_ st = true /\
            ok (FromBundle (bundle_ st)) = true).
  { intros m Em. unfold GetManifest in Em.
    destruct (bundle_verified_ st); cbn in Em; [|discriminate].
    now rewrite Em. }
  destruct (GetManifest st) as [m|c] eqn:Em; cbn [fst snd];
    [specialize (Hv m eq_refl)|];
    [destruct (BeforeManifestWrite_status w) as [[]|c1]; cbn [fst snd];
     [destruct (GetManifestWriter_result w) as [[|]|c2]; cbn [fst snd];
      [destruct (Export_status w m) as [[]|c3] eqn:Ee; cbn [fst snd]| |]|]|];
    (split; [intros Hne; try exact Hv; now elim Hne|]);
    (split; [intros m' Hin;
             repeat (destruct Hin as [Hin|Hin]; try discriminate Hin);
             try (now destruct Hin);
             injection Hin as <-; now repeat split|]);
    (split; [intros Hin;
             repeat (destruct Hin as [Hin|Hin]; try discriminate Hin);
             try (now destruct Hin); now exists m|]);
    intros Hout; try discriminate Hout.
  injection Hout as Hout. split; [exact Hout | now exists m].
Qed.

Lemma PersistManifest_protocol_witness :
  AfterManifestWrite_status Sample.writer = OkStatus /\
  exists m, snd (PersistManifest Sample.writer Sample.verified) =
            [BeforeManifestWrite; GetManifestWriter; Export m;
             AfterManifestWrite].
Proof.
  apply (proj2 (proj2 (proj2
           (PersistManifest_protocol Sample.writer Sample.verified)))).
  reflexivity.
Defined.

(** X23: [ReadProtoString] never shortens a readable string: it returns
    the whole string when the string is not empty and fits the buffer, and
    otherwise an error (ResourceExhausted for a string longer than the
    buffer, OutOfRange for an empty one). *)
Theorem ReadProtoString_reads_whole_string (bs : bytes) (buffer_size : nat) :
  (forall r, ReadProtoString (Val bs) buffer_size = Val r ->
             r = bs /\ bs <> [] /\ (List.length bs <= buffer_size)%nat) /\
  ReadProtoString (Val bs) buffer_size =
  if (buffer_size <? List.length bs)%nat then Err ResourceExhausted
  else match bs with [] => Err OutOfRange | _ => Val bs end.
Proof.
  assert (E : ReadProtoString (Val bs) buffer_size =
              if (buffer_size <? List.length bs)%nat
              then Err ResourceExhausted
              else match bs with [] => Err OutOfRange | _ => Val bs end).
  { cbn [ReadProtoString].
    destruct (Nat.ltb_spec buffer_size (List.length bs)); [reflexivity|].
    destruct bs as [|x bs]; [reflexivity|]. cbn [Read].
    now rewrite firstn_all2. }
  split; [|exact E].
  intros r Hr. rewrite E in Hr.
  destruct (Nat.ltb_spec buffer_size (List.length bs)); [discriminate|].
  destruct bs as [|x bs]; [discriminate|]. injection Hr as <-.
  repeat split; [discriminate | assumption].
Qed.

Lemma ReadProtoString_reads_whole_string_witness :
  Example.fw_bin = Example.fw_bin /\ Example.fw_bin <> [] /\
  (List.length Example.fw_bin <= 32)%nat.
Proof.
  apply (proj1 (ReadProtoString_reads_whole_string Example.fw_bin 32)).
  reflexivity.
Defined.

(** ** The key id in the log *)

(** The two calls of [IntToHex] for a byte pass the assertion and give the
    two hexadecimal digits of the byte, which read back as the byte. *)
Lemma IntToHex_byte (b : byte) :
  exists high low,
    IntToHex (N.land (N.shiftr (Byte.to_N b) 4) 15) = Some high /\
    IntToHex (N.land (Byte.to_N b) 15) = Some low /\
    hex_digits b = [high; low] /\
    is_hex_digit high /\ is_hex_digit low /\
    high <> 0%N /\ low <> 0%N /\
    forall rest bs, unhex rest = Some bs ->
                    unhex (high :: low :: rest) = Some (b :: bs).
Proof.
  destruct b;
    (eexists; eexists;
     split; [vm_compute; reflexivity|];
     split; [vm_compute; reflexivity|];
     split; [vm_compute; reflexivity|];
     split; [unfold is_hex_digit; lia|];
     split; [unfold is_hex_digit; lia|];
     split; [discriminate|];
     split; [discriminate|];
     intros rest bs Hr; cbn [unhex]; rewrite Hr; vm_compute; reflexivity).
Qed.

Lemma store_app (prefix : list N) :
  forall k c array,
    store (List.length prefix + k) c (prefix ++ array) =
    prefix ++ store k c array.
Proof.
  induction prefix as [|x prefix IH]; intros k c array; [reflexivity|].
  cbn [List.length app Nat.add store]. now rewrite IH.
Qed.

Lemma firstn_S_nth_error {A} (l : list A) :
  forall i x, nth_error l i = Some x -> firstn (S i) l = firstn i l ++ [x].
Proof.
  induction l as [|y l IH]; intros [|i] x H; try discriminate.
  - injection H as ->. reflexivity.
  - cbn [nth_error] in H. cbn [firstn app]. f_equal.
    rewrite <- (IH i x H). reflexivity.
Qed.

Lemma hex_digits_length (ks : bytes) :
  List.length (flat_map hex_digits ks) = (2 * List.length ks)%nat.
Proof.
  induction ks as [|k ks IH]; [reflexivity|].
  cbn [flat_map]. rewrite length_app, IH.
  destruct (IntToHex_byte k) as (h & l & _ & _ & -> & _). cbn. lia.
Qed.

(** The loop writes the digits of one byte per turn in front of the
    zeros. *)
Lemma LogKeyId_loop_digits (key_id : bytes) :
  forall remaining i,
    (i + remaining = 32)%nat -> (32 <= List.length key_id)%nat ->
    LogKeyId_loop key_id remaining i
      (flat_map hex_digits (firstn i key_id) ++ repeat 0%N (65 - 2 * i))
    = Some (flat_map hex_digits (firstn 32 key_id) ++ [0%N]).
Proof.
  induction remaining as [|r IH]; intros i Hi Hlen.
  - replace i with 32%nat by lia. reflexivity.
  - cbn [LogKeyId_loop].
    destruct (nth_error key_id i) as [b|] eqn:En.
    2:{ apply nth_error_None in En. lia. }
    destruct (IntToHex_byte b) as (h & l & Hh & Hl & Hd & _).
    cbv zeta. rewrite Hh, Hl.
    assert (Hp : List.length (flat_map hex_digits (firstn i key_id))
                 = (i * 2)%nat).
    { rewrite hex_digits_length, length_firstn. lia. }
    replace (65 - 2 * i)%nat with (S (S (65 - 2 * S i))) by lia.
    cbn [repeat].
    set (written := flat_map hex_digits (firstn i key_id)) in *.
    replace (i * 2 + 1)%nat with (List.length written + 1)%nat by lia.
    replace (i * 2)%nat with (List.length written + 0)%nat by lia.
    rewrite store_app. cbn [store].
    rewrite store_app. cbn [store]. subst written.
    rewrite <- (IH (S i)) by lia.
    rewrite (firstn_S_nth_error key_id i En), flat_map_app.
    cbn [flat_map]. rewrite Hd, app_nil_r, <- app_assoc. reflexivity.
Qed.

Lemma c_string_digits (ks : bytes) :
  c_string (flat_map hex_digits ks ++ [0%N]) = flat_map hex_digits ks.
Proof.
  induction ks as [|k ks IH]; [reflexivity|].
  cbn [flat_map].
  destruct (IntToHex_byte k) as (h & l & _ & _ & -> & _ & _ & Hh & Hl & _).
  cbn [app c_string].
  destruct (N.eqb_spec h 0); [contradiction|].
  destruct (N.eqb_spec l 0); [contradiction|].
  now rewrite IH.
Qed.

Lemma unhex_digits (ks : bytes) : unhex (flat_map hex_digits ks) = Some ks.
Proof.
  induction ks as [|k ks IH]; [reflexivity|].
  cbn [flat_map].
  destruct (IntToHex_byte k) as (h & l & _ & _ & -> & _ & _ & _ & _ & Hu).
  cbn [app]. now apply Hu.
Qed.

Lemma is_hex_digits (ks : bytes) :
  Forall is_hex_digit (flat_map hex_digits ks).
Proof.
  induction ks as [|k ks IH]; [constructor|].
  cbn [flat_map].
  destruct (IntToHex_byte k) as (h & l & _ & _ & -> & Hh & Hl & _).
  cbn [app]. constructor; [exact Hh|]. constructor; [exact Hl|exact IH].
Qed.

(** X24: for a key id of at least 32 bytes, as [VerifyMetadataSignatures]
    passes it, [LogKeyId] fails no assertion and logs a NUL-terminated
    string of 64 lower-case hexadecimal digits, two per byte, that reads
    back as the 32 bytes of the key id: different key ids are logged
    differently. *)
Theorem LogKeyId_logs_the_key_id (key_id : bytes) :
  (32 <= List.length key_id)%nat ->
  exists key_id_str,
    LogKeyId key_id = Some key_id_str /\
    List.length key_id_str = 65%nat /\
    List.length (c_string key_id_str) = 64%nat /\
    Forall is_hex_digit (c_string key_id_str) /\
    c_string key_id_str = flat_map hex_digits (firstn 32 key_id) /\
    unhex (c_string key_id_str) = Some (firstn 32 key_id).
Proof.
  intros Hlen.
  exists (flat_map hex_digits (firstn 32 key_id) ++ [0%N]).
  rewrite c_string_digits.
  assert (H32 : List.length (firstn 32 key_id) = 32%nat)
    by (rewrite length_firstn; lia).
  repeat split.
  - apply (LogKeyId_loop_digits key_id 32 0 eq_refl Hlen).
  - rewrite length_app, hex_digits_length, H32. reflexivity.
  - now rewrite hex_digits_length, H32.
  - apply is_hex_digits.
  - apply unhex_digits.
Qed.

Lemma LogKeyId_logs_the_key_id_witness :
  exists key_id_str,
    LogKeyId Example.K1_id = Some key_id_str /\
    List.length key_id_str = 65%nat /\
    List.length (c_string key_id_str) = 64%nat /\
    Forall is_hex_digit (c_string key_id_str) /\
    c_string key_id_str = flat_map hex_digits (firstn 32 Example.K1_id) /\
    unhex (c_string key_id_str) = Some (firstn 32 Example.K1_id).
Proof.
  apply LogKeyId_logs_the_key_id. vm_compute. lia.
Defined.
